(** * Verification of the worksheet generator

    A shallow embedding of [arithmetic_practice_generator.py]: the random
    problem generators of class [ArithmeticPracticeGenerator] and the page
    layout loops of its two worksheet methods.

    - Python [int] is [Z]; Python [float] is the kernel's binary64
      ([PrimFloat]); Python [str] is [string] holding the UTF-8 bytes.
    - The module [random] is a source of raw draws threaded through the
      code; an exception ends the computation ([Raise]).
    - The PDF canvas is the list of drawing operations sent to it; the
      header of a page records the identifier [create_header_footer] draws
      for its footer, so that a worksheet leaves the random module where
      the code leaves it. *)

From Stdlib Require Import ZArith List String Ascii Bool Lia.
From Stdlib Require Import QArith Qround Qabs Qpower Qfield.
From Stdlib Require Import Floats.
From Stdlib Require Import DecimalString DecimalPos.
Import ListNotations.

Local Open Scope string_scope.
Local Open Scope list_scope.
Local Open Scope Z_scope.

(* ================================================================== *)
(** * Exceptions and the generator monad *)
(* ================================================================== *)

(** The exceptions the modelled code can raise.  [OutOfFuel] is not a Python
    exception: it marks a [while] loop of the model that did not finish
    within its bound (the generators are proved never to produce it). *)
Inductive exn : Type :=
| ValueError (msg : string)        (* raise ValueError(msg) in the source *)
| EmptyRange (lo hi : Z)           (* ValueError of random.randint(lo, hi) *)
| EmptySequence                    (* IndexError of random.choice([]) *)
| IndexError (i : Z)               (* IndexError of a list subscript *)
| ZeroDivisionError
| OverflowError                    (* int() of an infinite float *)
| OutOfFuel.

Inductive result (A : Type) : Type :=
| Ok (a : A)
| Raise (e : exn).
Arguments Ok {A} a.
Arguments Raise {A} e.

(** The state of the random module: an unbounded supply of raw draws. *)
Definition rng : Type := nat -> Z.

Definition advance (g : rng) : rng := fun i => g (S i).

(** A computation that may draw random numbers and may raise. *)
Definition M (A : Type) : Type := rng -> result (A * rng).

Definition ret {A} (a : A) : M A := fun g => Ok (a, g).

Definition bind {A B} (m : M A) (k : A -> M B) : M B :=
  fun g => match m g with
           | Ok (a, g') => k a g'
           | Raise e => Raise e
           end.

Definition raise {A} (e : exn) : M A := fun _ => Raise e.

(** Sequencing of pure code that may raise. *)
Definition result_bind {A B} (r : result A) (k : A -> result B) : result B :=
  match r with Ok a => k a | Raise e => Raise e end.

Definition lift {A} (r : result A) : M A :=
  fun g => match r with Ok a => Ok (a, g) | Raise e => Raise e end.

Notation "x <- m ;; k" := (bind m (fun x => k))
  (at level 61, m at next level, right associativity).
Notation "' pat <- m ;; k" := (bind m (fun x => match x with pat => k end))
  (at level 61, pat pattern, m at next level, right associativity).
Notation "'try' x ':=' r 'in' k" := (result_bind r (fun x => k))
  (at level 61, x name, r at next level, right associativity).
Infix "+++" := String.append (right associativity, at level 60).

(** [random.Random._randbelow(n)] for [n > 0]: a value of [0, n). *)
Definition randbelow (n : Z) : M Z :=
  fun g => Ok (g 0%nat mod n, advance g).

(** [random.randint(lo, hi)]: [randrange(lo, hi + 1)], which raises on an
    empty range and otherwise returns [lo + _randbelow(hi + 1 - lo)]. *)
Definition randint (lo hi : Z) : M Z :=
  if hi <? lo then raise (EmptyRange lo hi)
  else r <- randbelow (hi + 1 - lo) ;; ret (lo + r).

(** [random.choice(seq)]: raises on an empty sequence, else
    [seq[_randbelow(len(seq))]]. *)
Definition choice {A} (seq : list A) : M A :=
  match seq with
  | [] => raise EmptySequence
  | x :: _ =>
      i <- randbelow (Z.of_nat (List.length seq)) ;;
      ret (nth (Z.to_nat i) seq x)
  end.

(** A source whose raw draws are [start], [start + step], ... *)
Definition tape (start step : Z) : rng := fun i => start + step * Z.of_nat i.

(** [range(lo, hi)] as a list. *)
Definition range (lo hi : Z) : list Z :=
  map (fun i => lo + Z.of_nat i) (seq 0 (Z.to_nat (hi - lo))).

(* ================================================================== *)
(** * Arithmetic problems: [generate_problem] *)
(* ================================================================== *)

(** The dict [{'top', 'bottom', 'operation', 'answer'}]. *)
Record ArithmeticProblem : Type := mkProblem {
  top : Z;
  bottom : Z;
  operation : string;
  answer : Z
}.

Definition unknown_operation (op : string) : exn :=
  ValueError ("Unknown operation: " +++ op).

Definition generate_problem (operation : string) (min_val max_val : Z)
    (allow_negative_results : bool) : M ArithmeticProblem :=
  if String.eqb operation "+" then
    a <- randint min_val max_val ;;
    b <- randint min_val max_val ;;
    let answer := a + b in
    ret (mkProblem a b operation answer)
  else if String.eqb operation "-" then
    '(a, b) <- (if allow_negative_results then
                  a <- randint min_val max_val ;;
                  b <- randint min_val max_val ;;
                  ret (a, b)
                else
                  a <- randint min_val max_val ;;
                  b <- randint min_val a ;;
                  ret (a, b)) ;;
    let answer := a - b in
    ret (mkProblem a b operation answer)
  else if String.eqb operation "*" || String.eqb operation "×" then
    a <- randint min_val (Z.min max_val 12) ;;
    b <- randint min_val (Z.min max_val 12) ;;
    let answer := a * b in
    let operation := "×" in
    ret (mkProblem a b operation answer)
  else if String.eqb operation "/" || String.eqb operation "÷" then
    b <- randint (Z.max 1 min_val) (Z.min max_val 12) ;;
    answer <- randint min_val (Z.min max_val 12) ;;
    let a := b * answer in
    let operation := "÷" in
    ret (mkProblem a b operation answer)
  else
    raise (unknown_operation operation).

(** The operator tokens [generate_problem] recognizes. *)
Definition recognized (op : string) : bool :=
  existsb (String.eqb op) ["+"; "-"; "*"; "×"; "/"; "÷"].

(** The ranges [generate_problem] draws from are all non-empty. *)
Definition ranges_nonempty (op : string) (min_val max_val : Z) : bool :=
  if String.eqb op "+" || String.eqb op "-" then min_val <=? max_val
  else if String.eqb op "*" || String.eqb op "×" then
    min_val <=? Z.min max_val 12
  else Z.max 1 min_val <=? Z.min max_val 12.

(* ================================================================== *)
(** * Strings and floats of the powers-of-ten generators *)
(* ================================================================== *)

(** ** Strings *)

(** [str(z)] for an int. *)
Definition str_int (z : Z) : string := NilZero.string_of_int (Z.to_int z).

(** [c * n] for a one-character string. *)
Fixpoint repeat_char (c : ascii) (n : nat) : string :=
  match n with O => "" | S n' => String c (repeat_char c n') end.

(** [s.rstrip(c)] for a single character [c]. *)
Fixpoint rstrip (c : ascii) (s : string) : string :=
  match s with
  | EmptyString => ""
  | String a r =>
      match rstrip c r with
      | EmptyString => if Ascii.eqb a c then "" else String a ""
      | r' => String a r'
      end
  end.

(** [s.rjust(n, '0')]. *)
Definition zero_pad (n : nat) (s : string) : string :=
  repeat_char "0" (n - String.length s) +++ s.

(** ** Floats *)

(** [float(z)]: the nearest binary64 value, ties to even. *)
Definition float_of_Z (z : Z) : float :=
  SF2Prim (SpecFloat.binary_normalize 53 1024 z 0 false).

(** Nearest integer to [num / den] for [den > 0], ties to even. *)
Definition round_half_even (num den : Z) : Z :=
  let q := num / den in
  match 2 * (num mod den) ?= den with
  | Lt => q
  | Gt => q + 1
  | Eq => if Z.even q then q else q + 1
  end.

(** The decimal numeral [N / 10^prec] written with [prec] decimals. *)
Definition fixed_digits (N : Z) (prec : nat) : string :=
  let ds := zero_pad (S prec) (str_int N) in
  let k := (String.length ds - prec)%nat in
  match prec with
  | O => ds
  | _ => substring 0 k ds +++ "." +++ substring k prec ds
  end.

Definition sign_prefix (s : bool) : string := if s then "-" else "".

(** [format(x, '.{prec}f')]: the exact binary value rounded to [prec]
    decimals, ties to even. *)
Definition format_fixed (x : float) (prec : nat) : string :=
  match Prim2SF x with
  | S754_nan => "nan"
  | S754_infinity s => sign_prefix s +++ "inf"
  | S754_zero s => sign_prefix s +++ fixed_digits 0 prec
  | S754_finite s m e =>
      let p10 := 10 ^ Z.of_nat prec in
      let N := if 0 <=? e then Z.pos m * 2 ^ e * p10
               else round_half_even (Z.pos m * p10) (2 ^ (- e)) in
      sign_prefix s +++ fixed_digits N prec
  end.

(** The exact value [m * 2^e] of a finite float's magnitude. *)
Definition Qscale2 (m : Z) (e : Z) : Q := (inject_Z m * Qpower 2 e)%Q.

(** *** [repr(x)]: the shortest decimal string that reads back as [x] *)

(** Does the decimal [d] round to the float of magnitude [m * 2^e]?  The
    rounding interval reaches half way to each neighbour and is closed when
    [m] is even. *)
Definition rounds_to (m : positive) (e : Z) (d : Q) : bool :=
  let x := Qscale2 (Z.pos m) e in
  let up := Qscale2 1 (e - 1) in
  let down := if (Z.pos m =? 2 ^ 52) && (-1074 <? e)
              then Qscale2 1 (e - 2) else Qscale2 1 (e - 1) in
  if Z.even (Z.pos m)
  then Qle_bool (x - down)%Q d && Qle_bool d (x + up)%Q
  else negb (Qle_bool d (x - down)%Q) && negb (Qle_bool (x + up)%Q d).

(** The [k] with [10^(k-1) <= x < 10^k], searched upward from [k]. *)
Fixpoint decimal_point (fuel : nat) (k : Z) (x : Q) : Z :=
  match fuel with
  | O => k
  | S fuel' =>
      if negb (Qle_bool (Qpower 10 k) x) then k
      else decimal_point fuel' (k + 1) x
  end.

(** The shortest digit string: for [nd = 1, 2, ...] the two [nd]-digit
    decimals around [x]; the first length at which one of them rounds to
    [x] gives the digits (the nearer of the two when both do). *)
Fixpoint shortest_digits (fuel : nat) (nd : Z) (m : positive) (e k : Z)
  : Z * Z :=
  let x := Qscale2 (Z.pos m) e in
  let unit := Qpower 10 (k - nd) in
  let lo := Qfloor (x / unit)%Q in
  let hi := lo + 1 in
  let dlo := (inject_Z lo * unit)%Q in
  let dhi := (inject_Z hi * unit)%Q in
  let pick :=
    match rounds_to m e dlo, rounds_to m e dhi with
    | true, true =>
        match (x - dlo) ?= (dhi - x) with
        | Lt => Some lo
        | Gt => Some hi
        | Eq => Some (if Z.even lo then lo else hi)
        end
    | true, false => Some lo
    | false, true => Some hi
    | false, false => None
    end%Q in
  match pick, fuel with
  | Some n, _ => (n, k - nd)
  | None, O =>
      (round_half_even (Qnum (x / unit)%Q) (Z.pos (Qden (x / unit)%Q)), k - nd)
  | None, S fuel' => shortest_digits fuel' (nd + 1) m e k
  end.

(** Drop the trailing zeros of a digit count [n * 10^q]. *)
Fixpoint strip_zeros (fuel : nat) (n q : Z) : Z * Z :=
  match fuel with
  | O => (n, q)
  | S fuel' =>
      if (n mod 10 =? 0) && (0 <? n) then strip_zeros fuel' (n / 10) (q + 1)
      else (n, q)
  end.

(** [repr(x)], which is also [str(x)]: the shortest digits that read back
    as [x], in fixed notation when the decimal point falls after the 4th
    leading zero at most and before the 17th digit, with an exponent
    otherwise. *)
Definition float_repr (x : float) : string :=
  match Prim2SF x with
  | S754_nan => "nan"
  | S754_infinity s => sign_prefix s +++ "inf"
  | S754_zero s => sign_prefix s +++ "0.0"
  | S754_finite s m e =>
      let xq := Qscale2 (Z.pos m) e in
      let k0 := ((Z.log2 (Z.pos m) + e) * 30103) / 100000 - 2 in
      let k := decimal_point 8 k0 xq in
      let '(n, q) := shortest_digits 16 1 m e k in
      let '(n, q) := strip_zeros 20 n q in
      let ds := str_int n in
      let nd := Z.of_nat (String.length ds) in
      let decpt := q + nd in
      let body :=
        if (-4 <? decpt) && (decpt <=? 16) then
          if decpt <=? 0 then
            "0." +++ repeat_char "0" (Z.to_nat (- decpt)) +++ ds
          else if nd <=? decpt then
            ds +++ repeat_char "0" (Z.to_nat (decpt - nd)) +++ ".0"
          else
            substring 0 (Z.to_nat decpt) ds +++ "." +++
            substring (Z.to_nat decpt) (Z.to_nat (nd - decpt)) ds
        else
          let ex := decpt - 1 in
          substring 0 1 ds +++
          (if 1 <? nd then "." +++ substring 1 (Z.to_nat (nd - 1)) ds
           else "") +++
          "e" +++ (if ex <? 0 then "-" else "+") +++
          zero_pad 2 (str_int (Z.abs ex))
      in
      sign_prefix s +++ body
  end.

(** ** Python numbers: [int] or [float] *)

Inductive pynum : Type :=
| PyInt (z : Z)
| PyFloat (f : float).

Definition to_float (x : pynum) : float :=
  match x with PyInt z => float_of_Z z | PyFloat f => f end.

(** [x / y]: true division, always a float.  The quotient of two ints is
    taken on their float values, which is Python's correctly rounded
    quotient as long as both are below 2^53 (the source divides numbers
    below 100). *)
Definition py_truediv (x y : pynum) : result pynum :=
  if (to_float y =? 0)%float then Raise ZeroDivisionError
  else Ok (PyFloat (to_float x / to_float y)).

(** [x * y]. *)
Definition py_mul (x y : pynum) : pynum :=
  match x, y with
  | PyInt a, PyInt b => PyInt (a * b)
  | _, _ => PyFloat (to_float x * to_float y)
  end.

(** [x <= y] and [x < y]; a mixed comparison goes through [float(int)],
    exact for the constants 0, 1 and 10 the source compares with. *)
Definition py_le (x y : pynum) : bool :=
  match x, y with
  | PyInt a, PyInt b => a <=? b
  | _, _ => (to_float x <=? to_float y)%float
  end.

Definition py_lt (x y : pynum) : bool :=
  match x, y with
  | PyInt a, PyInt b => a <? b
  | _, _ => (to_float x <? to_float y)%float
  end.

(** [int(x)]: truncation toward zero. *)
Definition py_int (x : pynum) : result Z :=
  match x with
  | PyInt z => Ok z
  | PyFloat f =>
      match Prim2SF f with
      | S754_nan => Raise (ValueError "cannot convert float NaN to integer")
      | S754_infinity _ => Raise OverflowError
      | S754_zero _ => Ok 0
      | S754_finite s m e =>
          let v := if 0 <=? e then Z.pos m * 2 ^ e
                   else Z.pos m / 2 ^ (- e) in
          Ok (if s then - v else v)
      end
  end.

(** [x == z] for an int [z]. *)
Definition py_eq_int (x : pynum) (z : Z) : bool :=
  match x with
  | PyInt a => a =? z
  | PyFloat f => (f =? float_of_Z z)%float
  end.

(** [str(x)], which is also [f"{x}"]. *)
Definition py_str (x : pynum) : string :=
  match x with
  | PyInt z => str_int z
  | PyFloat f => float_repr f
  end.

(** [10 ** exp] for an int [exp]: an int when [exp >= 0], else the float
    nearest to the power (what the C library's [pow] returns here). *)
Definition py_pow10 (exp : Z) : pynum :=
  if 0 <=? exp then PyInt (10 ^ exp)
  else PyFloat (1 / float_of_Z (10 ^ (- exp))).

(** ** Superscripts *)

(** [SUPERSCRIPT_MAP]. *)
Definition SUPERSCRIPT_MAP : list (ascii * string) :=
  [("0"%char, "⁰"); ("1"%char, "¹"); ("2"%char, "²"); ("3"%char, "³");
   ("4"%char, "⁴"); ("5"%char, "⁵"); ("6"%char, "⁶"); ("7"%char, "⁷");
   ("8"%char, "⁸"); ("9"%char, "⁹"); ("-"%char, "⁻"); ("+"%char, "⁺")].

(** [SUPERSCRIPT_MAP.get(c, c)]. *)
Fixpoint superscript_get (table : list (ascii * string)) (c : ascii) : string :=
  match table with
  | [] => String c ""
  | (k, v) :: rest => if Ascii.eqb k c then v else superscript_get rest c
  end.

Fixpoint join_map (f : ascii -> string) (s : string) : string :=
  match s with
  | EmptyString => ""
  | String c r => f c +++ join_map f r
  end.

(** [to_superscript(num)] for an int [num]. *)
Definition to_superscript (num : Z) : string :=
  join_map (superscript_get SUPERSCRIPT_MAP) (str_int num).

(* ================================================================== *)
(** * Powers-of-ten problems *)
(* ================================================================== *)

(** The value of the key ['expression']: a string, or the dict
    [{'numerator', 'denominator'}] of the vertical fraction. *)
Inductive expr : Type :=
| ExprText (s : string)
| ExprFraction (numerator denominator : string).

Module Powers.
(** The dict a powers generator returns; a key some generators leave out
    is an [option]. *)
Record problem : Type := mk {
  expression : expr;
  answer : string;
  answer_scientific : option string;
  is_horizontal : bool;
  has_division : bool;
  is_fraction : option bool
}.
End Powers.

(** The numbers a generator draws, by problem type.  Each generator first
    draws its operands and then computes the dict from them; the two steps
    are [draw_*] and [build] below. *)
Inductive template : Type :=
| Single (coef exp : Z)                 (* basic, 'single' *)
| MultiplyTwo (a b m n : Z)             (* basic, 'multiply_two' *)
| Multiply (a b m n : Z)                (* intermediate, 'multiply' *)
| Divide (a b m n : Z)                  (* intermediate, 'divide' *)
| Fraction (a b m n c : Z)              (* advanced, 'fraction' *)
| MultiTerm (a b m n p c : Z)           (* advanced, 'multi_term' *)
| ComplexFraction (a b m n c p : Z).    (* advanced, 'complex_fraction' *)

(** ** Drawing the operands *)

Definition draw_basic : M template :=
  problem_type <- choice ["single"; "multiply_two"] ;;
  if String.eqb problem_type "single" then
    coef <- randint 1 9 ;;
    exp <- randint (-3) 6 ;;
    ret (Single coef exp)
  else
    a <- randint 1 9 ;;
    b <- randint 1 9 ;;
    m <- randint 1 4 ;;
    n <- randint 1 4 ;;
    ret (MultiplyTwo a b m n).

(** [[c for c in range(lo, hi) if x % c == 0]]. *)
Definition divisors_in (lo hi x : Z) : list Z :=
  filter (fun c => x mod c =? 0) (range lo hi).

(** In the 'divide' branch the source also keeps [result = a // b], which
    nothing reads afterwards. *)
Definition draw_intermediate : M template :=
  problem_type <- choice ["multiply"; "divide"] ;;
  a <- randint 2 9 ;;
  b <- randint 2 9 ;;
  m <- randint (-3) 5 ;;
  n <- randint (-3) 5 ;;
  if String.eqb problem_type "multiply" then
    ret (Multiply a b m n)
  else
    result <- randint 2 9 ;;
    b <- randint 2 9 ;;
    let a := result * b in
    if 9 <? a then
      a <- randint 2 9 ;;
      b <- choice (divisors_in 1 10 a) ;;
      ret (Divide a b m n)
    else
      ret (Divide a b m n).

Definition draw_advanced : M template :=
  problem_type <- choice ["fraction"; "multi_term"; "complex_fraction"] ;;
  if String.eqb problem_type "fraction" then
    a <- randint 2 9 ;;
    b <- randint 2 8 ;;
    m <- randint 2 6 ;;
    n <- randint (-3) 3 ;;
    let product := a * b in
    let divisors := divisors_in 2 20 product in
    c <- (match divisors with [] => ret 1 | _ => choice divisors end) ;;
    ret (Fraction a b m n c)
  else if String.eqb problem_type "multi_term" then
    a <- randint 2 9 ;;
    b <- randint 2 9 ;;
    m <- randint 2 5 ;;
    n <- randint (-2) 3 ;;
    p <- randint (-2) 4 ;;
    let product := a * b in
    let divisors := divisors_in 2 10 product in
    c <- (match divisors with [] => randint 2 5 | _ => choice divisors end) ;;
    ret (MultiTerm a b m n p c)
  else
    a <- randint 2 9 ;;
    b <- randint 2 9 ;;
    m <- randint 3 6 ;;
    n <- randint (-2) 3 ;;
    let product := a * b in
    let divisors := divisors_in 2 12 product in
    c <- (match divisors with [] => randint 2 6 | _ => choice divisors end) ;;
    p <- randint 1 4 ;;
    ret (ComplexFraction a b m n c p).

(** ** Normalization *)

(** [while result_coef >= 10: result_coef /= 10; result_exp += 1]. *)
Fixpoint scale_down (fuel : nat) (coef : pynum) (exp : Z)
  : result (pynum * Z) :=
  if py_le (PyInt 10) coef then
    match fuel with
    | O => Raise OutOfFuel
    | S fuel' =>
        try coef' := py_truediv coef (PyInt 10) in
        scale_down fuel' coef' (exp + 1)
    end
  else Ok (coef, exp).

(** [while 0 < result_coef < 1: result_coef *= 10; result_exp -= 1]. *)
Fixpoint scale_up (fuel : nat) (coef : pynum) (exp : Z)
  : result (pynum * Z) :=
  if py_lt (PyInt 0) coef && py_lt coef (PyInt 1) then
    match fuel with
    | O => Raise OutOfFuel
    | S fuel' => scale_up fuel' (py_mul coef (PyInt 10)) (exp - 1)
    end
  else Ok (coef, exp).

(** Iterations allowed to each loop of the model: more than any finite
    float needs to leave the loop. *)
Definition loop_bound : nat := 700.

(** The two loops under the comment [# Normalize]. *)
Definition normalize (coef : pynum) (exp : Z) : result (pynum * Z) :=
  try r := scale_down loop_bound coef exp in
  scale_up loop_bound (fst r) (snd r).

(** The basic generator's [if result_coef >= 10: ...]. *)
Definition normalize_once (coef : pynum) (exp : Z) : result (pynum * Z) :=
  if py_le (PyInt 10) coef then
    try coef' := py_truediv coef (PyInt 10) in
    Ok (coef', exp + 1)
  else Ok (coef, exp).

(** The raw (coefficient, exponent) of a template, then the pair after the
    generator's normalization. *)
Definition raw_pair (t : template) : result (pynum * Z) :=
  match t with
  | Single coef exp => Ok (PyInt coef, exp)
  | MultiplyTwo a b m n => Ok (PyInt (a * b), m + n)
  | Multiply a b m n => Ok (PyInt (a * b), m + n)
  | Divide a b m n =>
      try q := py_truediv (PyInt a) (PyInt b) in Ok (q, m - n)
  | Fraction a b m n c =>
      try q := py_truediv (PyInt (a * b)) (PyInt c) in Ok (q, m + n)
  | MultiTerm a b m n p c =>
      try q := py_truediv (PyInt (a * b)) (PyInt c) in Ok (q, m + n - p)
  | ComplexFraction a b m n c p =>
      try q := py_truediv (PyInt (a * b)) (PyInt c) in Ok (q, m + n - p)
  end.

Definition normalized_pair (t : template) : result (pynum * Z) :=
  try r := raw_pair t in
  match t with
  | Single _ _ => Ok r
  | MultiplyTwo _ _ _ _ => normalize_once (fst r) (snd r)
  | _ => normalize (fst r) (snd r)
  end.

(** ** Formatting *)

Definition times_ten (exp : Z) : string := " × 10" +++ to_superscript exp.

(** The answer of the intermediate and advanced generators. *)
Definition format_answer (result_coef : pynum) (result_exp : Z)
  : result string :=
  try i := py_int result_coef in
  if py_eq_int result_coef i then
    Ok (str_int i +++ times_ten result_exp)
  else
    Ok (rstrip "." (rstrip "0" (format_fixed (to_float result_coef) 2))
        +++ times_ten result_exp).

(** The answer of the basic two-term product. *)
Definition format_answer_basic (result_coef : pynum) (result_exp : Z)
  : result string :=
  try i := py_int result_coef in
  if py_eq_int result_coef i then
    Ok (str_int i +++ times_ten result_exp)
  else
    Ok (py_str result_coef +++ times_ten result_exp).

(** [f"({a} × 10^m)"] and [f"{a} × 10^m"]. *)
Definition term (a m : Z) : string := str_int a +++ times_ten m.
Definition paren (s : string) : string := "(" +++ s +++ ")".

(** The answer of the basic 'single' problem: the value written out. *)
Definition format_single (coef exp : Z) : result string :=
  let answer_val := py_mul (PyInt coef) (py_pow10 exp) in
  if 0 <=? exp then
    try i := py_int answer_val in Ok (str_int i)
  else
    Ok (rstrip "." (rstrip "0"
          (format_fixed (to_float answer_val) (Z.to_nat (Z.abs exp))))).

(** ** Building the dict *)

Definition build (t : template) : result Powers.problem :=
  match t with
  | Single coef exp =>
      let expression := term coef exp in
      try answer := format_single coef exp in
      Ok (Powers.mk (ExprText expression) answer (Some (term coef exp))
                    true false None)
  | MultiplyTwo a b m n =>
      let expression := paren (term a m) +++ " × " +++ paren (term b n) in
      try r := normalized_pair t in
      try answer := format_answer_basic (fst r) (snd r) in
      Ok (Powers.mk (ExprText expression) answer None true false None)
  | Multiply a b m n =>
      let expression := paren (term a m) +++ " × " +++ paren (term b n) in
      let has_division := false in
      try r := normalized_pair t in
      try answer := format_answer (fst r) (snd r) in
      Ok (Powers.mk (ExprText expression) answer None
                    (negb has_division) has_division None)
  | Divide a b m n =>
      let expression := paren (term a m) +++ " ÷ " +++ paren (term b n) in
      let has_division := true in
      try r := normalized_pair t in
      try answer := format_answer (fst r) (snd r) in
      Ok (Powers.mk (ExprText expression) answer None
                    (negb has_division) has_division None)
  | Fraction a b m n c =>
      let expression :=
        paren (term a m +++ " × " +++ term b n) +++ " ÷ " +++ str_int c in
      try r := normalized_pair t in
      try answer := format_answer (fst r) (snd r) in
      Ok (Powers.mk (ExprText expression) answer None false true (Some false))
  | MultiTerm a b m n p c =>
      let expression :=
        paren (term a m) +++ " × " +++ paren (term b n) +++ " ÷ " +++
        paren (term c p) in
      try r := normalized_pair t in
      try answer := format_answer (fst r) (snd r) in
      Ok (Powers.mk (ExprText expression) answer None false true (Some false))
  | ComplexFraction a b m n c p =>
      let numerator := term a m +++ " × " +++ term b n in
      let denominator := term c p in
      let expression := ExprFraction numerator denominator in
      try r := normalized_pair t in
      try answer := format_answer (fst r) (snd r) in
      Ok (Powers.mk expression answer None false true (Some true))
  end.

(** ** The generators *)

Definition _generate_basic_powers_problem : M Powers.problem :=
  t <- draw_basic ;; lift (build t).

Definition _generate_intermediate_powers_problem : M Powers.problem :=
  t <- draw_intermediate ;; lift (build t).

Definition _generate_advanced_powers_problem : M Powers.problem :=
  t <- draw_advanced ;; lift (build t).

(** The operands [generate_powers_of_ten_problem(level)] draws. *)
Definition draw_powers (level : string) : M template :=
  if String.eqb level "basic" then draw_basic
  else if String.eqb level "intermediate" then draw_intermediate
  else draw_advanced.

Definition generate_powers_of_ten_problem (level : string) : M Powers.problem :=
  if String.eqb level "basic" then _generate_basic_powers_problem
  else if String.eqb level "intermediate" then
    _generate_intermediate_powers_problem
  else _generate_advanced_powers_problem.

(* ================================================================== *)
(** * Reading an answer back *)
(* ================================================================== *)

(** The readers below are not part of the program: they are how a person
    reads the printed answer, and the properties about the answer text are
    stated through them. *)

Definition digit_of (c : ascii) : option Z :=
  let n := Z.of_nat (nat_of_ascii c) in
  if (48 <=? n) && (n <=? 57) then Some (n - 48) else None.

(** The longest run of digits at the head of [s]: its value continuing
    [acc], its length continuing [n], and the rest of [s]. *)
Fixpoint digits_run (s : string) (acc : Z) (n : nat) : Z * nat * string :=
  match s with
  | EmptyString => (acc, n, "")
  | String c r =>
      match digit_of c with
      | Some d => digits_run r (10 * acc + d) (S n)
      | None => (acc, n, s)
      end
  end.

(** An unsigned decimal numeral, with or without a fraction part. *)
Definition read_decimal (s : string) : option Q :=
  let '(ip, n1, r1) := digits_run s 0 0 in
  match n1, r1 with
  | O, _ => None
  | _, EmptyString => Some (inject_Z ip)
  | _, String "."%char r2 =>
      let '(fp, n2, r3) := digits_run r2 0 0 in
      match n2, r3 with
      | O, _ => None
      | _, EmptyString =>
          Some (Qmake (ip * 10 ^ Z.of_nat n2 + fp) (Pos.pow 10 (Pos.of_nat n2)))
      | _, _ => None
      end
  | _, _ => None
  end.

(** A signed integer numeral. *)
Definition read_int (s : string) : option Z :=
  let '(neg, body) :=
    match s with
    | String "-"%char r => (true, r)
    | String "+"%char r => (false, r)
    | _ => (false, s)
    end in
  match digits_run body 0 0 with
  | (_, O, _) => None
  | (v, _, EmptyString) => Some (if neg then - v else v)
  | _ => None
  end.

(** The entry of [table] whose superscript starts [s], with the rest. *)
Fixpoint superscript_head (table : list (ascii * string)) (s : string)
  : option (ascii * string) :=
  match table with
  | [] => None
  | (k, v) :: rest =>
      if String.prefix v s
      then Some (k, substring (String.length v)
                              (String.length s - String.length v) s)
      else superscript_head rest s
  end.

(** A superscript string turned back into plain characters. *)
Fixpoint from_superscript (fuel : nat) (s : string) : option string :=
  match s, fuel with
  | EmptyString, _ => Some ""
  | _, O => None
  | _, S fuel' =>
      match superscript_head SUPERSCRIPT_MAP s with
      | None => None
      | Some (k, rest) =>
          match from_superscript fuel' rest with
          | Some r => Some (String k r)
          | None => None
          end
      end
  end.

Definition read_superscript (s : string) : option Z :=
  match from_superscript (String.length s) s with
  | Some plain => read_int plain
  | None => None
  end.

(** [s] cut at the first occurrence of [sep]. *)
Fixpoint split_on (sep s : string) : option (string * string) :=
  if String.prefix sep s
  then Some ("", substring (String.length sep)
                           (String.length s - String.length sep) s)
  else match s with
       | EmptyString => None
       | String c r =>
           match split_on sep r with
           | Some (before, rest) => Some (String c before, rest)
           | None => None
           end
       end.

(** The coefficient and exponent of an answer [c × 10^e]. *)
Definition read_scientific (s : string) : option (Q * Z) :=
  match split_on " × 10" s with
  | None => None
  | Some (c, e) =>
      match read_decimal c, read_superscript e with
      | Some q, Some z => Some (q, z)
      | _, _ => None
      end
  end.

(** The number an answer stands for: [c × 10^e], or a plain decimal. *)
Definition read_value (s : string) : option Q :=
  match split_on " × 10" s with
  | Some _ =>
      match read_scientific s with
      | Some (c, e) => Some (c * Qpower 10 e)%Q
      | None => None
      end
  | None => read_decimal s
  end.

(** The exact value of the expression a template stands for. *)
Definition template_value (t : template) : Q :=
  let z := inject_Z in
  let p := Qpower 10 in
  (match t with
   | Single coef exp => z coef * p exp
   | MultiplyTwo a b m n => (z a * p m) * (z b * p n)
   | Multiply a b m n => (z a * p m) * (z b * p n)
   | Divide a b m n => (z a * p m) / (z b * p n)
   | Fraction a b m n c => (z a * p m * z b * p n) / z c
   | MultiTerm a b m n p' c => (z a * p m) * (z b * p n) / (z c * p p')
   | ComplexFraction a b m n c p' => (z a * p m * z b * p n) / (z c * p p')
   end)%Q.

(* ================================================================== *)
(** * Worksheets: the page layout loops *)
(* ================================================================== *)

(** What a worksheet method sends to the canvas, in order.  [Header]
    stands for a call of [create_header_footer]: its arguments and the
    identifier it draws for the footer.  [DrawProblem] stands for the calls
    that draw one cell: the problem number, the problem at grid position
    ([row], [col]) and, in the answer key, its answer.  Coordinates in
    points, fonts, colours and the date are left out. *)
Inductive canvas_op (P : Type) : Type :=
| Header (page_num total_pages : Z) (title subtitle : string) (sheet_id : Z)
| DrawProblem (number row col : Z) (prob : P) (show_answer : bool)
| ShowPage
| Save.
Arguments Header {P}.
Arguments DrawProblem {P}.
Arguments ShowPage {P}.
Arguments Save {P}.

(** [for _ in range(n): xs.append(gen())]. *)
Fixpoint repeat_gen {A} (n : nat) (gen : M A) : M (list A) :=
  match n with
  | O => ret []
  | S n' => x <- gen ;; xs <- repeat_gen n' gen ;; ret (x :: xs)
  end.

(** [create_header_footer(c, None, page_num, total_pages, title, subtitle)]:
    the footer's [f"Worksheet #{random.randint(1000, 9999)}"] is drawn from
    the random module at every call. *)
Definition create_header_footer {P} (page_num total_pages : Z)
    (worksheet_title worksheet_subtitle : string) : M (canvas_op P) :=
  sheet_id <- randint 1000 9999 ;;
  ret (Header page_num total_pages worksheet_title worksheet_subtitle
              sheet_id).

(** [a // b] on integers. *)
Definition floordiv (a b : Z) : result Z :=
  if b =? 0 then Raise ZeroDivisionError else Ok (a / b).

Section Layout.
Context {P : Type}.
Variable problems : list P.
Variable num_problems : Z.
Variables problems_per_row rows_per_page : Z.

(** [problems[i]]. *)
Definition subscript (i : Z) : result P :=
  let len := Z.of_nat (List.length problems) in
  let j := if i <? 0 then i + len else i in
  if (j <? 0) || (len <=? j) then Raise (IndexError i)
  else match nth_error problems (Z.to_nat j) with
       | Some p => Ok p
       | None => Raise (IndexError i)
       end.

(** [for col in range(problems_per_row): ...], leaving at the [break]. *)
Fixpoint draw_row (show_answer : bool) (row : Z) (cols : list Z)
    (problem_idx : Z) : result (list (canvas_op P) * Z) :=
  match cols with
  | [] => Ok ([], problem_idx)
  | col :: cols' =>
      if num_problems <=? problem_idx then Ok ([], problem_idx)
      else
        try prob := subscript problem_idx in
        let op := DrawProblem (problem_idx + 1) row col prob show_answer in
        try r := draw_row show_answer row cols' (problem_idx + 1) in
        Ok (op :: fst r, snd r)
  end.

(** [for row in range(rows_per_page): ...], leaving at the [break]. *)
Fixpoint draw_rows (show_answer : bool) (rows : list Z) (problem_idx : Z)
  : result (list (canvas_op P) * Z) :=
  match rows with
  | [] => Ok ([], problem_idx)
  | row :: rows' =>
      try r := draw_row show_answer row (range 0 problems_per_row)
                        problem_idx in
      if num_problems <=? snd r then Ok r
      else
        try r' := draw_rows show_answer rows' (snd r) in
        Ok (fst r ++ fst r', snd r')
  end.

(** [while problem_idx < num_problems: ...]: one pass over the problems,
    a page per iteration, each with its header.  Returns the operations and
    [current_page].  On a grid of at least one row and one column every
    page draws a problem, so that [num_problems] iterations are enough. *)
Fixpoint draw_pages (fuel : nat) (show_answer : bool)
    (title subtitle : string) (total_pages : Z)
    (problem_idx current_page : Z) : M (list (canvas_op P) * Z) :=
  if problem_idx <? num_problems then
    match fuel with
    | O => raise OutOfFuel
    | S fuel' =>
        header <- create_header_footer current_page total_pages
                                       title subtitle ;;
        r <- lift (draw_rows show_answer (range 0 rows_per_page)
                             problem_idx) ;;
        rest <- draw_pages fuel' show_answer title subtitle total_pages
                           (snd r) (current_page + 1) ;;
        ret (header :: fst r ++ ShowPage :: fst rest, snd rest)
    end
  else ret ([], current_page).

(** The part the two worksheet methods share, from [# Calculate pages
    needed] to [c.save()]: the problem pass, then the answer key. *)
Definition render (title subtitle : string) (show_answers : bool)
  : M (list (canvas_op P)) :=
  let problems_per_page := problems_per_row * rows_per_page in
  total_pages <- lift (floordiv (num_problems + problems_per_page - 1)
                                problems_per_page) ;;
  let total_pages := if show_answers then total_pages * 2 else total_pages in
  let fuel := Z.to_nat num_problems in
  let current_page := 1 in
  let problem_idx := 0 in
  pass <- draw_pages fuel false title subtitle total_pages
                     problem_idx current_page ;;
  let current_page := snd pass in
  if show_answers then
    let problem_idx := 0 in
    key <- draw_pages fuel true (title +++ " - ANSWER KEY")
                      "For teacher use only" total_pages
                      problem_idx current_page ;;
    ret (fst pass ++ fst key ++ [Save])
  else ret (fst pass ++ [Save]).
End Layout.

(** The attributes [__init__] sets that the modelled methods read. *)
Record generator : Type := mkGenerator {
  school_name : string;
  problems_per_row : Z;
  rows_per_page : Z
}.

(** [ArithmeticPracticeGenerator(school_name)]. *)
Definition init (school_name : string) : generator :=
  mkGenerator school_name 5 6.

(** [op_names.get(operation, 'Arithmetic')]. *)
Definition op_name (operation : string) : string :=
  if String.eqb operation "+" then "Addition"
  else if String.eqb operation "-" then "Subtraction"
  else if String.eqb operation "×" then "Multiplication"
  else if String.eqb operation "÷" then "Division"
  else if String.eqb operation "*" then "Multiplication"
  else if String.eqb operation "/" then "Division"
  else "Arithmetic".

(** [level_titles.get(level, 'Powers of Ten Practice')]. *)
Definition level_title (level : string) : string :=
  if String.eqb level "basic" then "Powers of Ten - Basic"
  else if String.eqb level "intermediate" then "Scientific Notation Practice"
  else if String.eqb level "advanced" then "Scientific Notation - Advanced"
  else "Powers of Ten Practice".

(** The [# Setup title] steps of the two worksheet methods. *)
Definition worksheet_title (title : option string) (operation : string)
    (mixed_operations : bool) : string :=
  match title with
  | Some t => t
  | None => if mixed_operations then "Mixed Operations Practice"
            else op_name operation +++ " Practice"
  end.

Definition worksheet_subtitle (subtitle : option string) (num_problems : Z)
  : string :=
  match subtitle with
  | Some s => s
  | None => "Complete all " +++ str_int num_problems +++
            " problems. Show your work!"
  end.

Definition powers_title (title : option string) (level : string) : string :=
  match title with Some t => t | None => level_title level end.

Definition powers_subtitle (subtitle : option string) : string :=
  match subtitle with
  | Some s => s
  | None => "Express your answers in scientific notation where appropriate."
  end.

(** The loop under [# Generate problems] of [generate_worksheet]. *)
Definition gen_problems (num_problems : Z) (operation : string)
    (min_val max_val : Z) (mixed_operations : bool)
  : M (list ArithmeticProblem) :=
  if mixed_operations then
    let ops := ["+"; "-"; "×"; "÷"] in
    repeat_gen (Z.to_nat num_problems)
      (op <- choice ops ;; generate_problem op min_val max_val false)
  else
    repeat_gen (Z.to_nat num_problems)
      (generate_problem operation min_val max_val false).

(** [generate_worksheet]: the result is what was drawn on the canvas (the
    source saves it to [filename] and returns [filename]). *)
Definition generate_worksheet (self : generator) (filename : string)
    (num_problems : Z) (operation : string) (min_val max_val : Z)
    (title subtitle : option string) (show_answers mixed_operations : bool)
  : M (list (canvas_op ArithmeticProblem)) :=
  problems <- gen_problems num_problems operation min_val max_val
                           mixed_operations ;;
  let title := worksheet_title title operation mixed_operations in
  let subtitle := worksheet_subtitle subtitle num_problems in
  render problems num_problems
         (problems_per_row self) (rows_per_page self)
         title subtitle show_answers.

(** [generate_powers_worksheet], with its own grid of 2 by 5. *)
Definition generate_powers_worksheet (self : generator) (filename : string)
    (num_problems : Z) (level : string) (title subtitle : option string)
    (show_answers : bool) : M (list (canvas_op Powers.problem)) :=
  problems <- repeat_gen (Z.to_nat num_problems)
                         (generate_powers_of_ten_problem level) ;;
  let title := powers_title title level in
  let subtitle := powers_subtitle subtitle in
  let problems_per_row := 2 in
  let rows_per_page := 5 in
  render problems num_problems problems_per_row rows_per_page
         title subtitle show_answers.

(** ** The layout a worksheet is expected to have *)

(** The state of the random module after [k] more draws. *)
Definition after_draws (k : Z) (g : rng) : rng :=
  Nat.iter (Z.to_nat k) advance g.

(** The identifier in the footer of the page numbered [page_num], when the
    header of page 1 draws from [g]: every page draws once, in the order
    of the page numbers. *)
Definition sheet_id_of (g : rng) (page_num : Z) : Z :=
  1000 + g (Z.to_nat (page_num - 1)) mod 9000.

Section Expected.
Context {P : Type}.
Variable problems : list P.
Variable default : P.
Variable num_problems : Z.
Variables problems_per_row rows_per_page : Z.
Variable headers : rng.

Definition per_page : Z := problems_per_row * rows_per_page.

(** Pages one pass needs: the ceiling of [num_problems / per_page]. *)
Definition pages_needed : Z := (num_problems + per_page - 1) / per_page.

(** Problem [i] (from 0) in row-major order on its page. *)
Definition cell (show_answer : bool) (i : Z) : canvas_op P :=
  DrawProblem (i + 1) ((i mod per_page) / problems_per_row)
              (i mod problems_per_row)
              (nth (Z.to_nat i) problems default) show_answer.

(** Page [p] (from 0) of a pass whose first page is numbered [first]. *)
Definition expected_page (show_answer : bool) (title subtitle : string)
    (total first p : Z) : list (canvas_op P) :=
  Header (first + p) total title subtitle
         (sheet_id_of headers (first + p)) ::
  map (cell show_answer)
      (range (p * per_page) (Z.min num_problems ((p + 1) * per_page))) ++
  [ShowPage].

Definition expected_pass (show_answer : bool) (title subtitle : string)
    (total first : Z) : list (canvas_op P) :=
  flat_map (expected_page show_answer title subtitle total first)
           (range 0 pages_needed).

Definition expected_canvas (title subtitle : string) (show_answers : bool)
  : list (canvas_op P) :=
  if show_answers then
    expected_pass false title subtitle (pages_needed * 2) 1 ++
    expected_pass true (title +++ " - ANSWER KEY") "For teacher use only"
                  (pages_needed * 2) (1 + pages_needed) ++
    [Save]
  else
    expected_pass false title subtitle pages_needed 1 ++ [Save].
End Expected.

(** The pages a canvas holds: its [showPage] calls. *)
Definition count_pages {P} (ops : list (canvas_op P)) : Z :=
  Z.of_nat (List.length
              (filter (fun op => match op with ShowPage => true | _ => false end)
                      ops)).

(* ================================================================== *)
(** * The specification's normalization, on exact numbers *)
(* ================================================================== *)

(** "While coefficient >= 10, divide by 10 and increment exponent". *)
Fixpoint spec_scale_down (fuel : nat) (c : Q) (e : Z) : option (Q * Z) :=
  if Qle_bool 10 c then
    match fuel with
    | O => None
    | S fuel' => spec_scale_down fuel' (c / 10)%Q (e + 1)
    end
  else Some (c, e).

(** "While 0 < coefficient < 1, multiply by 10 and decrement exponent". *)
Fixpoint spec_scale_up (fuel : nat) (c : Q) (e : Z) : option (Q * Z) :=
  if negb (Qle_bool c 0) && negb (Qle_bool 1 c) then
    match fuel with
    | O => None
    | S fuel' => spec_scale_up fuel' (c * 10)%Q (e - 1)
    end
  else Some (c, e).

(** The two loops one after the other; [None] when [fuel] iterations were
    not enough for one of them. *)
Definition spec_normalize (fuel : nat) (c : Q) (e : Z) : option (Q * Z) :=
  match spec_scale_down fuel c e with
  | Some (c', e') => spec_scale_up fuel c' e'
  | None => None
  end.

(** The raw pair of a template as exact numbers. *)
Definition spec_raw_pair (t : template) : Q * Z :=
  let z := inject_Z in
  match t with
  | Single coef exp => (z coef, exp)
  | MultiplyTwo a b m n => (z (a * b), m + n)
  | Multiply a b m n => (z (a * b), m + n)
  | Divide a b m n => ((z a / z b)%Q, m - n)
  | Fraction a b m n c => ((z (a * b)%Z / z c)%Q, m + n)
  | MultiTerm a b m n p c => ((z (a * b)%Z / z c)%Q, m + n - p)
  | ComplexFraction a b m n c p => ((z (a * b)%Z / z c)%Q, m + n - p)
  end.

(** Two (coefficient, exponent) pairs with equal numbers. *)
Definition same_pair (x y : Q * Z) : Prop :=
  (fst x == fst y)%Q /\ snd x = snd y.

Definition same_pair_b (x y : Q * Z) : bool :=
  Qeq_bool (fst x) (fst y) && (snd x =? snd y).

(* ================================================================== *)
(** * The templates each generator can draw *)
(* ================================================================== *)

(** [forall v in [lo, lo + n): p v], decided. *)
Fixpoint all_from (n : nat) (lo : Z) (p : Z -> bool) : bool :=
  match n with
  | O => true
  | S n' => p lo && all_from n' (lo + 1) p
  end.

(** [forall v in [lo, hi]: p v], decided. *)
Definition all_in (lo hi : Z) (p : Z -> bool) : bool :=
  all_from (Z.to_nat (hi + 1 - lo)) lo p.

Definition between (lo hi v : Z) : bool := (lo <=? v) && (v <=? hi).

(** The operands a generator can draw, as the [draw_*] functions bound
    them: each in its [randint] range, a chosen divisor in its candidate
    list. *)
Definition drawable (t : template) : bool :=
  match t with
  | Single coef exp => between 1 9 coef && between (-3) 6 exp
  | MultiplyTwo a b m n =>
      between 1 9 a && between 1 9 b && between 1 4 m && between 1 4 n
  | Multiply a b m n =>
      between 2 9 a && between 2 9 b && between (-3) 5 m && between (-3) 5 n
  | Divide a b m n =>
      between 2 9 a && between 1 9 b && (a mod b =? 0) &&
      between (-3) 5 m && between (-3) 5 n
  | Fraction a b m n c =>
      between 2 9 a && between 2 8 b && between 2 6 m && between (-3) 3 n &&
      between 2 19 c && ((a * b) mod c =? 0)
  | MultiTerm a b m n p c =>
      between 2 9 a && between 2 9 b && between 2 5 m && between (-2) 3 n &&
      between (-2) 4 p && between 2 9 c && ((a * b) mod c =? 0)
  | ComplexFraction a b m n c p =>
      between 2 9 a && between 2 9 b && between 3 6 m && between (-2) 3 n &&
      between 2 11 c && ((a * b) mod c =? 0) && between 1 4 p
  end.

(** ** Coefficient and exponent of a template *)

(** The exponent a template starts from. *)
Definition raw_exp (t : template) : Z :=
  match t with
  | Single _ exp => exp
  | MultiplyTwo _ _ m n => m + n
  | Multiply _ _ m n => m + n
  | Divide _ _ m n => m - n
  | Fraction _ _ m n _ => m + n
  | MultiTerm _ _ m n p _ => m + n - p
  | ComplexFraction _ _ m n _ p => m + n - p
  end.

(** The template with every exponent set to 0: what its coefficient is
    computed from. *)
Definition coef_part (t : template) : template :=
  match t with
  | Single coef _ => Single coef 0
  | MultiplyTwo a b _ _ => MultiplyTwo a b 0 0
  | Multiply a b _ _ => Multiply a b 0 0
  | Divide a b _ _ => Divide a b 0 0
  | Fraction a b _ _ c => Fraction a b 0 0 c
  | MultiTerm a b _ _ _ c => MultiTerm a b 0 0 0 c
  | ComplexFraction a b _ _ c _ => ComplexFraction a b 0 0 c 0
  end.

Definition is_single (t : template) : bool :=
  match t with Single _ _ => true | _ => false end.

Definition is_basic (t : template) : bool :=
  match t with Single _ _ | MultiplyTwo _ _ _ _ => true | _ => false end.

(** The coefficient as the answer shows it, without [" × 10..."]: the
    text [format_answer] ([basic = false]) or [format_answer_basic]
    ([basic = true]) puts in front. *)
Definition coef_text (basic : bool) (result_coef : pynum) : result string :=
  try i := py_int result_coef in
  if py_eq_int result_coef i then Ok (str_int i)
  else if basic then Ok (py_str result_coef)
  else Ok (rstrip "." (rstrip "0" (format_fixed (to_float result_coef) 2))).

(** No character of [s] is a space. *)
Fixpoint no_space (s : string) : bool :=
  match s with
  | EmptyString => true
  | String c r => negb (Ascii.eqb c " ") && no_space r
  end.

(** A property checked on the coefficient part of every drawable template
    but the basic single term. *)
Definition all_coef_parts (p : template -> bool) : bool :=
  let imp (c : bool) (r : bool) := if c then r else true in
  all_in 1 9 (fun a => all_in 1 9 (fun b => p (MultiplyTwo a b 0 0))) &&
  all_in 2 9 (fun a => all_in 2 9 (fun b => p (Multiply a b 0 0))) &&
  all_in 2 9 (fun a => all_in 1 9 (fun b =>
    imp (a mod b =? 0) (p (Divide a b 0 0)))) &&
  all_in 2 9 (fun a => all_in 2 8 (fun b => all_in 2 19 (fun c =>
    imp ((a * b) mod c =? 0) (p (Fraction a b 0 0 c))))) &&
  all_in 2 9 (fun a => all_in 2 9 (fun b => all_in 2 9 (fun c =>
    imp ((a * b) mod c =? 0) (p (MultiTerm a b 0 0 0 c))))) &&
  all_in 2 9 (fun a => all_in 2 9 (fun b => all_in 2 11 (fun c =>
    imp ((a * b) mod c =? 0) (p (ComplexFraction a b 0 0 c 0))))).

(** A property checked on every drawable basic single term. *)
Definition all_single (p : template -> bool) : bool :=
  all_in 1 9 (fun coef => all_in (-3) 6 (fun exp => p (Single coef exp))).

(** What is checked on a coefficient part [k]: normalization ends, moves
    the exponent by 0 or 1 and leaves a coefficient of [1, 10); the text of
    the coefficient reads back as a number [q] of [1, 10) with
    [q * 10^s] the exact value of [k]; and the specification's loops, run on
    the exact raw pair, end on the same pair. *)
Definition coef_part_ok (k : template) : bool :=
  match normalized_pair k with
  | Ok (c, s) =>
      between 0 1 s &&
      py_le (PyInt 1) c && py_lt c (PyInt 10) &&
      match coef_text (is_basic k) c with
      | Ok txt =>
          no_space txt &&
          match read_decimal txt with
          | Some q =>
              Qle_bool 1 q && negb (Qle_bool 10 q) &&
              Qeq_bool (q * Qpower 10 s) (template_value k) &&
              match spec_normalize 1 (fst (spec_raw_pair k)) 0 with
              | Some r => same_pair_b r (q, s)
              | None => false
              end
          | None => false
          end
      | Raise _ => false
      end
  | Raise _ => false
  end.

(** What is checked on a basic single term: its answer is a decimal
    numeral that reads back as the exact value. *)
Definition single_ok (t : template) : bool :=
  match build t with
  | Ok P =>
      match read_value (Powers.answer P) with
      | Some v => Qeq_bool v (template_value t)
      | None => false
      end
  | Raise _ => false
  end.

(** Exponents the answers can show. *)
Definition superscripts_ok : bool :=
  all_in (-20) 20 (fun e =>
    match read_superscript (to_superscript e) with
    | Some e' => e' =? e
    | None => false
    end).

(* ================================================================== *)
(** * What a generator returns *)
(* ================================================================== *)

(** [returns m Q]: from every state of the random source, [m] returns
    without raising and its result satisfies [Q]. *)
Definition returns {A} (m : M A) (Q : A -> Prop) : Prop :=
  forall g, exists a g', m g = Ok (a, g') /\ Q a.

(** The answer of a template other than the basic single term is in
    scientific notation: the normalized coefficient is in [1, 10), and so
    is the coefficient read back from the answer next to the exponent. *)
Definition scientific_answer (t : template) (P : Powers.problem) : Prop :=
  exists c e q,
    normalized_pair t = Ok (c, e) /\
    py_le (PyInt 1) c = true /\ py_lt c (PyInt 10) = true /\
    read_scientific (Powers.answer P) = Some (q, e) /\
    (1 <= q)%Q /\ (q < 10)%Q.

(** The pair the answer shows is the pair the specification's loops reach
    from the exact raw pair, whatever fuel they are given. *)
Definition normalized_as_specified (t : template) (P : Powers.problem) : Prop :=
  exists q e,
    read_scientific (Powers.answer P) = Some (q, e) /\
    forall fuel, (1 <= fuel)%nat ->
      exists r,
        spec_normalize fuel (fst (spec_raw_pair t)) (snd (spec_raw_pair t))
        = Some r /\
        same_pair r (q, e).

(** The answer stands for the exact value of the expression. *)
Definition reads_back (t : template) (P : Powers.problem) : Prop :=
  exists v, read_value (Powers.answer P) = Some v /\ (v == template_value t)%Q.

(** The division a template holds has a non-zero divisor and no
    remainder. *)
Definition divides_evenly (t : template) : Prop :=
  match t with
  | Single _ _ | MultiplyTwo _ _ _ _ | Multiply _ _ _ _ => True
  | Divide a b _ _ => b > 0 /\ a mod b = 0
  | Fraction a b _ _ c => c > 0 /\ (a * b) mod c = 0
  | MultiTerm a b _ _ _ c => c > 0 /\ (a * b) mod c = 0
  | ComplexFraction a b _ _ c _ => c > 0 /\ (a * b) mod c = 0
  end.

(** [drawable], read as inequalities. *)
Definition drawable_prop (t : template) : Prop :=
  match t with
  | Single coef exp => 1 <= coef <= 9 /\ -3 <= exp <= 6
  | MultiplyTwo a b m n =>
      1 <= a <= 9 /\ 1 <= b <= 9 /\ 1 <= m <= 4 /\ 1 <= n <= 4
  | Multiply a b m n =>
      2 <= a <= 9 /\ 2 <= b <= 9 /\ -3 <= m <= 5 /\ -3 <= n <= 5
  | Divide a b m n =>
      2 <= a <= 9 /\ 1 <= b <= 9 /\ a mod b = 0 /\
      -3 <= m <= 5 /\ -3 <= n <= 5
  | Fraction a b m n c =>
      2 <= a <= 9 /\ 2 <= b <= 8 /\ 2 <= m <= 6 /\ -3 <= n <= 3 /\
      2 <= c <= 19 /\ (a * b) mod c = 0
  | MultiTerm a b m n p c =>
      2 <= a <= 9 /\ 2 <= b <= 9 /\ 2 <= m <= 5 /\ -2 <= n <= 3 /\
      -2 <= p <= 4 /\ 2 <= c <= 9 /\ (a * b) mod c = 0
  | ComplexFraction a b m n c p =>
      2 <= a <= 9 /\ 2 <= b <= 9 /\ 3 <= m <= 6 /\ -2 <= n <= 3 /\
      2 <= c <= 11 /\ (a * b) mod c = 0 /\ 1 <= p <= 4
  end.

(** From the state [g] of the random source the generator of [level]
    draws the template [t] and returns the problem [P] built from it. *)
Definition generates (level : string) (g : rng) (t : template)
    (P : Powers.problem) : Prop :=
  exists g',
    draw_powers level g = Ok (t, g') /\
    build t = Ok P /\
    generate_powers_of_ten_problem level g = Ok (P, g').

(** One division by 10 brings every product of two digits that is 10 or
    more below 10 (and not below 1), so that the loops would stop there. *)
Definition once_suffices : bool :=
  all_in 10 81 (fun k =>
    match py_truediv (PyInt k) (PyInt 10) with
    | Ok c => negb (py_le (PyInt 10) c) &&
              negb (py_lt (PyInt 0) c && py_lt c (PyInt 1))
    | Raise _ => false
    end).

(** Arguments with which every range [generate_worksheet] draws from is
    non-empty: those of [operation], or with [mixed_operations] those of
    all four operators. *)
Definition valid_arguments (operation : string) (min_val max_val : Z)
    (mixed_operations : bool) : Prop :=
  if mixed_operations then
    forall op, In op ["+"; "-"; "×"; "÷"] ->
               ranges_nonempty op min_val max_val = true
  else
    recognized operation = true /\
    ranges_nonempty operation min_val max_val = true.

(** The canvas [generate_worksheet] is expected to draw for [problems],
    [headers] being the state of the random module once the problems are
    generated. *)
Definition expected_worksheet (problems : list ArithmeticProblem)
    (default : ArithmeticProblem) (headers : rng) (num_problems : Z)
    (operation : string) (title subtitle : option string)
    (show_answers mixed_operations : bool)
  : list (canvas_op ArithmeticProblem) :=
  expected_canvas problems default num_problems 5 6 headers
    (worksheet_title title operation mixed_operations)
    (worksheet_subtitle subtitle num_problems) show_answers.

(** The canvas [generate_powers_worksheet] is expected to draw. *)
Definition expected_powers_worksheet (problems : list Powers.problem)
    (default : Powers.problem) (headers : rng) (num_problems : Z)
    (level : string) (title subtitle : option string) (show_answers : bool)
  : list (canvas_op Powers.problem) :=
  expected_canvas problems default num_problems 2 5 headers
    (powers_title title level) (powers_subtitle subtitle) show_answers.

(** A problem to stand for an index outside the list (none is). *)
Definition no_problem : Powers.problem :=
  Powers.mk (ExprText "") "" None true false None.

(** The canvas a run returned, or nothing when it raised. *)
Definition canvas_of {P} (r : result (list (canvas_op P) * rng))
  : list (canvas_op P) :=
  match r with Ok (ops, _) => ops | Raise _ => [] end.

(* ================================================================== *)
(** * Reading a problem as arithmetic *)
(* ================================================================== *)

(** What a printed problem evaluates to: [top operation bottom], with a
    division defined when it is exact and its divisor is not zero. *)
Definition apply_operation (operation : string) (top bottom : Z) : option Z :=
  if String.eqb operation "+" then Some (top + bottom)
  else if String.eqb operation "-" then Some (top - bottom)
  else if String.eqb operation "×" then Some (top * bottom)
  else if String.eqb operation "÷" then
    if (bottom =? 0) || negb (top mod bottom =? 0) then None
    else Some (top / bottom)
  else None.

(** The display token of a recognized operator token. *)
Definition canonical (operation : string) : string :=
  if String.eqb operation "*" then "×"
  else if String.eqb operation "/" then "÷"
  else operation.

(** The source whose first two raw draws are [x] and [y]. *)
Definition two_draws (x y : Z) : rng :=
  fun i => match i with O => x | _ => y end.

(** The value of the digits of [d] written after the digits of [acc]. *)
Fixpoint uint_acc (d : Decimal.uint) (acc : Z) : Z :=
  match d with
  | Decimal.Nil => acc
  | Decimal.D0 l => uint_acc l (10 * acc + 0)
  | Decimal.D1 l => uint_acc l (10 * acc + 1)
  | Decimal.D2 l => uint_acc l (10 * acc + 2)
  | Decimal.D3 l => uint_acc l (10 * acc + 3)
  | Decimal.D4 l => uint_acc l (10 * acc + 4)
  | Decimal.D5 l => uint_acc l (10 * acc + 5)
  | Decimal.D6 l => uint_acc l (10 * acc + 6)
  | Decimal.D7 l => uint_acc l (10 * acc + 7)
  | Decimal.D8 l => uint_acc l (10 * acc + 8)
  | Decimal.D9 l => uint_acc l (10 * acc + 9)
  end.

(** Every character of [s] is a key of [SUPERSCRIPT_MAP]. *)
Fixpoint plain (s : string) : bool :=
  match s with
  | EmptyString => true
  | String c r => existsb (fun kv => Ascii.eqb (fst kv) c) SUPERSCRIPT_MAP && plain r
  end.

(* ================================================================== *)
(** * Shapes of the powers-of-ten problems *)
(* ================================================================== *)

(** The generator a template comes from. *)
Definition kind_of (t : template) : string :=
  match t with
  | Single _ _ | MultiplyTwo _ _ _ _ => "basic"
  | Multiply _ _ _ _ | Divide _ _ _ _ => "intermediate"
  | _ => "advanced"
  end.

(** The generator [generate_powers_of_ten_problem(level)] dispatches to:
    every level but ['basic'] and ['intermediate'] is taken as advanced. *)
Definition level_kind (level : string) : string :=
  if String.eqb level "basic" then "basic"
  else if String.eqb level "intermediate" then "intermediate"
  else "advanced".

(** Is the value of ['expression'] the dict of a vertical fraction? *)
Definition is_dict (e : expr) : bool :=
  match e with ExprFraction _ _ => true | ExprText _ => false end.

Definition is_nonzero_digit (c : ascii) : bool :=
  match digit_of c with Some d => 1 <=? d | None => false end.

(** A coefficient written as one non-zero digit, or as one non-zero digit,
    a point and one non-zero digit. *)
Definition tidy (txt : string) : bool :=
  match txt with
  | String a EmptyString => is_nonzero_digit a
  | String a (String "."%char (String b EmptyString)) =>
      is_nonzero_digit a && is_nonzero_digit b
  | _ => false
  end.

(** Checked on a coefficient part [k]: the first loop, run alone on the raw
    coefficient, divides at most once and stops on a coefficient that the
    second loop leaves alone. *)
Definition first_loop_suffices (k : template) : bool :=
  match raw_pair k with
  | Ok (c0, _) =>
      py_le (PyInt 1) c0 &&
      match scale_down loop_bound c0 0 with
      | Ok (c1, s) =>
          between 0 1 s &&
          negb (py_lt (PyInt 0) c1 && py_lt c1 (PyInt 1))
      | Raise _ => false
      end
  | Raise _ => false
  end.

(** Checked on a coefficient part [k]: the coefficient's text is tidy. *)
Definition coefficient_tidy (k : template) : bool :=
  match normalized_pair k with
  | Ok (c, _) =>
      match coef_text (is_basic k) c with
      | Ok txt => tidy txt
      | Raise _ => false
      end
  | Raise _ => false
  end.

(** A run of the advanced generator, reached through a level name the
    dispatch does not know. *)
Definition sample_problem : Powers.problem :=
  Powers.mk (ExprFraction "9 × 10⁴ × 6 × 10²" "9 × 10¹") "6 × 10⁵" None
            false true (Some true).

(* ================================================================== *)
(** * Reading a canvas *)
(* ================================================================== *)

(** The "Page [page_num] of [total_pages]" labels of a canvas, in order. *)
Definition page_labels {P} (ops : list (canvas_op P)) : list (Z * Z) :=
  flat_map (fun op => match op with
                      | Header page_num total_pages _ _ _ =>
                          [(page_num, total_pages)]
                      | _ => []
                      end) ops.

(** The problems drawn without ([show = false]) or with ([show = true])
    their answer, in order: number, row, column and problem. *)
Definition cells {P} (show : bool) (ops : list (canvas_op P))
  : list (Z * Z * Z * P) :=
  flat_map (fun op => match op with
                      | DrawProblem number row col prob show_answer =>
                          if Bool.eqb show_answer show
                          then [(number, row, col, prob)] else []
                      | _ => []
                      end) ops.

(** How many problems each page holds: the problems drawn between one
    [showPage] and the next, [count] being those drawn so far. *)
Fixpoint page_sizes {P} (ops : list (canvas_op P)) (count : Z) : list Z :=
  match ops with
  | [] => []
  | DrawProblem _ _ _ _ _ :: rest => page_sizes rest (count + 1)
  | ShowPage :: rest => count :: page_sizes rest 0
  | _ :: rest => page_sizes rest count
  end.

(** Where problem [i] (from 0) of [problems] belongs on a grid of
    [problems_per_row] by [rows_per_page]: its number, row and column. *)
Definition placement {P} (problems : list P) (default : P)
    (problems_per_row rows_per_page : Z) (i : Z) : Z * Z * Z * P :=
  (i + 1,
   (i mod per_page problems_per_row rows_per_page) / problems_per_row,
   i mod problems_per_row,
   nth (Z.to_nat i) problems default).

(** The pages of a canvas are labelled "Page 1 of N" to "Page N of N",
    [N] being the pages the canvas holds. *)
Definition numbered_from_one {P} (ops : list (canvas_op P)) : Prop :=
  page_labels ops
  = map (fun k => (k, count_pages ops)) (range 1 (1 + count_pages ops)).

(** A cell lies on the grid of [problems_per_row] by [rows_per_page]. *)
Definition on_grid {P} (problems_per_row rows_per_page : Z)
    (c : Z * Z * Z * P) : Prop :=
  let '(_, row, col, _) := c in
  0 <= row < rows_per_page /\ 0 <= col < problems_per_row.

(** The problem a cell shows, and its number. *)
Definition cell_problem {P} (c : Z * Z * Z * P) : P := snd c.
Definition cell_number {P} (c : Z * Z * Z * P) : Z := fst (fst (fst c)).

(** The record states the result of the problem it prints, under one of the
    four display tokens. *)
Definition sound (r : ArithmeticProblem) : Prop :=
  apply_operation (operation r) (top r) (bottom r) = Some (answer r) /\
  In (operation r) ["+"; "-"; "×"; "÷"].

(** A two-problem worksheet with its answer key, and a one-problem powers
    worksheet with its key. *)
Definition sample_worksheet : list (canvas_op ArithmeticProblem) :=
  [Header 1 2 "Addition Practice" "Complete all 2 problems. Show your work!"
          1014;
   DrawProblem 1 0 0 (mkProblem 3 6 "+" 9) false;
   DrawProblem 2 0 1 (mkProblem 9 3 "+" 12) false;
   ShowPage;
   Header 2 2 "Addition Practice - ANSWER KEY" "For teacher use only" 1017;
   DrawProblem 1 0 0 (mkProblem 3 6 "+" 9) true;
   DrawProblem 2 0 1 (mkProblem 9 3 "+" 12) true;
   ShowPage; Save].

Definition sample_basic_problem : Powers.problem :=
  Powers.mk (ExprText "8 × 10⁻¹") "0.8" (Some "8 × 10⁻¹") true false None.

Definition sample_powers_worksheet : list (canvas_op Powers.problem) :=
  [Header 1 2 "Powers of Ten - Basic"
          "Express your answers in scientific notation where appropriate."
          1017;
   DrawProblem 1 0 0 sample_basic_problem false;
   ShowPage;
   Header 2 2 "Powers of Ten - Basic - ANSWER KEY" "For teacher use only"
          1022;
   DrawProblem 1 0 0 sample_basic_problem true;
   ShowPage; Save].

(* ================================================================== *)
(** * [main] *)
(* ================================================================== *)

(** [main()]: the eight worksheets it saves, in order (the source prints
    progress lines and returns nothing). *)
Definition main
  : M (list (list (canvas_op ArithmeticProblem)) *
       list (list (canvas_op Powers.problem))) :=
  let generator := init "Lexington Science Academy" in
  addition <-
    generate_worksheet generator "addition_practice.pdf" 30 "+" 1 99
      (Some "Addition Practice")
      (Some "Add the numbers. Write your answer below the line.")
      true false ;;
  subtraction <-
    generate_worksheet generator "subtraction_practice.pdf" 30 "-" 1 50
      (Some "Subtraction Practice")
      (Some "Subtract the numbers. Write your answer below the line.")
      true false ;;
  multiplication <-
    generate_worksheet generator "multiplication_practice.pdf" 30 "×" 2 12
      (Some "Multiplication Practice")
      (Some "Multiply the numbers. Show your work!")
      true false ;;
  division <-
    generate_worksheet generator "division_practice.pdf" 30 "÷" 2 12
      (Some "Division Practice")
      (Some "Divide the numbers. All answers are whole numbers.")
      true false ;;
  mixed <-
    generate_worksheet generator "mixed_operations_practice.pdf" 40 "+" 2 20
      (Some "Mixed Operations Challenge")
      (Some "Complete each problem. Pay attention to the operation sign!")
      true true ;;
  basic <-
    generate_powers_worksheet generator "powers_of_ten_basic.pdf" 20 "basic"
      (Some "Powers of Ten - Basic")
      (Some "Simplify each expression. Write answers in standard or scientific notation.")
      true ;;
  intermediate <-
    generate_powers_worksheet generator "powers_of_ten_intermediate.pdf" 16
      "intermediate"
      (Some "Scientific Notation Practice")
      (Some "Simplify each expression. Express answers in scientific notation.")
      true ;;
  advanced <-
    generate_powers_worksheet generator "powers_of_ten_advanced.pdf" 12
      "advanced"
      (Some "Scientific Notation - Advanced")
      (Some "Simplify each expression. Express answers in proper scientific notation.")
      true ;;
  ret ([addition; subtraction; multiplication; division; mixed],
       [basic; intermediate; advanced]).

(* ================================================================== *)
(** * Properties *)
(* ================================================================== *)

Lemma coef_parts_checked : all_coef_parts coef_part_ok = true.
Proof. vm_compute. reflexivity. Qed.

Lemma singles_checked : all_single single_ok = true.
Proof. vm_compute. reflexivity. Qed.

Lemma superscripts_checked : superscripts_ok = true.
Proof. vm_compute. reflexivity. Qed.

(** ** The generator monad *)

Lemma bind_Ok {A B} (m : M A) (k : A -> M B) g b g' :
  bind m k g = Ok (b, g') ->
  exists a g1, m g = Ok (a, g1) /\ k a g1 = Ok (b, g').
Proof.
  unfold bind. destruct (m g) as [[a g1]|e]; [|discriminate].
  intros H. now exists a, g1.
Qed.

Lemma ret_Ok {A} (a b : A) g g' : ret a g = Ok (b, g') -> a = b /\ g = g'.
Proof. unfold ret. intros H. now inversion H. Qed.

Lemma randint_Ok lo hi g v g' :
  randint lo hi g = Ok (v, g') -> lo <= v <= hi /\ g' = advance g.
Proof.
  unfold randint. destruct (hi <? lo) eqn:E; [discriminate|].
  apply Z.ltb_ge in E. unfold bind, randbelow, ret. intros H. inversion H.
  split; [|reflexivity].
  pose proof (Z.mod_pos_bound (g 0%nat) (hi + 1 - lo)). lia.
Qed.

Lemma randint_total lo hi g :
  lo <= hi -> exists v, randint lo hi g = Ok (v, advance g).
Proof.
  intros H. unfold randint. apply Z.ltb_ge in H. rewrite H.
  unfold bind, randbelow, ret. eexists. reflexivity.
Qed.

Lemma randint_empty lo hi g :
  hi < lo -> randint lo hi g = Raise (EmptyRange lo hi).
Proof. intros H. unfold randint. apply Z.ltb_lt in H. now rewrite H. Qed.

(** Every value of the range is drawn from some state of the source. *)
Lemma randint_any lo hi v :
  lo <= v <= hi -> forall g, g 0%nat = v - lo ->
  randint lo hi g = Ok (v, advance g).
Proof.
  intros H g Hg. unfold randint.
  assert (E : (hi <? lo) = false) by (apply Z.ltb_ge; lia). rewrite E.
  unfold bind, randbelow, ret. rewrite Hg, Z.mod_small by lia.
  do 3 f_equal. lia.
Qed.

Lemma choice_Ok {A} (l : list A) g x g' :
  choice l g = Ok (x, g') -> In x l /\ g' = advance g.
Proof.
  destruct l as [|d l]; [discriminate|].
  intros H.
  assert (Hlt : (Z.to_nat (g 0%nat mod Z.of_nat (List.length (d :: l)))
                 < List.length (d :: l))%nat).
  { pose proof (Z.mod_pos_bound (g 0%nat)
                  (Z.of_nat (List.length (d :: l)))) as Hb.
    cbn [List.length] in *. lia. }
  pose proof (nth_In (d :: l) d Hlt) as Hin.
  unfold choice, bind, randbelow, ret in H.
  injection H as <- <-. split; [exact Hin | reflexivity].
Qed.

Lemma choice_total {A} (l : list A) g :
  l <> [] -> exists x, choice l g = Ok (x, advance g).
Proof.
  destruct l as [|d l]; [congruence|]. intros _.
  unfold choice, bind, randbelow, ret. eexists. reflexivity.
Qed.

(** Takes [H : m g = Ok (r, g')] apart, one draw at a time. *)
Ltac draws H :=
  repeat match type of H with
  | bind _ _ _ = Ok _ =>
      let a := fresh "v" in let g := fresh "g" in
      let Hd := fresh "Hd" in
      apply bind_Ok in H; destruct H as (a & g & Hd & H);
      try (apply randint_Ok in Hd; destruct Hd as [Hd ?])
  | ret _ _ = Ok _ => apply ret_Ok in H; destruct H as [H ?]
  end.

(** ** [generate_problem] *)

Lemma eqb_cases (op : string) :
  recognized op =
  (String.eqb op "+" || String.eqb op "-" || String.eqb op "*" ||
   String.eqb op "×" || String.eqb op "/" || String.eqb op "÷").
Proof. unfold recognized. cbn [existsb]. now rewrite !orb_assoc, orb_false_r. Qed.

Lemma division_shape op min_val max_val neg g r g' :
  op = "÷" \/ op = "/" ->
  generate_problem op min_val max_val neg g = Ok (r, g') ->
  exists b q,
    r = mkProblem (b * q) b "÷" q /\
    Z.max 1 min_val <= b <= Z.min max_val 12 /\
    min_val <= q <= Z.min max_val 12.
Proof.
  intros [-> | ->] H; cbn in H; draws H; subst; eauto.
Qed.

Lemma multiplication_shape op min_val max_val neg g r g' :
  op = "×" \/ op = "*" ->
  generate_problem op min_val max_val neg g = Ok (r, g') ->
  exists a b,
    r = mkProblem a b "×" (a * b) /\
    min_val <= a <= Z.min max_val 12 /\
    min_val <= b <= Z.min max_val 12.
Proof.
  intros [-> | ->] H; cbn in H; draws H; subst; eauto.
Qed.

(** C1: a division problem has [top = bottom * answer] and a positive
    [bottom]. *)
Theorem division_exact op min_val max_val allow_negative_results g r g' :
  op = "÷" \/ op = "/" ->
  generate_problem op min_val max_val allow_negative_results g = Ok (r, g') ->
  top r = bottom r * answer r /\ bottom r > 0.
Proof.
  intros Hop H.
  destruct (division_shape _ _ _ _ _ _ _ Hop H) as (b & q & -> & Hb & _).
  cbn. lia.
Qed.

Lemma division_exact_witness :
  generate_problem "÷" 2 12 false (tape 2 3)
  = Ok (mkProblem 28 4 "÷" 7, advance (advance (tape 2 3))) /\
  (28 = 4 * 7 /\ 4 > 0).
Proof.
  assert (H : generate_problem "÷" 2 12 false (tape 2 3)
              = Ok (mkProblem 28 4 "÷" 7, advance (advance (tape 2 3))))
    by reflexivity.
  split; [exact H|].
  exact (division_exact "÷" 2 12 false _ _ _ (or_introl eq_refl) H).
Defined.

(** C3: a subtraction problem generated with negative results disallowed
    has [top >= bottom]: the subtrahend is drawn from [min_val, top]. *)
Theorem subtraction_nonnegative min_val max_val g r g' :
  generate_problem "-" min_val max_val false g = Ok (r, g') ->
  top r >= bottom r /\ min_val <= bottom r /\ answer r >= 0.
Proof.
  intros H. cbn in H.
  apply bind_Ok in H. destruct H as ([a b] & g1 & Hd & H).
  draws Hd. draws H. inversion Hd. subst. cbn. lia.
Qed.

Lemma subtraction_nonnegative_witness :
  generate_problem "-" 1 50 false (tape 17 30)
  = Ok (mkProblem 18 12 "-" 6, advance (advance (tape 17 30))) /\
  (18 >= 12 /\ 1 <= 12 /\ 6 >= 0).
Proof.
  assert (H : generate_problem "-" 1 50 false (tape 17 30)
              = Ok (mkProblem 18 12 "-" 6, advance (advance (tape 17 30))))
    by reflexivity.
  split; [exact H|].
  exact (subtraction_nonnegative 1 50 _ _ _ H).
Defined.

(** Splits on which branch of [generate_problem] the token [op] takes. *)
Ltac by_operator op :=
  destruct (String.eqb op "+") eqn:Eplus;
  [| destruct (String.eqb op "-") eqn:Eminus;
     [| destruct (String.eqb op "*") eqn:Estar;
        [| destruct (String.eqb op "×") eqn:Etimes;
           [| destruct (String.eqb op "/") eqn:Eslash;
              [| destruct (String.eqb op "÷") eqn:Ediv ]]]]];
  cbn [orb].

Lemma generate_problem_unknown op min_val max_val neg g :
  recognized op = false ->
  generate_problem op min_val max_val neg g = Raise (unknown_operation op).
Proof.
  rewrite eqb_cases. unfold generate_problem.
  by_operator op; cbn; intros H; try discriminate. reflexivity.
Qed.

Lemma generate_problem_returns op min_val max_val neg g :
  recognized op = true -> ranges_nonempty op min_val max_val = true ->
  exists r, exists g', generate_problem op min_val max_val neg g = Ok (r, g').
Proof.
  rewrite eqb_cases. unfold ranges_nonempty, generate_problem.
  by_operator op; cbn; intros Hrec Hrange; try discriminate;
    apply Z.leb_le in Hrange.
  - destruct (randint_total min_val max_val g Hrange) as [a Ha].
    destruct (randint_total min_val max_val (advance g) Hrange) as [b Hb].
    unfold bind. rewrite Ha, Hb. eexists. eexists. reflexivity.
  - destruct (randint_total min_val max_val g Hrange) as [a Ha].
    pose proof Ha as Ha'. apply randint_Ok in Ha'. destruct Ha' as [Hin _].
    destruct neg.
    + destruct (randint_total min_val max_val (advance g) Hrange) as [b Hb].
      unfold bind. rewrite Ha, Hb. eexists. eexists. reflexivity.
    + assert (Hle : min_val <= a) by lia.
      destruct (randint_total min_val a (advance g) Hle) as [b Hb].
      unfold bind. rewrite Ha, Hb. eexists. eexists. reflexivity.
  - destruct (randint_total min_val _ g Hrange) as [a Ha].
    destruct (randint_total min_val _ (advance g) Hrange) as [b Hb].
    unfold bind. rewrite Ha, Hb. eexists. eexists. reflexivity.
  - destruct (randint_total min_val _ g Hrange) as [a Ha].
    destruct (randint_total min_val _ (advance g) Hrange) as [b Hb].
    unfold bind. rewrite Ha, Hb. eexists. eexists. reflexivity.
  - destruct (randint_total _ _ g Hrange) as [b Hb].
    assert (Hle : min_val <= Z.min max_val 12) by lia.
    destruct (randint_total _ _ (advance g) Hle) as [q Hq].
    unfold bind. rewrite Hb, Hq. eexists. eexists. reflexivity.
  - destruct (randint_total _ _ g Hrange) as [b Hb].
    assert (Hle : min_val <= Z.min max_val 12) by lia.
    destruct (randint_total _ _ (advance g) Hle) as [q Hq].
    unfold bind. rewrite Hb, Hq. eexists. eexists. reflexivity.
Qed.

Lemma generate_problem_empty_range op min_val max_val neg g :
  recognized op = true -> ranges_nonempty op min_val max_val = false ->
  exists lo hi,
    hi < lo /\ generate_problem op min_val max_val neg g = Raise (EmptyRange lo hi).
Proof.
  rewrite eqb_cases. unfold ranges_nonempty, generate_problem.
  by_operator op; cbn; intros Hrec Hrange; try discriminate;
    apply Z.leb_gt in Hrange;
    try (destruct neg);
    eexists; eexists; (split; [exact Hrange|]);
    unfold bind; rewrite (randint_empty _ _ g Hrange); reflexivity.
Qed.

(** C4, as the source has it: an unrecognized token always fails with the
    "Unknown operation" error; a recognized one returns a record when the
    ranges it draws from are non-empty, and fails with the empty-range error
    of [random.randint] when one is empty. *)
Theorem generate_problem_errors op min_val max_val allow_negative_results g :
  (recognized op = false ->
   generate_problem op min_val max_val allow_negative_results g
   = Raise (ValueError ("Unknown operation: " +++ op))) /\
  (recognized op = true -> ranges_nonempty op min_val max_val = true ->
   exists r, exists g',
     generate_problem op min_val max_val allow_negative_results g = Ok (r, g')) /\
  (recognized op = true -> ranges_nonempty op min_val max_val = false ->
   exists lo hi,
     hi < lo /\
     generate_problem op min_val max_val allow_negative_results g
     = Raise (EmptyRange lo hi)).
Proof.
  split; [|split].
  - apply generate_problem_unknown.
  - apply generate_problem_returns.
  - apply generate_problem_empty_range.
Qed.

Lemma generate_problem_errors_witness :
  generate_problem "%" 1 99 false (tape 0 0)
  = Raise (ValueError "Unknown operation: %") /\
  (exists r, exists g', generate_problem "×" 2 99 false (tape 0 0) = Ok (r, g')) /\
  (exists lo hi, hi < lo /\
     generate_problem "×" 13 99 false (tape 0 0) = Raise (EmptyRange lo hi)).
Proof.
  split; [|split].
  - apply (proj1 (generate_problem_errors "%" 1 99 false (tape 0 0))).
    reflexivity.
  - apply (proj1 (proj2 (generate_problem_errors "×" 2 99 false (tape 0 0))));
      reflexivity.
  - apply (proj2 (proj2 (generate_problem_errors "×" 13 99 false (tape 0 0))));
      reflexivity.
Defined.

(** C4 as stated fails: ['+'] is recognized, yet with [min_val = 5] and
    [max_val = 1] the call raises. *)
Lemma recognized_operator_raises :
  recognized "+" = true /\
  generate_problem "+" 5 1 false (tape 0 0) = Raise (EmptyRange 5 1).
Proof. split; reflexivity. Qed.

(** C9: the ['operation'] of a returned record is one of the four display
    tokens; the aliases ['*'] and ['/'] come back as ['×'] and ['÷']. *)
Theorem operation_canonical op min_val max_val allow_negative_results g r g' :
  generate_problem op min_val max_val allow_negative_results g = Ok (r, g') ->
  In (operation r) ["+"; "-"; "×"; "÷"] /\
  (op = "*" -> operation r = "×") /\
  (op = "/" -> operation r = "÷").
Proof.
  unfold generate_problem.
  by_operator op; intros H.
  - apply String.eqb_eq in Eplus. subst op. draws H. subst r. cbn.
    split; [auto|]. split; discriminate.
  - apply String.eqb_eq in Eminus. subst op.
    apply bind_Ok in H. destruct H as ([a b] & g1 & _ & H). draws H.
    subst r. cbn. split; [auto|]. split; discriminate.
  - apply String.eqb_eq in Estar. subst op. draws H. subst r. cbn.
    split; [auto|]. split; [reflexivity | discriminate].
  - apply String.eqb_eq in Etimes. subst op. draws H. subst r. cbn.
    split; [auto|]. split; discriminate.
  - apply String.eqb_eq in Eslash. subst op. draws H. subst r. cbn.
    split; [auto 6|]. split; [discriminate | reflexivity].
  - apply String.eqb_eq in Ediv. subst op. draws H. subst r. cbn.
    split; [auto 6|]. split; discriminate.
  - discriminate.
Qed.

Lemma operation_canonical_witness :
  generate_problem "*" 2 12 false (tape 3 1)
  = Ok (mkProblem 5 6 "×" 30, advance (advance (tape 3 1))) /\
  (In "×" ["+"; "-"; "×"; "÷"] /\
   ("*" = "*" -> "×" = "×") /\
   ("*" = "/" -> "×" = "÷")).
Proof.
  assert (H : generate_problem "*" 2 12 false (tape 3 1)
              = Ok (mkProblem 5 6 "×" 30, advance (advance (tape 3 1))))
    by reflexivity.
  split; [exact H|].
  exact (operation_canonical "*" 2 12 false _ _ _ H).
Defined.

(** C10: the factors of a multiplication ([top], [bottom]) and of a
    division ([bottom], [answer]) are at most [min(max_val, 12)]. *)
Theorem factors_clamped op min_val max_val allow_negative_results g r g' :
  generate_problem op min_val max_val allow_negative_results g = Ok (r, g') ->
  (op = "×" \/ op = "*" ->
   top r <= Z.min max_val 12 /\ bottom r <= Z.min max_val 12 /\
   top r <= 12 /\ bottom r <= 12) /\
  (op = "÷" \/ op = "/" ->
   bottom r <= Z.min max_val 12 /\ answer r <= Z.min max_val 12 /\
   bottom r <= 12 /\ answer r <= 12).
Proof.
  intros H. split; intros Hop.
  - destruct (multiplication_shape _ _ _ _ _ _ _ Hop H) as (a & b & -> & Ha & Hb).
    cbn. lia.
  - destruct (division_shape _ _ _ _ _ _ _ Hop H) as (b & q & -> & Hb & Hq).
    cbn. lia.
Qed.

Lemma factors_clamped_witness :
  generate_problem "×" 1 99 false (tape 11 98)
  = Ok (mkProblem 12 2 "×" 24, advance (advance (tape 11 98))) /\
  (12 <= Z.min 99 12 /\ 2 <= Z.min 99 12 /\ 12 <= 12 /\ 2 <= 12).
Proof.
  assert (H : generate_problem "×" 1 99 false (tape 11 98)
              = Ok (mkProblem 12 2 "×" 24, advance (advance (tape 11 98))))
    by reflexivity.
  split; [exact H|].
  exact (proj1 (factors_clamped "×" 1 99 false _ _ _ H) (or_introl eq_refl)).
Defined.

(** ** Checking a property on every drawable template *)

Lemma all_from_spec n : forall lo p,
  all_from n lo p = true ->
  forall v, lo <= v < lo + Z.of_nat n -> p v = true.
Proof.
  induction n as [|n IH]; intros lo p H v Hv; [lia|].
  cbn [all_from] in H. apply andb_prop in H. destruct H as [H0 H1].
  destruct (Z.eq_dec v lo) as [->|Hne]; [exact H0|].
  apply (IH (lo + 1) p H1). lia.
Qed.

Lemma all_in_spec lo hi p :
  all_in lo hi p = true -> forall v, lo <= v <= hi -> p v = true.
Proof.
  unfold all_in. intros H v Hv. apply (all_from_spec _ _ _ H). lia.
Qed.

Lemma between_spec lo hi v : between lo hi v = true <-> lo <= v <= hi.
Proof. unfold between. rewrite andb_true_iff, !Z.leb_le. tauto. Qed.

(** Reads the hypothesis [drawable t = true] as inequalities. *)
Ltac unpack_drawable H :=
  cbn [drawable] in H;
  repeat (apply andb_prop in H; let H' := fresh "Hd" in destruct H as [H H']);
  repeat match goal with
         | X : between _ _ _ = true |- _ => apply between_spec in X
         end.

Lemma all_coef_parts_spec p :
  all_coef_parts p = true ->
  forall t, drawable t = true -> is_single t = false -> p (coef_part t) = true.
Proof.
  intros H. cbv beta zeta delta [all_coef_parts] in H.
  apply andb_prop in H. destruct H as [H H6].
  apply andb_prop in H. destruct H as [H H5].
  apply andb_prop in H. destruct H as [H H4].
  apply andb_prop in H. destruct H as [H H3].
  apply andb_prop in H. destruct H as [H1 H2].
  intros [coef exp|a b m n|a b m n|a b m n|a b m n c|a b m n q c|a b m n c q]
         Hd Hs; try discriminate; unpack_drawable Hd; cbn [coef_part].
  - apply (all_in_spec _ _ _ (all_in_spec _ _ _ H1 a ltac:(lia)) b). lia.
  - apply (all_in_spec _ _ _ (all_in_spec _ _ _ H2 a ltac:(lia)) b). lia.
  - pose proof (all_in_spec _ _ _ (all_in_spec _ _ _ H3 a ltac:(lia))
                            b ltac:(lia)) as X.
    cbv beta in X.
    match goal with E : (_ mod _ =? 0) = true |- _ => rewrite E in X end.
    exact X.
  - pose proof (all_in_spec _ _ _
                  (all_in_spec _ _ _ (all_in_spec _ _ _ H4 a ltac:(lia))
                               b ltac:(lia)) c ltac:(lia)) as X.
    cbv beta in X.
    match goal with E : (_ mod _ =? 0) = true |- _ => rewrite E in X end.
    exact X.
  - pose proof (all_in_spec _ _ _
                  (all_in_spec _ _ _ (all_in_spec _ _ _ H5 a ltac:(lia))
                               b ltac:(lia)) c ltac:(lia)) as X.
    cbv beta in X.
    match goal with E : (_ mod _ =? 0) = true |- _ => rewrite E in X end.
    exact X.
  - pose proof (all_in_spec _ _ _
                  (all_in_spec _ _ _ (all_in_spec _ _ _ H6 a ltac:(lia))
                               b ltac:(lia)) c ltac:(lia)) as X.
    cbv beta in X.
    match goal with E : (_ mod _ =? 0) = true |- _ => rewrite E in X end.
    exact X.
Qed.

Lemma all_single_spec p :
  all_single p = true ->
  forall coef exp, drawable (Single coef exp) = true -> p (Single coef exp) = true.
Proof.
  unfold all_single. intros H coef exp Hd. unpack_drawable Hd.
  apply (all_in_spec _ _ _ (all_in_spec _ _ _ H coef ltac:(lia)) exp). lia.
Qed.

(** ** Drawing always returns a drawable template *)

Lemma returns_ret {A} (a : A) (Q : A -> Prop) : Q a -> returns (ret a) Q.
Proof. intros H g. exists a, g. now split. Qed.

Lemma returns_bind {A B} (m : M A) (k : A -> M B) (P : A -> Prop) Q :
  returns m P -> (forall a, P a -> returns (k a) Q) -> returns (bind m k) Q.
Proof.
  intros Hm Hk g. destruct (Hm g) as (a & g1 & E & Ha).
  destruct (Hk a Ha g1) as (b & g2 & E' & Hb).
  exists b, g2. unfold bind. rewrite E. now split.
Qed.

Lemma returns_randint lo hi :
  lo <= hi -> returns (randint lo hi) (fun v => lo <= v <= hi).
Proof.
  intros H g. destruct (randint_total lo hi g H) as [v E].
  exists v, (advance g). split; [exact E|].
  now apply randint_Ok in E.
Qed.

Lemma returns_choice {A} (l : list A) :
  l <> [] -> returns (choice l) (fun x => In x l).
Proof.
  intros H g. destruct (choice_total l g H) as [x E].
  exists x, (advance g). split; [exact E|].
  now apply choice_Ok in E.
Qed.

Lemma returns_weaken {A} (m : M A) (P Q : A -> Prop) :
  returns m P -> (forall a, P a -> Q a) -> returns m Q.
Proof.
  intros H HPQ g. destruct (H g) as (a & g' & E & Ha). exists a, g'. auto.
Qed.

(** What [m] returns from [g] satisfies every postcondition of [m]. *)
Lemma returns_Ok {A} (m : M A) Q g a g' :
  returns m Q -> m g = Ok (a, g') -> Q a.
Proof.
  intros H E. destruct (H g) as (a' & g'' & E' & Ha).
  rewrite E in E'. now inversion E'.
Qed.

Lemma in_range lo hi v : In v (range lo hi) <-> lo <= v < hi.
Proof.
  unfold range. rewrite in_map_iff. split.
  - intros (i & <- & Hi). apply in_seq in Hi. lia.
  - intros H. exists (Z.to_nat (v - lo)). split; [lia|].
    apply in_seq. lia.
Qed.

Lemma in_divisors lo hi x c :
  In c (divisors_in lo hi x) <-> lo <= c < hi /\ x mod c = 0.
Proof.
  unfold divisors_in. rewrite filter_In, in_range, Z.eqb_eq. tauto.
Qed.

(** The first operand is one of the candidates, so the source's fallback
    for an empty candidate list is never taken. *)
Lemma divisors_nonempty hi a b :
  2 <= a < hi -> divisors_in 2 hi (a * b) <> [].
Proof.
  intros H E.
  assert (Hin : In a (divisors_in 2 hi (a * b))).
  { apply in_divisors. split; [lia|]. rewrite Z.mul_comm. apply Z_mod_mult. }
  rewrite E in Hin. exact Hin.
Qed.

Lemma one_divides a : divisors_in 1 10 a <> [].
Proof.
  intros E.
  assert (Hin : In 1 (divisors_in 1 10 a)).
  { apply in_divisors. split; [lia|]. apply Z.mod_1_r. }
  rewrite E in Hin. exact Hin.
Qed.

(** Steps through the draws of a generator, keeping what each one
    guarantees. *)
Ltac draw_step :=
  match goal with
  | |- returns (bind (randint ?lo ?hi) _) _ =>
      eapply returns_bind; [apply returns_randint; lia | cbv beta; intros ? ?]
  | |- returns (bind (choice ?l) _) _ =>
      eapply returns_bind; [apply returns_choice | cbv beta; intros ? ?]
  | |- returns (ret _) _ => apply returns_ret
  end.

Lemma drawable_iff t : drawable t = true <-> drawable_prop t.
Proof.
  destruct t; cbn [drawable drawable_prop]; unfold between;
    rewrite ?andb_true_iff, ?Z.leb_le, ?Z.eqb_eq; tauto.
Qed.

Ltac close_drawable :=
  apply drawable_iff; cbn [drawable_prop]; repeat split; try lia; try assumption.

Lemma draw_basic_drawable :
  returns draw_basic (fun t => drawable t = true /\ is_basic t = true).
Proof.
  unfold draw_basic. draw_step; [discriminate|].
  match goal with |- context [String.eqb ?x "single"] =>
    destruct (String.eqb x "single") end;
    repeat draw_step; (split; [close_drawable | reflexivity]).
Qed.

Ltac use_divisor :=
  match goal with
  | X : In _ (divisors_in _ _ _) |- _ =>
      apply in_divisors in X; destruct X as [? ?]
  end.

Lemma draw_intermediate_drawable :
  returns draw_intermediate
          (fun t => drawable t = true /\ is_basic t = false).
Proof.
  unfold draw_intermediate. draw_step; [discriminate|].
  do 4 draw_step.
  match goal with |- context [String.eqb ?x "multiply"] =>
    destruct (String.eqb x "multiply") end.
  - draw_step. split; [close_drawable | reflexivity].
  - do 2 draw_step.
    match goal with |- context [9 <? ?x] => destruct (9 <? x) eqn:E end.
    + draw_step. draw_step; [apply one_divides|].
      draw_step. use_divisor.
      split; [close_drawable | reflexivity].
    + draw_step. apply Z.ltb_ge in E.
      split; [|reflexivity]. close_drawable; try nia.
      apply Z_mod_mult.
Qed.

(** The candidate list of an advanced template is not empty, so its
    divisor is chosen from it. *)
Ltac choose_divisor hi :=
  match goal with
  | |- context [divisors_in 2 hi (?a * ?b)] =>
      let Hne := fresh "Hne" in
      let E := fresh "E" in
      pose proof (divisors_nonempty hi a b ltac:(lia)) as Hne;
      destruct (divisors_in 2 hi (a * b)) eqn:E; [congruence|];
      rewrite <- E in *; draw_step; [exact Hne|]
  end.

Lemma draw_advanced_drawable :
  returns draw_advanced (fun t => drawable t = true /\ is_basic t = false).
Proof.
  unfold draw_advanced. draw_step; [discriminate|].
  match goal with |- context [String.eqb ?x "fraction"] =>
    destruct (String.eqb x "fraction");
      [| destruct (String.eqb x "multi_term")] end.
  - do 4 draw_step. cbv zeta. choose_divisor 20. draw_step. use_divisor.
    split; [close_drawable | reflexivity].
  - do 5 draw_step. cbv zeta. choose_divisor 10. draw_step. use_divisor.
    split; [close_drawable | reflexivity].
  - do 4 draw_step. cbv zeta. choose_divisor 12. do 2 draw_step. use_divisor.
    split; [close_drawable | reflexivity].
Qed.

Lemma draw_powers_drawable level :
  returns (draw_powers level) (fun t => drawable t = true).
Proof.
  unfold draw_powers.
  destruct (String.eqb level "basic");
    [| destruct (String.eqb level "intermediate")].
  - eapply returns_weaken; [apply draw_basic_drawable |].
    intros t [H _]. exact H.
  - eapply returns_weaken; [apply draw_intermediate_drawable |].
    intros t [H _]. exact H.
  - eapply returns_weaken; [apply draw_advanced_drawable |].
    intros t [H _]. exact H.
Qed.

(** ** Normalization does not look at the exponent *)

Lemma scale_down_shift fuel : forall c e c' e' d,
  scale_down fuel c e = Ok (c', e') ->
  scale_down fuel c (e + d) = Ok (c', e' + d).
Proof.
  induction fuel as [|fuel IH]; intros c e c' e' d; cbn [scale_down];
    destruct (py_le (PyInt 10) c); try discriminate;
    try (intros H; inversion H; reflexivity).
  unfold result_bind. destruct (py_truediv c (PyInt 10)) as [c1|]; [|discriminate].
  intros H. apply (IH _ _ _ _ d) in H.
  replace (e + d + 1) with (e + 1 + d) by lia. exact H.
Qed.

Lemma scale_up_shift fuel : forall c e c' e' d,
  scale_up fuel c e = Ok (c', e') ->
  scale_up fuel c (e + d) = Ok (c', e' + d).
Proof.
  induction fuel as [|fuel IH]; intros c e c' e' d; cbn [scale_up];
    destruct (py_lt (PyInt 0) c && py_lt c (PyInt 1)); try discriminate;
    try (intros H; inversion H; reflexivity).
  intros H. apply (IH _ _ _ _ d) in H.
  replace (e + d - 1) with (e - 1 + d) by lia. exact H.
Qed.

Lemma normalize_at c c' s :
  normalize c 0 = Ok (c', s) -> forall e, normalize c e = Ok (c', e + s).
Proof.
  unfold normalize, result_bind. intros H e.
  destruct (scale_down loop_bound c 0) as [[c1 e1]|] eqn:E; [|discriminate].
  apply (scale_down_shift _ _ _ _ _ e) in E. cbn [Z.add] in E. rewrite E.
  cbn [fst snd] in *. apply (scale_up_shift _ _ _ _ _ e) in H.
  rewrite H. f_equal. f_equal. lia.
Qed.

Lemma normalize_once_at c c' s :
  normalize_once c 0 = Ok (c', s) ->
  forall e, normalize_once c e = Ok (c', e + s).
Proof.
  unfold normalize_once, result_bind. intros H e.
  destruct (py_le (PyInt 10) c).
  - destruct (py_truediv c (PyInt 10)); [|discriminate].
    inversion H. reflexivity.
  - inversion H. f_equal. f_equal. lia.
Qed.

Lemma normalized_pair_shift t c s :
  normalized_pair (coef_part t) = Ok (c, s) ->
  normalized_pair t = Ok (c, raw_exp t + s).
Proof.
  destruct t; unfold normalized_pair, result_bind;
    cbn [coef_part raw_pair raw_exp fst snd result_bind Z.add Z.sub Z.opp];
    unfold result_bind;
    try (match goal with
         | |- context [py_truediv ?x ?y] =>
             destruct (py_truediv x y); [|discriminate]
         end);
    cbn [fst snd]; intros H.
  - inversion H. f_equal. f_equal. lia.
  - now apply normalize_once_at.
  - now apply normalize_at.
  - now apply normalize_at.
  - now apply normalize_at.
  - now apply normalize_at.
  - now apply normalize_at.
Qed.

(** ** The answer is the coefficient's text, then the exponent *)

Lemma format_answer_text c e txt :
  coef_text false c = Ok txt ->
  format_answer c e = Ok (txt +++ times_ten e).
Proof.
  unfold coef_text, format_answer, result_bind.
  destruct (py_int c); [|discriminate].
  destruct (py_eq_int c a); intros H; inversion H; reflexivity.
Qed.

Lemma format_answer_basic_text c e txt :
  coef_text true c = Ok txt ->
  format_answer_basic c e = Ok (txt +++ times_ten e).
Proof.
  unfold coef_text, format_answer_basic, result_bind.
  destruct (py_int c); [|discriminate].
  destruct (py_eq_int c a); intros H; inversion H; reflexivity.
Qed.

Lemma build_answer t c e txt :
  is_single t = false ->
  normalized_pair t = Ok (c, e) ->
  coef_text (is_basic t) c = Ok txt ->
  exists P, build t = Ok P /\ Powers.answer P = txt +++ times_ten e.
Proof.
  destruct t; try discriminate; intros _ Hn Ht;
    cbn [build is_basic] in *; rewrite Hn; cbn [result_bind fst snd];
    first [ rewrite (format_answer_basic_text _ _ _ Ht)
          | rewrite (format_answer_text _ _ _ Ht) ];
    cbn [result_bind]; eexists; split; reflexivity.
Qed.

(** ** Reading the answer back *)

Lemma substring_all s : substring 0 (String.length s) s = s.
Proof. induction s as [|c s IH]; cbn; [reflexivity | now rewrite IH]. Qed.

Lemma split_on_coefficient txt rest :
  no_space txt = true ->
  split_on " × 10" (txt +++ " × 10" +++ rest) = Some (txt, rest).
Proof.
  induction txt as [|c txt IH]; intros Hs.
  - cbn. assert (E : String.prefix "" rest = true) by (destruct rest; reflexivity).
    rewrite E, Nat.sub_0_r, substring_all. reflexivity.
  - cbn [no_space] in Hs. apply andb_prop in Hs. destruct Hs as [Hc Hs].
    apply negb_true_iff, Ascii.eqb_neq in Hc.
    cbn [String.append split_on String.prefix].
    destruct (ascii_dec " " c) as [E|_]; [congruence|].
    pose proof (IH Hs) as X. cbn [String.append] in X. rewrite X.
    reflexivity.
Qed.

Lemma read_superscript_exponent e :
  -20 <= e <= 20 -> read_superscript (to_superscript e) = Some e.
Proof.
  intros H. pose proof (all_in_spec _ _ _ superscripts_checked e H) as X.
  cbv beta in X.
  destruct (read_superscript (to_superscript e)) as [e'|]; [|discriminate].
  apply Z.eqb_eq in X. now subst.
Qed.

Lemma read_scientific_answer txt q e :
  no_space txt = true -> read_decimal txt = Some q -> -20 <= e <= 20 ->
  read_scientific (txt +++ times_ten e) = Some (q, e).
Proof.
  intros Hs Hq He. unfold read_scientific, times_ten.
  rewrite (split_on_coefficient _ _ Hs), Hq, (read_superscript_exponent _ He).
  reflexivity.
Qed.

Lemma read_value_answer txt q e :
  no_space txt = true -> read_decimal txt = Some q -> -20 <= e <= 20 ->
  read_value (txt +++ times_ten e) = Some (q * Qpower 10 e)%Q.
Proof.
  intros Hs Hq He. unfold read_value.
  rewrite (read_scientific_answer _ _ _ Hs Hq He).
  unfold times_ten. rewrite (split_on_coefficient _ _ Hs). reflexivity.
Qed.

(** ** The value of a template and of its coefficient part *)

Lemma ten_nonzero : ~ (10 == 0)%Q.
Proof. discriminate. Qed.

Lemma inject_nonzero z : z <> 0 -> ~ (inject_Z z == 0)%Q.
Proof. unfold Qeq. cbn. lia. Qed.

(** Names the powers of ten of the goal, so that [field] sees numbers. *)
Ltac name_powers :=
  repeat match goal with
  | |- context [Qpower 10 ?e] =>
      let x := fresh "x" in
      let Hx := fresh "Hx" in
      assert (Hx : ~ (Qpower 10 e == 0)%Q)
        by (apply Qpower_not_0; exact ten_nonzero);
      revert Hx; generalize (Qpower 10 e); intros x Hx
  end.

Lemma template_value_shift t :
  drawable t = true ->
  (template_value t == template_value (coef_part t) * Qpower 10 (raw_exp t))%Q.
Proof.
  intros Hd. apply drawable_iff in Hd.
  pose proof ten_nonzero as H10.
  destruct t; cbn [template_value coef_part raw_exp drawable_prop] in *;
    rewrite ?(Qpower_minus 10 _ _ H10), ?(Qpower_plus 10 _ _ H10), ?Qpower_0_r;
    name_powers; field; repeat split; try assumption;
    apply inject_nonzero; lia.
Qed.

(** ** The specification's loops *)

Lemma spec_scale_down_shift fuel : forall c e r d,
  spec_scale_down fuel c e = Some r ->
  spec_scale_down fuel c (e + d) = Some (fst r, snd r + d).
Proof.
  induction fuel as [|fuel IH]; intros c e r d; cbn [spec_scale_down];
    destruct (Qle_bool 10 c); try discriminate;
    try (intros H; inversion H; reflexivity).
  intros H. apply (IH _ _ _ d) in H.
  replace (e + d + 1) with (e + 1 + d) by lia. exact H.
Qed.

Lemma spec_scale_up_shift fuel : forall c e r d,
  spec_scale_up fuel c e = Some r ->
  spec_scale_up fuel c (e + d) = Some (fst r, snd r + d).
Proof.
  induction fuel as [|fuel IH]; intros c e r d; cbn [spec_scale_up];
    destruct (negb (Qle_bool c 0) && negb (Qle_bool 1 c)); try discriminate;
    try (intros H; inversion H; reflexivity).
  intros H. apply (IH _ _ _ d) in H.
  replace (e + d - 1) with (e - 1 + d) by lia. exact H.
Qed.

Lemma spec_scale_down_more fuel : forall c e r fuel',
  spec_scale_down fuel c e = Some r -> (fuel <= fuel')%nat ->
  spec_scale_down fuel' c e = Some r.
Proof.
  induction fuel as [|fuel IH]; intros c e r fuel' H Hle.
  - cbn [spec_scale_down] in H. destruct fuel'; cbn [spec_scale_down];
      destruct (Qle_bool 10 c); try discriminate; exact H.
  - destruct fuel' as [|fuel']; [lia|]. cbn [spec_scale_down] in *.
    destruct (Qle_bool 10 c); [|exact H].
    apply (IH _ _ _ _ H). lia.
Qed.

Lemma spec_scale_up_more fuel : forall c e r fuel',
  spec_scale_up fuel c e = Some r -> (fuel <= fuel')%nat ->
  spec_scale_up fuel' c e = Some r.
Proof.
  induction fuel as [|fuel IH]; intros c e r fuel' H Hle.
  - cbn [spec_scale_up] in H. destruct fuel'; cbn [spec_scale_up];
      destruct (negb (Qle_bool c 0) && negb (Qle_bool 1 c));
      try discriminate; exact H.
  - destruct fuel' as [|fuel']; [lia|]. cbn [spec_scale_up] in *.
    destruct (negb (Qle_bool c 0) && negb (Qle_bool 1 c)); [|exact H].
    apply (IH _ _ _ _ H). lia.
Qed.

Lemma spec_normalize_at c r :
  spec_normalize 1 c 0 = Some r ->
  forall fuel e, (1 <= fuel)%nat ->
  spec_normalize fuel c e = Some (fst r, e + snd r).
Proof.
  unfold spec_normalize. intros H fuel e Hf.
  destruct (spec_scale_down 1 c 0) as [[c1 e1]|] eqn:E; [|discriminate].
  apply (spec_scale_down_more _ _ _ _ fuel) in E; [|exact Hf].
  apply (spec_scale_down_shift _ _ _ _ e) in E. cbn [Z.add fst snd] in E.
  rewrite E.
  apply (spec_scale_up_more _ _ _ _ fuel) in H; [|exact Hf].
  apply (spec_scale_up_shift _ _ _ _ e) in H. rewrite H.
  f_equal. f_equal. lia.
Qed.

Lemma spec_raw_pair_parts t :
  fst (spec_raw_pair t) = fst (spec_raw_pair (coef_part t)) /\
  snd (spec_raw_pair t) = raw_exp t.
Proof. destruct t; split; reflexivity. Qed.

(** ** Every drawable template builds a problem with a sound answer *)

Lemma is_basic_coef_part t : is_basic (coef_part t) = is_basic t.
Proof. now destruct t. Qed.

Lemma raw_exp_range t : drawable t = true -> -10 <= raw_exp t <= 12.
Proof.
  intros H. apply drawable_iff in H.
  destruct t; cbn [drawable_prop raw_exp] in *; lia.
Qed.

Lemma same_pair_b_spec x y : same_pair_b x y = true -> same_pair x y.
Proof.
  unfold same_pair_b, same_pair. intros H. apply andb_prop in H.
  destruct H as [H1 H2]. split; [now apply Qeq_bool_iff | now apply Z.eqb_eq].
Qed.

Lemma scientific_facts t :
  drawable t = true -> is_single t = false ->
  exists P,
    build t = Ok P /\ scientific_answer t P /\
    normalized_as_specified t P /\ reads_back t P.
Proof.
  intros Hd Hs.
  pose proof (all_coef_parts_spec _ coef_parts_checked t Hd Hs) as K.
  unfold coef_part_ok in K. rewrite is_basic_coef_part in K.
  destruct (normalized_pair (coef_part t)) as [[c s]|] eqn:En; [|discriminate].
  destruct (coef_text (is_basic t) c) as [txt|] eqn:Et;
    [|rewrite andb_false_r in K; discriminate].
  apply andb_prop in K. destruct K as [K K4].
  apply andb_prop in K. destruct K as [K Klt].
  apply andb_prop in K. destruct K as [Ks Kle].
  apply between_spec in Ks.
  apply andb_prop in K4. destruct K4 as [Kns K4].
  destruct (read_decimal txt) as [q|] eqn:Eq; [|discriminate].
  apply andb_prop in K4. destruct K4 as [K4 Kspec].
  apply andb_prop in K4. destruct K4 as [K4 Kval].
  apply andb_prop in K4. destruct K4 as [Kq1 Kq10].
  destruct (spec_normalize 1 (fst (spec_raw_pair (coef_part t))) 0)
    as [r|] eqn:Er; [|discriminate].
  apply same_pair_b_spec in Kspec. destruct Kspec as [Kr1 Kr2].
  cbn [fst snd] in Kr1, Kr2.
  apply Qle_bool_iff in Kq1.
  apply negb_true_iff in Kq10.
  assert (Hq10 : (q < 10)%Q).
  { apply Qnot_le_lt. intros X. apply Qle_bool_iff in X. congruence. }
  apply Qeq_bool_iff in Kval.
  pose proof (raw_exp_range t Hd) as Hre.
  pose proof (normalized_pair_shift t c s En) as Hn.
  destruct (build_answer t c _ txt Hs Hn Et) as (P & HP & Hans).
  assert (He : -20 <= raw_exp t + s <= 20) by lia.
  exists P. split; [exact HP|]. split; [|split].
  - exists c, (raw_exp t + s), q. rewrite Hans.
    repeat split; try assumption.
    now apply read_scientific_answer.
  - exists q, (raw_exp t + s). rewrite Hans. split.
    + now apply read_scientific_answer.
    + intros fuel Hf.
      destruct (spec_raw_pair_parts t) as [E1 E2]. rewrite E1, E2.
      rewrite (spec_normalize_at _ _ Er fuel (raw_exp t) Hf).
      eexists. split; [reflexivity|]. split; cbn [fst snd].
      * exact Kr1.
      * now rewrite Kr2.
  - exists (q * Qpower 10 (raw_exp t + s))%Q. rewrite Hans. split.
    + now apply read_value_answer.
    + rewrite (template_value_shift t Hd), <- Kval.
      rewrite (Qpower_plus 10 _ _ ten_nonzero). ring.
Qed.

Lemma single_facts coef exp :
  drawable (Single coef exp) = true ->
  exists P, build (Single coef exp) = Ok P /\ reads_back (Single coef exp) P.
Proof.
  intros Hd. pose proof (all_single_spec _ singles_checked coef exp Hd) as K.
  unfold single_ok in K.
  destruct (build (Single coef exp)) as [P|]; [|discriminate].
  exists P. split; [reflexivity|]. unfold reads_back.
  destruct (read_value (Powers.answer P)) as [v|]; [|discriminate].
  exists v. split; [reflexivity|]. now apply Qeq_bool_iff.
Qed.

Lemma drawable_divides t : drawable t = true -> divides_evenly t.
Proof.
  intros H. apply drawable_iff in H.
  destruct t; cbn [drawable_prop divides_evenly] in *;
    try exact I; split; try lia; tauto.
Qed.

(** ** The generators *)

Lemma generate_sound level g :
  exists t P,
    generates level g t P /\ drawable t = true /\ divides_evenly t /\
    reads_back t P /\
    (is_single t = false ->
     scientific_answer t P /\ normalized_as_specified t P).
Proof.
  destruct (draw_powers_drawable level g) as (t & g' & Hdraw & Hd).
  assert (HP : exists P, build t = Ok P /\ reads_back t P /\
                 (is_single t = false ->
                  scientific_answer t P /\ normalized_as_specified t P)).
  { destruct (is_single t) eqn:Es.
    - destruct t; try discriminate.
      destruct (single_facts _ _ Hd) as (P & HP & Hr).
      exists P. repeat split; try assumption; discriminate.
    - destruct (scientific_facts t Hd Es) as (P & HP & H1 & H2 & H3).
      exists P. repeat split; assumption. }
  destruct HP as (P & HP & Hr & Hsci).
  exists t, P. split; [|repeat split; try assumption].
  - exists g'. split; [exact Hdraw|]. split; [exact HP|].
    revert Hdraw.
    unfold draw_powers, generate_powers_of_ten_problem,
      _generate_basic_powers_problem, _generate_intermediate_powers_problem,
      _generate_advanced_powers_problem.
    destruct (String.eqb level "basic");
      [| destruct (String.eqb level "intermediate")];
      intros Hdraw; unfold bind, lift; rewrite Hdraw, HP; reflexivity.
  - now apply drawable_divides.
  - now apply Hsci.
  - now apply Hsci.
Qed.

(** ** The basic product: one division is the whole normalization *)

Lemma once_suffices_checked : once_suffices = true.
Proof. vm_compute. reflexivity. Qed.

Lemma scale_down_stop fuel c e :
  py_le (PyInt 10) c = false -> scale_down fuel c e = Ok (c, e).
Proof. intros H. destruct fuel; cbn [scale_down]; now rewrite H. Qed.

Lemma scale_up_stop fuel c e :
  py_lt (PyInt 0) c && py_lt c (PyInt 1) = false ->
  scale_up fuel c e = Ok (c, e).
Proof. intros H. destruct fuel; cbn [scale_up]; now rewrite H. Qed.

Lemma normalize_once_is_normalize k e :
  1 <= k <= 81 ->
  normalize_once (PyInt k) e = normalize (PyInt k) e.
Proof.
  intros Hk. unfold normalize_once, normalize.
  change loop_bound with (S (Nat.pred loop_bound)).
  cbn [scale_down]. cbn [py_le].
  destruct (10 <=? k) eqn:E.
  - apply Z.leb_le in E.
    pose proof (all_in_spec _ _ _ once_suffices_checked k ltac:(lia)) as X.
    cbv beta in X.
    destruct (py_truediv (PyInt k) (PyInt 10)) as [c|]; [|discriminate].
    apply andb_prop in X. destruct X as [X1 X2].
    apply negb_true_iff in X1, X2.
    cbn [result_bind]. rewrite (scale_down_stop _ _ _ X1).
    cbn [result_bind fst snd]. now rewrite (scale_up_stop _ _ _ X2).
  - apply Z.leb_gt in E. cbn [result_bind fst snd].
    rewrite scale_up_stop; [reflexivity|].
    cbn [py_lt]. apply andb_false_iff. right. apply Z.ltb_ge. lia.
Qed.

(** ** The claims about powers-of-ten problems *)

(** C2: from every state of the random source, the generator of every
    level returns a problem; unless it is the basic single term, its
    normalized coefficient [c] has [1 <= c < 10], as the number the
    generator holds after normalization and as the coefficient read back
    from the answer. *)
Theorem scientific_coefficient_normalized level g :
  exists t P,
    generates level g t P /\
    (is_single t = false -> scientific_answer t P).
Proof.
  destruct (generate_sound level g) as (t & P & Hg & _ & _ & _ & Hs).
  exists t, P. split; [exact Hg|]. intros H. now apply Hs.
Qed.

(** C5: the pair read back from the answer is the pair the specification's
    two loops reach from the exact raw pair of the template; and for the
    basic two-term product the single conditional division of the source
    returns what the two loops of the other generators would. *)
Theorem normalization_refines_specification level g :
  exists t P,
    generates level g t P /\
    (is_single t = false -> normalized_as_specified t P) /\
    (forall a b m n, t = MultiplyTwo a b m n ->
       normalized_pair t = normalize (PyInt (a * b)) (m + n)).
Proof.
  destruct (generate_sound level g) as (t & P & Hg & Hd & _ & _ & Hs).
  exists t, P. split; [exact Hg|]. split.
  - intros H. now apply Hs.
  - intros a b m n ->. apply drawable_iff in Hd. cbn [drawable_prop] in Hd.
    cbn [normalized_pair raw_pair result_bind fst snd].
    apply normalize_once_is_normalize. nia.
Qed.

(** C6: the answer of every generated problem, read back as
    [coefficient * 10^exponent] (or as the plain decimal of a basic single
    term), is exactly the value of the expression: the formatting loses
    nothing, so the two agree within every tolerance. *)
Theorem answer_round_trip level g :
  exists t P, generates level g t P /\ reads_back t P.
Proof.
  destruct (generate_sound level g) as (t & P & Hg & _ & _ & Hr & _).
  now exists t, P.
Qed.

(** C7: no generated division has a zero divisor or a remainder.  The
    divisor of an arithmetic division is at least [max(1, min_val)] and
    divides the dividend; the candidate lists of the powers generators are
    never empty; and every powers generator returns (so never raises on a
    division) a problem whose divisor is positive and divides evenly. *)
Theorem divisions_are_exact :
  (forall op min_val max_val neg g r g',
     op = "÷" \/ op = "/" ->
     generate_problem op min_val max_val neg g = Ok (r, g') ->
     Z.max 1 min_val <= bottom r /\ bottom r <> 0 /\
     top r mod bottom r = 0) /\
  (forall a, divisors_in 1 10 a <> []) /\
  (forall hi a b, 2 <= a < hi -> divisors_in 2 hi (a * b) <> []) /\
  (forall level g, exists t P, generates level g t P /\ divides_evenly t).
Proof.
  split; [|split; [|split]].
  - intros op min_val max_val neg g r g' Hop H.
    destruct (division_shape _ _ _ _ _ _ _ Hop H) as (b & q & -> & Hb & _).
    cbn. repeat split; try lia. rewrite Z.mul_comm. apply Z_mod_mult.
  - apply one_divides.
  - intros hi a b. apply divisors_nonempty.
  - intros level g.
    destruct (generate_sound level g) as (t & P & Hg & _ & Hdiv & _).
    now exists t, P.
Qed.

Lemma divisions_are_exact_witness :
  generate_problem "÷" 2 12 false (tape 2 3)
  = Ok (mkProblem 28 4 "÷" 7, advance (advance (tape 2 3))) /\
  Z.max 1 2 <= 4 /\ 4 <> 0 /\ 28 mod 4 = 0.
Proof.
  assert (H : generate_problem "÷" 2 12 false (tape 2 3)
              = Ok (mkProblem 28 4 "÷" 7, advance (advance (tape 2 3))))
    by reflexivity.
  split; [exact H|].
  exact (proj1 divisions_are_exact "÷" 2 12 false _ _ _ (or_introl eq_refl) H).
Defined.

(** ** Ranges *)

Lemma range_nil lo hi : hi <= lo -> range lo hi = [].
Proof.
  intros H. unfold range. replace (Z.to_nat (hi - lo)) with 0%nat by lia.
  reflexivity.
Qed.

Lemma range_cons lo hi : lo < hi -> range lo hi = lo :: range (lo + 1) hi.
Proof.
  intros H. unfold range.
  replace (Z.to_nat (hi - lo)) with (S (Z.to_nat (hi - (lo + 1)))) by lia.
  cbn [seq map]. f_equal; [lia|].
  rewrite <- seq_shift, map_map. apply map_ext. intros i. lia.
Qed.

Lemma range_app lo mid hi :
  lo <= mid <= hi -> range lo mid ++ range mid hi = range lo hi.
Proof.
  intros H. remember (Z.to_nat (mid - lo)) as k eqn:Hk.
  revert lo H Hk. induction k as [|k IH]; intros lo H Hk.
  - assert (lo = mid) by lia. subst. now rewrite range_nil by lia.
  - rewrite (range_cons lo mid), (range_cons lo hi) by lia.
    cbn [app]. f_equal. apply IH; lia.
Qed.

Lemma range_length lo hi : List.length (range lo hi) = Z.to_nat (hi - lo).
Proof. unfold range. now rewrite length_map, length_seq. Qed.

(** ** The layout loops *)

(** The header of a page takes one draw. *)
Lemma create_header_footer_run {P} page_num total_pages title subtitle g :
  @create_header_footer P page_num total_pages title subtitle g
  = Ok (Header page_num total_pages title subtitle
               (1000 + g 0%nat mod 9000), advance g).
Proof. reflexivity. Qed.

Lemma after_draws_succ k g :
  0 <= k -> advance (after_draws k g) = after_draws (k + 1) g.
Proof.
  intros Hk. unfold after_draws.
  replace (Z.to_nat (k + 1)) with (S (Z.to_nat k)) by lia. reflexivity.
Qed.

Lemma after_draws_first k g :
  after_draws k g 0%nat = g (Z.to_nat k).
Proof.
  unfold after_draws. generalize (Z.to_nat k) as m.
  assert (G : forall m i, Nat.iter m advance g i = g (i + m)%nat).
  { induction m as [|m IH]; intros i.
    - cbn. now rewrite Nat.add_0_r.
    - change (Nat.iter (S m) advance g i) with (Nat.iter m advance g (S i)).
      rewrite IH. f_equal. lia. }
  intros m. exact (G m 0%nat).
Qed.

Lemma after_draws_add j k g :
  0 <= j -> 0 <= k -> after_draws j (after_draws k g) = after_draws (k + j) g.
Proof.
  intros Hj Hk. unfold after_draws.
  replace (Z.to_nat (k + j)) with (Z.to_nat j + Z.to_nat k)%nat by lia.
  now rewrite Nat.iter_add.
Qed.

Section LayoutProofs.
Context {P : Type}.
Variable problems : list P.
Variable default : P.
Variable n cols rows : Z.
Variable headers : rng.
Hypothesis Hlen : Z.of_nat (List.length problems) = n.
Hypothesis Hcols : 0 < cols.
Hypothesis Hrows : 0 < rows.

Local Abbreviation pp := (per_page cols rows).
Local Abbreviation needed := (pages_needed n cols rows).
Local Abbreviation cell_at := (cell problems default cols rows).

Lemma per_page_pos : 0 < pp.
Proof. unfold per_page. nia. Qed.

(** [pages_needed] is the ceiling of [n / per_page]. *)
Lemma pages_needed_ceiling : pp * (needed - 1) < n <= pp * needed.
Proof.
  pose proof per_page_pos as Hpp. unfold pages_needed.
  pose proof (Z.div_mod (n + pp - 1) pp ltac:(lia)) as E.
  pose proof (Z.mod_pos_bound (n + pp - 1) pp Hpp) as B.
  nia.
Qed.

Lemma subscript_ok i :
  0 <= i < n ->
  subscript problems i = Ok (nth (Z.to_nat i) problems default).
Proof.
  intros H. unfold subscript.
  assert (E1 : (i <? 0) = false) by (apply Z.ltb_ge; lia). rewrite E1.
  assert (E2 : ((i <? 0) || (Z.of_nat (List.length problems) <=? i)) = false).
  { rewrite E1. cbn [orb]. apply Z.leb_gt. lia. }
  rewrite E2.
  rewrite (nth_error_nth' problems default) by lia. reflexivity.
Qed.

(** Where problem [p * per_page + r * cols + j] sits on its page. *)
Lemma cell_coords p r j :
  0 <= p -> 0 <= r < rows -> 0 <= j < cols ->
  ((p * pp + r * cols + j) mod pp) / cols = r /\
  (p * pp + r * cols + j) mod cols = j.
Proof.
  intros Hp Hr Hj. pose proof per_page_pos as Hpp.
  assert (Hin : 0 <= r * cols + j < pp) by (unfold per_page; nia).
  assert (E1 : (p * pp + r * cols + j) mod pp = r * cols + j).
  { symmetry. apply (Z.mod_unique _ _ p); [left; exact Hin | lia]. }
  rewrite E1. split.
  - symmetry. apply (Z.div_unique _ _ r j); [left; lia | lia].
  - symmetry. apply (Z.mod_unique _ _ (p * rows + r)); [left; lia|].
    unfold per_page. lia.
Qed.

Lemma draw_row_spec show row : forall (w : nat) col idx,
  0 <= idx ->
  (forall j, 0 <= j < Z.of_nat w -> idx + j < n ->
     ((idx + j) mod pp) / cols = row /\ (idx + j) mod cols = col + j) ->
  draw_row problems n show row (range col (col + Z.of_nat w)) idx
  = Ok (map (cell_at show)
            (range idx (Z.max idx (Z.min n (idx + Z.of_nat w)))),
        Z.max idx (Z.min n (idx + Z.of_nat w))).
Proof.
  induction w as [|w IH]; intros col idx Hidx Hcell.
  - rewrite !range_nil by lia. cbn [draw_row map]. do 2 f_equal. lia.
  - rewrite (range_cons col) by lia. cbn [draw_row].
    destruct (n <=? idx) eqn:E.
    + apply Z.leb_le in E. rewrite range_nil by lia. cbn [map].
      do 2 f_equal. lia.
    + apply Z.leb_gt in E.
      rewrite (subscript_ok idx) by lia. cbn [result_bind].
      replace (col + Z.of_nat (S w)) with (col + 1 + Z.of_nat w) by lia.
      rewrite (IH (col + 1) (idx + 1)); [| lia |].
      * cbn [result_bind fst snd].
        replace (Z.max (idx + 1) (Z.min n (idx + 1 + Z.of_nat w)))
          with (Z.max idx (Z.min n (idx + Z.of_nat (S w)))) by lia.
        rewrite (range_cons idx) by lia. cbn [map]. do 3 f_equal.
        unfold cell. destruct (Hcell 0 ltac:(lia) ltac:(lia)) as [Er Ec].
        rewrite Z.add_0_r in Er, Ec. rewrite Er, Ec.
        f_equal. lia.
      * intros j Hj Hlt.
        destruct (Hcell (j + 1) ltac:(lia) ltac:(lia)) as [Er Ec].
        replace (idx + 1 + j) with (idx + (j + 1)) by lia.
        split; [exact Er | lia].
Qed.

Lemma draw_rows_spec show : forall (h : nat) row idx,
  0 <= idx ->
  (forall r j, 0 <= r < Z.of_nat h -> 0 <= j < cols ->
     idx + r * cols + j < n ->
     ((idx + r * cols + j) mod pp) / cols = row + r /\
     (idx + r * cols + j) mod cols = j) ->
  draw_rows problems n cols show (range row (row + Z.of_nat h)) idx
  = Ok (map (cell_at show)
            (range idx (Z.max idx (Z.min n (idx + Z.of_nat h * cols)))),
        Z.max idx (Z.min n (idx + Z.of_nat h * cols))).
Proof.
  induction h as [|h IH]; intros row idx Hidx Hcell.
  - rewrite !range_nil by lia. cbn [draw_rows map]. do 2 f_equal. lia.
  - rewrite (range_cons row) by lia. cbn [draw_rows].
    replace (range 0 cols) with (range 0 (0 + Z.of_nat (Z.to_nat cols)))
      by (f_equal; lia).
    rewrite (draw_row_spec show row (Z.to_nat cols) 0 idx Hidx).
    2:{ intros j Hj Hlt.
        destruct (Hcell 0 j ltac:(lia) ltac:(lia) ltac:(lia)) as [Er Ec].
        replace (idx + 0 * cols + j) with (idx + j) in Er, Ec by lia.
        split; [lia | lia]. }
    cbn [result_bind fst snd]. rewrite Z2Nat.id by lia.
    assert (Hmul : Z.of_nat (S h) * cols = cols + Z.of_nat h * cols) by lia.
    destruct (n <=? Z.max idx (Z.min n (idx + cols))) eqn:E.
    + apply Z.leb_le in E.
      assert (Ei : Z.max idx (Z.min n (idx + Z.of_nat (S h) * cols))
                   = Z.max idx (Z.min n (idx + cols))) by nia.
      rewrite Ei. reflexivity.
    + apply Z.leb_gt in E.
      assert (E1 : Z.max idx (Z.min n (idx + cols)) = idx + cols) by lia.
      rewrite E1.
      replace (row + Z.of_nat (S h)) with (row + 1 + Z.of_nat h) by lia.
      rewrite (IH (row + 1) (idx + cols)); [| lia |].
      * cbn [result_bind fst snd].
        assert (Ei : Z.max idx (Z.min n (idx + Z.of_nat (S h) * cols))
                     = Z.max (idx + cols)
                             (Z.min n (idx + cols + Z.of_nat h * cols))) by nia.
        rewrite Ei, <- map_app, range_app by nia. reflexivity.
      * intros r j Hr Hj Hlt.
        destruct (Hcell (r + 1) j ltac:(lia) ltac:(lia) ltac:(nia)) as [Er Ec].
        replace (idx + (r + 1) * cols + j) with (idx + cols + r * cols + j)
          in Er, Ec by lia.
        split; [lia | exact Ec].
Qed.

Lemma draw_pages_spec show title subtitle total first : forall fuel p,
  1 <= first ->
  0 <= p <= needed ->
  (Z.to_nat (needed - p) <= fuel)%nat ->
  draw_pages problems n cols rows fuel show title subtitle total
             (Z.min n (p * pp)) (first + p)
             (after_draws (first + p - 1) headers)
  = Ok ((flat_map (expected_page problems default n cols rows headers show
                                 title subtitle total first)
                  (range p needed),
         first + needed),
        after_draws (first + needed - 1) headers).
Proof.
  pose proof per_page_pos as Hpp. pose proof pages_needed_ceiling as Hceil.
  assert (Hn : 0 <= n) by lia.
  induction fuel as [|fuel IH]; intros p Hfirst Hp Hfuel.
  - assert (p = needed) by lia. subst p.
    assert (E : Z.min n (needed * pp) = n) by lia. rewrite E.
    cbn [draw_pages]. rewrite Z.ltb_irrefl, range_nil by lia. reflexivity.
  - cbn [draw_pages].
    destruct (Z.min n (p * pp) <? n) eqn:E.
    + apply Z.ltb_lt in E.
      assert (Hlt : p < needed) by nia.
      assert (Ei : Z.min n (p * pp) = p * pp) by lia. rewrite Ei.
      unfold bind at 1. rewrite create_header_footer_run.
      rewrite after_draws_first, after_draws_succ by lia.
      unfold bind at 1, lift.
      replace (range 0 rows) with (range 0 (0 + Z.of_nat (Z.to_nat rows)))
        by (f_equal; lia).
      rewrite (draw_rows_spec show (Z.to_nat rows) 0 (p * pp)); [| nia |].
      * cbn [fst snd]. rewrite Z2Nat.id by lia.
        assert (Epp : pp = rows * cols) by (unfold per_page; ring).
        assert (Ej : Z.max (p * pp) (Z.min n (p * pp + rows * cols))
                     = Z.min n ((p + 1) * pp)).
        { rewrite Z.mul_add_distr_r, Z.mul_1_l. lia. }
        rewrite Ej. unfold bind.
        replace (first + p + 1) with (first + (p + 1)) by lia.
        replace (first + p - 1 + 1) with (first + (p + 1) - 1) by lia.
        rewrite (IH (p + 1)) by lia. cbn [fst snd]. unfold ret.
        rewrite (range_cons p needed) by lia. cbn [flat_map].
        unfold expected_page at 2, sheet_id_of. cbn [app].
        rewrite <- app_assoc. reflexivity.
      * intros r j Hr Hj _. apply cell_coords; lia.
    + apply Z.ltb_ge in E.
      assert (p = needed) by nia. subst p.
      rewrite range_nil by lia. reflexivity.
Qed.

Lemma draw_pass_spec show title subtitle total first :
  1 <= first ->
  draw_pages problems n cols rows (Z.to_nat n) show title subtitle total
             0 first (after_draws (first - 1) headers)
  = Ok ((expected_pass problems default n cols rows headers show
                       title subtitle total first,
         first + needed),
        after_draws (first + needed - 1) headers).
Proof.
  intros Hfirst.
  pose proof pages_needed_ceiling as Hceil. pose proof per_page_pos as Hpp.
  assert (Hneeded : 0 <= needed <= n) by nia.
  pose proof (draw_pages_spec show title subtitle total first
                              (Z.to_nat n) 0 Hfirst ltac:(lia) ltac:(lia))
    as X.
  replace (Z.min n (0 * pp)) with 0 in X by lia.
  rewrite !Z.add_0_r in X. exact X.
Qed.

Lemma floordiv_pages : floordiv (n + cols * rows - 1) (cols * rows) = Ok needed.
Proof.
  pose proof per_page_pos as Hpp. unfold floordiv, per_page in *.
  assert (E : (cols * rows =? 0) = false) by (apply Z.eqb_neq; lia).
  now rewrite E.
Qed.

(** The canvas [render] returns is the expected one, and every page has
    taken one draw for its header. *)
Lemma render_spec title subtitle show :
  render problems n cols rows title subtitle show headers
  = Ok (expected_canvas problems default n cols rows headers
                        title subtitle show,
        after_draws (if show then 2 * needed else needed) headers).
Proof.
  pose proof pages_needed_ceiling as Hceil. pose proof per_page_pos as Hpp.
  assert (Hneeded : 0 <= needed) by nia.
  assert (E0 : headers = after_draws (1 - 1) headers) by reflexivity.
  unfold render, expected_canvas. cbv zeta.
  unfold bind at 1, lift. rewrite floordiv_pages.
  unfold bind at 1. rewrite E0 at 1.
  rewrite (draw_pass_spec false) by lia. cbn [fst snd].
  destruct show.
  - unfold bind, ret.
    replace (1 + needed - 1) with (1 + needed - 1 + 0) by lia.
    replace (1 + needed - 1 + 0) with ((1 + needed) - 1) by lia.
    rewrite (draw_pass_spec true) by lia. cbn [fst snd].
    do 2 f_equal. f_equal. lia.
  - unfold ret. do 2 f_equal. f_equal. lia.
Qed.

(** ** Counting pages *)

Lemma count_pages_app (xs ys : list (canvas_op P)) :
  count_pages (xs ++ ys) = count_pages xs + count_pages ys.
Proof. unfold count_pages. rewrite filter_app, length_app. lia. Qed.

Lemma count_pages_cells show l : count_pages (map (cell_at show) l) = 0.
Proof. induction l as [|i l IH]; [reflexivity | exact IH]. Qed.

Lemma count_pages_page show title subtitle total first p :
  count_pages (expected_page problems default n cols rows headers show
                             title subtitle total first p) = 1.
Proof.
  unfold expected_page.
  change (count_pages (?h :: ?t)) with (count_pages t).
  rewrite count_pages_app, count_pages_cells. reflexivity.
Qed.

Lemma count_pages_pass show title subtitle total first :
  count_pages (expected_pass problems default n cols rows headers show
                             title subtitle total first) = needed.
Proof.
  pose proof pages_needed_ceiling as Hceil. pose proof per_page_pos as Hpp.
  assert (Hneeded : 0 <= needed) by nia.
  unfold expected_pass.
  assert (G : forall l,
            count_pages (flat_map (expected_page problems default n cols rows
                                     headers show title subtitle total first)
                                  l)
            = Z.of_nat (List.length l)).
  { induction l as [|p l IH]; [reflexivity|].
    cbn [flat_map List.length].
    rewrite count_pages_app, count_pages_page, IH. lia. }
  rewrite G, range_length. lia.
Qed.

Lemma count_pages_canvas title subtitle show :
  count_pages (expected_canvas problems default n cols rows headers
                               title subtitle show)
  = if show then 2 * needed else needed.
Proof.
  assert (S0 : count_pages [@Save P] = 0) by reflexivity.
  unfold expected_canvas. destruct show;
    rewrite !count_pages_app, !count_pages_pass, S0; lia.
Qed.

End LayoutProofs.

(** ** The worksheets *)

Lemma repeat_gen_length {A} (gen : M A) : forall k g xs g',
  repeat_gen k gen g = Ok (xs, g') -> List.length xs = k.
Proof.
  induction k as [|k IH]; intros g xs g' H; cbn [repeat_gen] in H.
  - apply ret_Ok in H. destruct H as [<- _]. reflexivity.
  - apply bind_Ok in H. destruct H as (x & g1 & _ & H).
    apply bind_Ok in H. destruct H as (ys & g2 & Hys & H).
    apply ret_Ok in H. destruct H as [<- _].
    cbn [List.length]. f_equal. exact (IH _ _ _ Hys).
Qed.

Lemma returns_repeat_gen {A} (gen : M A) (Q : A -> Prop) k :
  returns gen Q -> returns (repeat_gen k gen) (fun xs => List.length xs = k).
Proof.
  intros Hgen. induction k as [|k IH]; cbn [repeat_gen].
  - now apply returns_ret.
  - eapply returns_bind; [exact Hgen|]. intros x _.
    eapply returns_bind; [exact IH|]. intros xs Hxs.
    apply returns_ret. cbn [List.length]. now f_equal.
Qed.

Lemma returns_generate_problem op min_val max_val neg :
  recognized op = true -> ranges_nonempty op min_val max_val = true ->
  returns (generate_problem op min_val max_val neg) (fun _ => True).
Proof.
  intros Hr Hn g.
  destruct (generate_problem_returns op min_val max_val neg g Hr Hn)
    as (r & g' & E).
  now exists r, g'.
Qed.

Lemma returns_gen_problems n op min_val max_val mixed :
  valid_arguments op min_val max_val mixed ->
  returns (gen_problems n op min_val max_val mixed)
          (fun xs => List.length xs = Z.to_nat n).
Proof.
  unfold valid_arguments, gen_problems. intros Hv. destruct mixed.
  - apply (returns_repeat_gen _ (fun _ => True)).
    eapply returns_bind; [apply returns_choice; discriminate|].
    intros o Ho. apply returns_generate_problem; [|now apply Hv].
    cbn in Ho. unfold recognized.
    destruct Ho as [<-|[<-|[<-|[<-|[]]]]]; reflexivity.
  - destruct Hv as [Hr Hn].
    apply (returns_repeat_gen _ (fun _ => True)).
    now apply returns_generate_problem.
Qed.

Lemma returns_generate_powers level :
  returns (generate_powers_of_ten_problem level) (fun _ => True).
Proof.
  intros g. destruct (generate_sound level g) as (t & P & (g' & _ & _ & E) & _).
  now exists P, g'.
Qed.

Lemma generate_worksheet_spec school filename n op min_val max_val
      title subtitle show mixed g problems g1 default :
  0 <= n ->
  gen_problems n op min_val max_val mixed g = Ok (problems, g1) ->
  generate_worksheet (init school) filename n op min_val max_val
                     title subtitle show mixed g
  = Ok (expected_worksheet problems default g1 n op title subtitle show mixed,
        after_draws (if show then 2 * pages_needed n 5 6
                     else pages_needed n 5 6) g1).
Proof.
  intros Hn Hgen. unfold generate_worksheet, bind. rewrite Hgen.
  assert (Hlen : Z.of_nat (List.length problems) = n).
  { unfold gen_problems in Hgen.
    destruct mixed; apply repeat_gen_length in Hgen; lia. }
  cbn [init problems_per_row rows_per_page].
  rewrite (render_spec problems default n 5 6 g1 Hlen ltac:(lia) ltac:(lia)).
  reflexivity.
Qed.

Lemma generate_powers_worksheet_spec school filename n level
      title subtitle show g default :
  0 <= n ->
  exists problems g1,
    repeat_gen (Z.to_nat n) (generate_powers_of_ten_problem level) g
    = Ok (problems, g1) /\
    generate_powers_worksheet (init school) filename n level
                              title subtitle show g
    = Ok (expected_powers_worksheet problems default g1 n level
                                    title subtitle show,
          after_draws (if show then 2 * pages_needed n 2 5
                       else pages_needed n 2 5) g1).
Proof.
  intros Hn.
  destruct (returns_repeat_gen _ _ (Z.to_nat n)
              (returns_generate_powers level) g)
    as (problems & g1 & Hgen & Hl).
  exists problems, g1. split; [exact Hgen|].
  unfold generate_powers_worksheet, bind. rewrite Hgen.
  assert (Hlen : Z.of_nat (List.length problems) = n) by lia.
  cbv zeta.
  rewrite (render_spec problems default n 2 5 g1 Hlen ltac:(lia) ltac:(lia)).
  reflexivity.
Qed.

Lemma pages_of_thirty n : pages_needed n 5 6 = (n + 29) / 30.
Proof. unfold pages_needed, per_page. f_equal. lia. Qed.

Lemma pages_of_ten n : pages_needed n 2 5 = (n + 9) / 10.
Proof. unfold pages_needed, per_page. f_equal. lia. Qed.

(** C8: a worksheet of [num_problems >= 1] problems is the expected
    canvas: problem [i] (from 0) is drawn as number [i + 1] on page
    [i / per_page], in row [(i mod per_page) / problems_per_row] and column
    [i mod problems_per_row], on a grid of 5 by 6 (30 a page) for
    arithmetic and 2 by 5 (10 a page) for powers; the problem pass takes
    the ceiling of [num_problems / per_page] pages and the canvas holds
    twice as many when the answer key is drawn.  Every page takes one draw
    from the random module for the identifier in its footer, after all the
    problems are generated.  The powers worksheet is always returned; the
    arithmetic one whenever its problems are generated, which valid
    arguments guarantee. *)
Theorem worksheet_layout num_problems show_answers :
  1 <= num_problems ->
  (forall school filename op min_val max_val title subtitle mixed g
          problems g1 default,
     gen_problems num_problems op min_val max_val mixed g = Ok (problems, g1) ->
     generate_worksheet (init school) filename num_problems op min_val max_val
                        title subtitle show_answers mixed g
     = Ok (expected_worksheet problems default g1 num_problems op
                              title subtitle show_answers mixed,
           after_draws ((if show_answers then 2 else 1)
                        * ((num_problems + 29) / 30)) g1) /\
     count_pages (expected_worksheet problems default g1 num_problems op
                                     title subtitle show_answers mixed)
     = (if show_answers then 2 else 1) * ((num_problems + 29) / 30)) /\
  (forall op min_val max_val mixed g,
     valid_arguments op min_val max_val mixed ->
     exists problems g1,
       gen_problems num_problems op min_val max_val mixed g
       = Ok (problems, g1)) /\
  (forall school filename level title subtitle g default,
     exists problems g1,
       repeat_gen (Z.to_nat num_problems)
                  (generate_powers_of_ten_problem level) g
       = Ok (problems, g1) /\
       generate_powers_worksheet (init school) filename num_problems level
                                 title subtitle show_answers g
       = Ok (expected_powers_worksheet problems default g1 num_problems level
                                       title subtitle show_answers,
             after_draws ((if show_answers then 2 else 1)
                          * ((num_problems + 9) / 10)) g1) /\
       count_pages (expected_powers_worksheet problems default g1 num_problems
                                              level title subtitle show_answers)
       = (if show_answers then 2 else 1) * ((num_problems + 9) / 10)) /\
  30 * ((num_problems + 29) / 30 - 1) < num_problems
    <= 30 * ((num_problems + 29) / 30) /\
  10 * ((num_problems + 9) / 10 - 1) < num_problems
    <= 10 * ((num_problems + 9) / 10).
Proof.
  intros Hn. split; [|split; [|split; [|split]]].
  - intros school filename op min_val max_val title subtitle mixed g
           problems g1 default Hgen.
    split.
    + rewrite (generate_worksheet_spec school filename num_problems op
                 min_val max_val title subtitle show_answers mixed g
                 problems g1 default ltac:(lia) Hgen).
      rewrite pages_of_thirty.
      destruct show_answers; [reflexivity | now rewrite Z.mul_1_l].
    + assert (Hlen : Z.of_nat (List.length problems) = num_problems).
      { unfold gen_problems in Hgen.
        destruct mixed; apply repeat_gen_length in Hgen; lia. }
      unfold expected_worksheet.
      rewrite (count_pages_canvas problems default num_problems 5 6 g1
                                  Hlen ltac:(lia) ltac:(lia)).
      rewrite pages_of_thirty. destruct show_answers; lia.
  - intros op min_val max_val mixed g Hv.
    destruct (returns_gen_problems num_problems op min_val max_val mixed Hv g)
      as (problems & g1 & E & _).
    now exists problems, g1.
  - intros school filename level title subtitle g default.
    destruct (generate_powers_worksheet_spec school filename num_problems level
                title subtitle show_answers g default ltac:(lia))
      as (problems & g1 & Hgen & E).
    exists problems, g1. split; [exact Hgen|]. split.
    + rewrite E, pages_of_ten.
      destruct show_answers; [reflexivity | now rewrite Z.mul_1_l].
    + assert (Hlen : Z.of_nat (List.length problems) = num_problems).
      { apply repeat_gen_length in Hgen. lia. }
      unfold expected_powers_worksheet.
      rewrite (count_pages_canvas problems default num_problems 2 5 g1
                                  Hlen ltac:(lia) ltac:(lia)).
      rewrite pages_of_ten. destruct show_answers; lia.
  - pose proof (Z.div_mod (num_problems + 29) 30 ltac:(lia)).
    pose proof (Z.mod_pos_bound (num_problems + 29) 30 ltac:(lia)). lia.
  - pose proof (Z.div_mod (num_problems + 9) 10 ltac:(lia)).
    pose proof (Z.mod_pos_bound (num_problems + 9) 10 ltac:(lia)). lia.
Qed.

Lemma worksheet_layout_witness :
  1 <= 31 /\
  (exists problems g1,
     repeat_gen (Z.to_nat 31) (generate_powers_of_ten_problem "advanced")
                (tape 3 7)
     = Ok (problems, g1) /\
     generate_powers_worksheet (init "Lexington Science Academy")
                               "powers_of_ten_advanced.pdf" 31 "advanced"
                               None None true (tape 3 7)
     = Ok (expected_powers_worksheet problems no_problem g1 31 "advanced"
                                     None None true,
           after_draws (2 * ((31 + 9) / 10)) g1) /\
     count_pages (expected_powers_worksheet problems no_problem g1 31
                                            "advanced" None None true)
     = 2 * ((31 + 9) / 10)) /\
  30 * ((31 + 29) / 30 - 1) < 31 <= 30 * ((31 + 29) / 30).
Proof.
  assert (H1 : 1 <= 31) by lia.
  split; [exact H1|].
  destruct (worksheet_layout 31 true H1) as (_ & _ & Hp & Hc & _).
  split; [|exact Hc].
  exact (Hp "Lexington Science Academy" "powers_of_ten_advanced.pdf"
            "advanced" None None (tape 3 7) no_problem).
Defined.

(** ** Runs of the model *)

(** The float formatting of the model on values whose Python output is
    well known. *)
Example repr_of_a_tenth_plus_two_tenths :
  float_repr (float_of_Z 1 / float_of_Z 10 + float_of_Z 2 / float_of_Z 10)
  = "0.30000000000000004".
Proof. vm_compute. reflexivity. Qed.

Example repr_of_a_third :
  float_repr (float_of_Z 1 / float_of_Z 3) = "0.3333333333333333".
Proof. vm_compute. reflexivity. Qed.

Example repr_of_large_and_small :
  float_repr (float_of_Z (10 ^ 16)) = "1e+16" /\
  float_repr (float_of_Z (10 ^ 15)) = "1000000000000000.0" /\
  float_repr (float_of_Z 1 / float_of_Z (10 ^ 5)) = "1e-05" /\
  float_repr (float_of_Z 81 / float_of_Z 10) = "8.1".
Proof. vm_compute. repeat split; reflexivity. Qed.

Example two_decimals_round_half_even_on_the_binary_value :
  format_fixed (float_of_Z 2675 / float_of_Z 1000) 2 = "2.67" /\
  format_fixed (float_of_Z 125 / float_of_Z 1000) 2 = "0.12" /\
  format_fixed (float_of_Z 375 / float_of_Z 1000) 2 = "0.38" /\
  format_fixed (float_of_Z 81 / float_of_Z 10) 2 = "8.10".
Proof. vm_compute. repeat split; reflexivity. Qed.

(** The specification's example: [coef = 5], [exp = 3]. *)
Example basic_single_example :
  build (Single 5 3)
  = Ok (Powers.mk (ExprText "5 × 10³") "5000" (Some "5 × 10³")
                  true false None).
Proof. vm_compute. reflexivity. Qed.

Example basic_product_example :
  build (MultiplyTwo 9 9 4 4)
  = Ok (Powers.mk (ExprText "(9 × 10⁴) × (9 × 10⁴)") "8.1 × 10⁹" None
                  true false None).
Proof. vm_compute. reflexivity. Qed.

Example complex_fraction_example :
  build (ComplexFraction 9 8 3 (-2) 2 4)
  = Ok (Powers.mk (ExprFraction "9 × 10³ × 8 × 10⁻²" "2 × 10⁴") "3.6 × 10⁻²"
                  None false true (Some true)).
Proof. vm_compute. reflexivity. Qed.

Example two_problem_sheet :
  canvas_of (generate_worksheet (init "Lexington Science Academy") "a.pdf"
                                2 "+" 1 99 None None true false (tape 4 10))
  = [ Header 1 2 "Addition Practice"
             "Complete all 2 problems. Show your work!" 1044;
      DrawProblem 1 0 0 (mkProblem 5 15 "+" 20) false;
      DrawProblem 2 0 1 (mkProblem 25 35 "+" 60) false;
      ShowPage;
      Header 2 2 "Addition Practice - ANSWER KEY" "For teacher use only"
             1054;
      DrawProblem 1 0 0 (mkProblem 5 15 "+" 20) true;
      DrawProblem 2 0 1 (mkProblem 25 35 "+" 60) true;
      ShowPage;
      Save ].
Proof. vm_compute. reflexivity. Qed.

(** The headers draw after the problems: two problems take the raw draws
    2, 5, 8 and 11 of the tape, the two pages take 14 and 17, and the next
    draw is 20. *)
Example headers_draw_after_the_problems :
  match generate_worksheet (init "School") "a.pdf" 2 "+" 1 9 None None
                           true false (tape 2 3) with
  | Ok (_, g') => Some (g' 0%nat)
  | Raise _ => None
  end = Some 20.
Proof. vm_compute. reflexivity. Qed.

(** A grid without columns fails at the division that counts the pages. *)
Example grid_without_columns :
  generate_worksheet (mkGenerator "School" 0 6) "a.pdf" 2 "+" 1 9 None None
                     false false (tape 2 3)
  = Raise ZeroDivisionError.
Proof. vm_compute. reflexivity. Qed.

Example thirty_one_problems_take_four_pages :
  count_pages
    (canvas_of (generate_worksheet (init "Lexington Science Academy") "a.pdf"
                                   31 "÷" 2 12 None None true false
                                   (tape 1 5)))
  = 4.
Proof. vm_compute. reflexivity. Qed.

Example twelve_powers_problems_take_two_pages :
  count_pages
    (canvas_of (generate_powers_worksheet (init "Lexington Science Academy")
                                          "p.pdf" 12 "advanced" None None
                                          false (tape 3 7)))
  = 2.
Proof. vm_compute. reflexivity. Qed.

(* ================================================================== *)
(** * Further properties of [generate_problem] *)
(* ================================================================== *)

Lemma generate_problem_shape op min_val max_val neg g r g' :
  generate_problem op min_val max_val neg g = Ok (r, g') ->
  exists a b,
    g' = advance (advance g) /\
    ((op = "+" /\ r = mkProblem a b "+" (a + b) /\
      min_val <= a <= max_val /\ min_val <= b <= max_val) \/
     (op = "-" /\ r = mkProblem a b "-" (a - b) /\
      min_val <= a <= max_val /\ min_val <= b <= max_val /\
      (neg = false -> b <= a)) \/
     ((op = "*" \/ op = "×") /\ r = mkProblem a b "×" (a * b) /\
      min_val <= a <= Z.min max_val 12 /\ min_val <= b <= Z.min max_val 12) \/
     ((op = "/" \/ op = "÷") /\ r = mkProblem (a * b) a "÷" b /\
      Z.max 1 min_val <= a <= Z.min max_val 12 /\
      min_val <= b <= Z.min max_val 12)).
Proof.
  unfold generate_problem. by_operator op; intros H.
  - apply String.eqb_eq in Eplus. subst op. draws H. subst.
    exists v, v0. split; [reflexivity|]. left. auto.
  - apply String.eqb_eq in Eminus. subst op.
    apply bind_Ok in H. destruct H as ([a b] & g1 & Hd & H). draws H.
    destruct neg; draws Hd; inversion Hd; subst;
      exists a, b; (split; [reflexivity|]); right; left;
      repeat split; try lia; try discriminate.
  - apply String.eqb_eq in Estar. subst op. draws H. subst.
    exists v, v0. split; [reflexivity|]. right. right. left. auto.
  - apply String.eqb_eq in Etimes. subst op. draws H. subst.
    exists v, v0. split; [reflexivity|]. right. right. left. auto.
  - apply String.eqb_eq in Eslash. subst op. draws H. subst.
    exists v, v0. split; [reflexivity|]. right. right. right. auto.
  - apply String.eqb_eq in Ediv. subst op. draws H. subst.
    exists v, v0. split; [reflexivity|]. right. right. right. auto.
  - discriminate.
Qed.

(** X1: the answer of every returned record is what the printed problem
    evaluates to: the sum, the difference, the product, or the exact
    quotient by a non-zero divisor. *)
Theorem answer_is_correct op min_val max_val allow_negative_results g r g' :
  generate_problem op min_val max_val allow_negative_results g = Ok (r, g') ->
  apply_operation (operation r) (top r) (bottom r) = Some (answer r).
Proof.
  intros H.
  destruct (generate_problem_shape _ _ _ _ _ _ _ H)
    as (a & b & _ & [(_ & -> & _)|[(_ & -> & _)|[(_ & -> & _)|(_ & -> & Ha & _)]]]);
    cbn [operation top bottom answer]; try reflexivity.
  unfold apply_operation. cbn [String.eqb Ascii.eqb Bool.eqb andb].
  assert (E0 : (a =? 0) = false) by (apply Z.eqb_neq; lia).
  assert (E1 : ((a * b) mod a =? 0) = true).
  { apply Z.eqb_eq. rewrite Z.mul_comm. apply Z_mod_mult. }
  cbn. rewrite E0, E1. cbn [orb negb]. f_equal.
  rewrite Z.mul_comm. apply Z.div_mul. lia.
Qed.

Lemma answer_is_correct_witness :
  generate_problem "÷" 2 12 false (tape 2 3)
  = Ok (mkProblem 28 4 "÷" 7, advance (advance (tape 2 3))) /\
  apply_operation "÷" 28 4 = Some 7.
Proof.
  assert (H : generate_problem "÷" 2 12 false (tape 2 3)
              = Ok (mkProblem 28 4 "÷" 7, advance (advance (tape 2 3))))
    by reflexivity.
  split; [exact H|].
  exact (answer_is_correct "÷" 2 12 false _ _ _ H).
Defined.

(** X2: the operands are drawn from the requested range: both operands of
    an addition or subtraction lie in [min_val, max_val]; both factors of a
    multiplication in [min_val, min(max_val, 12)]; the divisor of a division
    in [max(1, min_val), min(max_val, 12)] and its quotient in
    [min_val, min(max_val, 12)], while the dividend is their product. *)
Theorem operands_in_range op min_val max_val allow_negative_results g r g' :
  generate_problem op min_val max_val allow_negative_results g = Ok (r, g') ->
  (op = "+" \/ op = "-" ->
   min_val <= top r <= max_val /\ min_val <= bottom r <= max_val) /\
  (op = "*" \/ op = "×" ->
   min_val <= top r <= Z.min max_val 12 /\
   min_val <= bottom r <= Z.min max_val 12) /\
  (op = "/" \/ op = "÷" ->
   Z.max 1 min_val <= bottom r <= Z.min max_val 12 /\
   min_val <= answer r <= Z.min max_val 12 /\
   top r = bottom r * answer r).
Proof.
  intros H.
  destruct (generate_problem_shape _ _ _ _ _ _ _ H)
    as (a & b & _ & [(-> & -> & Ha & Hb)|[(-> & -> & Ha & Hb & _)
                    |[(Hop & -> & Ha & Hb)|(Hop & -> & Ha & Hb)]]]);
    cbn [operation top bottom answer];
    (split; [|split]); intros Hop'; try (destruct Hop' as [?|?]; discriminate);
    try (destruct Hop as [->| ->]; destruct Hop' as [?|?]; discriminate);
    auto.
Qed.

Lemma operands_in_range_witness :
  generate_problem "-" 1 50 false (tape 17 30)
  = Ok (mkProblem 18 12 "-" 6, advance (advance (tape 17 30))) /\
  1 <= 18 <= 50 /\ 1 <= 12 <= 50.
Proof.
  assert (H : generate_problem "-" 1 50 false (tape 17 30)
              = Ok (mkProblem 18 12 "-" 6, advance (advance (tape 17 30))))
    by reflexivity.
  split; [exact H|].
  exact (proj1 (operands_in_range "-" 1 50 false _ _ _ H)
               (or_intror eq_refl)).
Defined.

Lemma two_draws_run lo1 hi1 lo2 hi2 a b :
  lo1 <= a <= hi1 -> lo2 <= b <= hi2 ->
  randint lo1 hi1 (two_draws (a - lo1) (b - lo2))
  = Ok (a, advance (two_draws (a - lo1) (b - lo2))) /\
  randint lo2 hi2 (advance (two_draws (a - lo1) (b - lo2)))
  = Ok (b, advance (advance (two_draws (a - lo1) (b - lo2)))).
Proof.
  intros Ha Hb. split; apply randint_any; try assumption; reflexivity.
Qed.

(** X3: nothing in the range is left out: every pair of operands the
    ranges allow is returned from some state of the random source (for a
    subtraction without negative results, every pair with
    [bottom <= top]). *)
Theorem every_problem_is_reachable min_val max_val :
  (forall a b, min_val <= a <= max_val -> min_val <= b <= max_val ->
     exists g g', generate_problem "+" min_val max_val false g
                  = Ok (mkProblem a b "+" (a + b), g')) /\
  (forall a b, min_val <= b <= a -> a <= max_val ->
     exists g g', generate_problem "-" min_val max_val false g
                  = Ok (mkProblem a b "-" (a - b), g')) /\
  (forall a b,
     min_val <= a <= Z.min max_val 12 -> min_val <= b <= Z.min max_val 12 ->
     exists g g', generate_problem "×" min_val max_val false g
                  = Ok (mkProblem a b "×" (a * b), g')) /\
  (forall b q,
     Z.max 1 min_val <= b <= Z.min max_val 12 ->
     min_val <= q <= Z.min max_val 12 ->
     exists g g', generate_problem "÷" min_val max_val false g
                  = Ok (mkProblem (b * q) b "÷" q, g')).
Proof.
  split; [|split; [|split]].
  - intros a b Ha Hb.
    destruct (two_draws_run min_val max_val min_val max_val a b Ha Hb)
      as [E1 E2].
    eexists. eexists. cbn. unfold bind. rewrite E1, E2. reflexivity.
  - intros a b Hb Ha.
    destruct (two_draws_run min_val max_val min_val a a b
                            ltac:(lia) ltac:(lia)) as [E1 E2].
    eexists. eexists. cbn. unfold bind. rewrite E1, E2. reflexivity.
  - intros a b Ha Hb.
    destruct (two_draws_run min_val (Z.min max_val 12)
                            min_val (Z.min max_val 12) a b Ha Hb)
      as [E1 E2].
    eexists. eexists. cbn. unfold bind. rewrite E1, E2. reflexivity.
  - intros b q Hb Hq.
    destruct (two_draws_run (Z.max 1 min_val) (Z.min max_val 12)
                            min_val (Z.min max_val 12) b q Hb Hq)
      as [E1 E2].
    eexists. eexists. cbn. unfold bind. rewrite E1, E2. reflexivity.
Qed.

Lemma every_problem_is_reachable_witness :
  exists g g', generate_problem "÷" 2 12 false g
               = Ok (mkProblem (12 * 12) 12 "÷" 12, g').
Proof.
  exact (proj2 (proj2 (proj2 (every_problem_is_reachable 2 12)))
               12 12 ltac:(lia) ltac:(lia)).
Defined.

(* ================================================================== *)
(** * [to_superscript] can be read back *)
(* ================================================================== *)

Lemma digits_run_uint d : forall acc n,
  digits_run (NilEmpty.string_of_uint d) acc n
  = (uint_acc d acc, (n + Decimal.nb_digits d)%nat, "").
Proof.
  induction d; intros acc n;
    cbn [NilEmpty.string_of_uint digits_run uint_acc Decimal.nb_digits];
    try (rewrite Nat.add_0_r; reflexivity);
    match goal with
    | |- context [digit_of ?c] =>
        let v := eval vm_compute in (digit_of c) in
        change (digit_of c) with v
    end;
    cbv iota; rewrite IHd; do 2 f_equal; lia.
Qed.

Lemma uint_acc_pos d : forall acc : positive,
  uint_acc d (Z.pos acc) = Z.pos (Pos.of_uint_acc d acc).
Proof.
  induction d; intros acc; cbn [uint_acc Pos.of_uint_acc];
    try reflexivity;
    match goal with
    | |- uint_acc _ ?x = Z.pos (Pos.of_uint_acc _ ?y) =>
        replace x with (Z.pos y) by lia; apply IHd
    end.
Qed.

Lemma uint_acc_value d : uint_acc d 0 = Z.of_uint d.
Proof.
  unfold Z.of_uint.
  induction d; cbn [uint_acc Pos.of_uint Z.of_N]; try reflexivity;
    try exact IHd;
    match goal with
    | |- uint_acc _ ?x = _ =>
        let p := eval cbv in (Z.to_pos x) in
        change x with (Z.pos p); apply uint_acc_pos
    end.
Qed.

Lemma read_int_str_int z : read_int (str_int z) = Some z.
Proof.
  unfold str_int, read_int.
  assert (Hu : forall p,
            NilZero.string_of_uint (Pos.to_uint p)
            = NilEmpty.string_of_uint (Pos.to_uint p) /\
            uint_acc (Pos.to_uint p) 0 = Z.pos p /\
            exists k, Decimal.nb_digits (Pos.to_uint p) = S k /\
            exists c r, NilEmpty.string_of_uint (Pos.to_uint p) = String c r /\
                        c <> "-"%char /\ c <> "+"%char).
  { intros p. pose proof (DecimalPos.Unsigned.to_uint_nonnil p) as Hn.
    rewrite uint_acc_value. unfold Z.of_uint.
    rewrite DecimalPos.Unsigned.of_to. cbn [Z.of_N].
    destruct (Pos.to_uint p) as [|d|d|d|d|d|d|d|d|d|d]; [congruence|..];
      (split; [reflexivity|]); (split; [reflexivity|]);
      (exists (Decimal.nb_digits d)); (split; [reflexivity|]);
      cbn [NilEmpty.string_of_uint]; eexists; eexists;
      (split; [reflexivity|]); split; discriminate. }
  destruct z as [|p|p]; cbn [Z.to_int NilZero.string_of_int].
  - reflexivity.
  - destruct (Hu p) as (E1 & E2 & k & Hk & c & r & Hs & Hm & Hp).
    rewrite E1. rewrite Hs.
    destruct c as [[] [] [] [] [] [] [] []];
      try congruence;
      rewrite <- Hs, digits_run_uint, E2, Hk; reflexivity.
  - destruct (Hu p) as (E1 & E2 & k & Hk & c & r & Hs & Hm & Hp).
    rewrite E1. rewrite digits_run_uint, E2, Hk. reflexivity.
Qed.

Lemma length_append_string (a b : string) :
  String.length (a +++ b) = (String.length a + String.length b)%nat.
Proof. induction a as [|c a IH]; cbn; [reflexivity | now rewrite IH]. Qed.

Lemma superscript_head_entry c rest :
  existsb (fun kv => Ascii.eqb (fst kv) c) SUPERSCRIPT_MAP = true ->
  superscript_head SUPERSCRIPT_MAP (superscript_get SUPERSCRIPT_MAP c +++ rest)
  = Some (c, rest).
Proof.
  assert (E : String.prefix "" rest = true) by (destruct rest; reflexivity).
  destruct c as [[] [] [] [] [] [] [] []]; intros H; try discriminate H;
    cbn; rewrite E, Nat.sub_0_r, substring_all; reflexivity.
Qed.

Lemma superscript_get_nonempty c :
  exists a r, superscript_get SUPERSCRIPT_MAP c = String a r.
Proof.
  cbn [superscript_get SUPERSCRIPT_MAP].
  repeat match goal with
         | |- context [if Ascii.eqb ?k c then _ else _] =>
             destruct (Ascii.eqb k c)
         end; eexists; eexists; reflexivity.
Qed.

Lemma from_superscript_join s : forall fuel,
  plain s = true -> (String.length s <= fuel)%nat ->
  from_superscript fuel (join_map (superscript_get SUPERSCRIPT_MAP) s) = Some s.
Proof.
  induction s as [|c s IH]; intros fuel Hp Hf.
  - destruct fuel; reflexivity.
  - cbn [plain] in Hp. apply andb_prop in Hp. destruct Hp as [Hc Hp].
    cbn [String.length] in Hf. destruct fuel as [|fuel]; [lia|].
    cbn [join_map].
    destruct (superscript_get_nonempty c) as (a & r & Ea).
    assert (Estep : from_superscript (S fuel)
                      (superscript_get SUPERSCRIPT_MAP c +++
                       join_map (superscript_get SUPERSCRIPT_MAP) s)
                    = match superscript_head SUPERSCRIPT_MAP
                              (superscript_get SUPERSCRIPT_MAP c +++
                               join_map (superscript_get SUPERSCRIPT_MAP) s) with
                      | None => None
                      | Some (k, rest) =>
                          match from_superscript fuel rest with
                          | Some r' => Some (String k r')
                          | None => None
                          end
                      end).
    { rewrite Ea. reflexivity. }
    rewrite Estep, (superscript_head_entry _ _ Hc), (IH fuel Hp ltac:(lia)).
    reflexivity.
Qed.

Lemma length_join_map s :
  (String.length s
   <= String.length (join_map (superscript_get SUPERSCRIPT_MAP) s))%nat.
Proof.
  induction s as [|c s IH]; [reflexivity|].
  cbn [join_map]. rewrite length_append_string.
  destruct (superscript_get_nonempty c) as (a & r & Ea). rewrite Ea.
  cbn [String.length]. lia.
Qed.

Lemma plain_uint d : plain (NilEmpty.string_of_uint d) = true.
Proof. induction d; cbn [NilEmpty.string_of_uint plain]; try reflexivity; exact IHd. Qed.

Lemma plain_str_int z : plain (str_int z) = true.
Proof.
  unfold str_int. destruct z as [|p|p]; cbn [Z.to_int NilZero.string_of_int].
  - reflexivity.
  - destruct (Pos.to_uint p); try reflexivity; apply (plain_uint (_ _)).
  - cbn [plain]. destruct (Pos.to_uint p); try reflexivity;
      apply (plain_uint (_ _)).
Qed.

(** X4: [to_superscript] loses nothing: the superscript string of every
    integer reads back as that integer, so two different exponents are
    never printed alike. *)
Theorem to_superscript_round_trip :
  (forall z, read_superscript (to_superscript z) = Some z) /\
  (forall a b, to_superscript a = to_superscript b -> a = b).
Proof.
  assert (R : forall z, read_superscript (to_superscript z) = Some z).
  { intros z. unfold read_superscript, to_superscript.
    rewrite (from_superscript_join _ _ (plain_str_int z) (length_join_map _)).
    apply read_int_str_int. }
  split; [exact R|].
  intros a b E. pose proof (R a) as Ha. rewrite E, R in Ha. now inversion Ha.
Qed.

Lemma to_superscript_round_trip_witness :
  read_superscript (to_superscript (-123)) = Some (-123) /\ 5 - 8 = -3.
Proof.
  split.
  - exact (proj1 to_superscript_round_trip (-123)).
  - exact (proj2 to_superscript_round_trip (5 - 8) (-3) eq_refl).
Defined.

(* ================================================================== *)
(** * Further properties of the powers-of-ten generators *)
(* ================================================================== *)

Lemma draw_basic_kind : returns draw_basic (fun t => kind_of t = "basic").
Proof.
  unfold draw_basic. draw_step; [discriminate|].
  match goal with |- context [String.eqb ?x "single"] =>
    destruct (String.eqb x "single") end;
    repeat draw_step; reflexivity.
Qed.

Lemma draw_intermediate_kind :
  returns draw_intermediate (fun t => kind_of t = "intermediate").
Proof.
  unfold draw_intermediate. draw_step; [discriminate|].
  do 4 draw_step.
  match goal with |- context [String.eqb ?x "multiply"] =>
    destruct (String.eqb x "multiply") end.
  - draw_step. reflexivity.
  - do 2 draw_step.
    match goal with |- context [9 <? ?x] => destruct (9 <? x) end.
    + draw_step. draw_step; [apply one_divides|]. draw_step. reflexivity.
    + draw_step. reflexivity.
Qed.

Lemma draw_advanced_kind :
  returns draw_advanced (fun t => kind_of t = "advanced").
Proof.
  unfold draw_advanced. draw_step; [discriminate|].
  match goal with |- context [String.eqb ?x "fraction"] =>
    destruct (String.eqb x "fraction");
      [| destruct (String.eqb x "multi_term")] end.
  - do 4 draw_step. cbv zeta. choose_divisor 20. draw_step. reflexivity.
  - do 5 draw_step. cbv zeta. choose_divisor 10. draw_step. reflexivity.
  - do 4 draw_step. cbv zeta. choose_divisor 12. do 2 draw_step. reflexivity.
Qed.

Lemma draw_powers_kind level :
  returns (draw_powers level) (fun t => kind_of t = level_kind level).
Proof.
  unfold draw_powers, level_kind.
  destruct (String.eqb level "basic");
    [| destruct (String.eqb level "intermediate")].
  - apply draw_basic_kind.
  - apply draw_intermediate_kind.
  - apply draw_advanced_kind.
Qed.

(** What a generator returned was built from a drawable template of its
    kind. *)
Lemma generate_inv level g P g' :
  generate_powers_of_ten_problem level g = Ok (P, g') ->
  exists t,
    drawable t = true /\ kind_of t = level_kind level /\ build t = Ok P /\
    draw_powers level g = Ok (t, g').
Proof.
  intros H.
  assert (Hrun : exists t, draw_powers level g = Ok (t, g') /\ build t = Ok P).
  { revert H.
    unfold draw_powers, generate_powers_of_ten_problem,
      _generate_basic_powers_problem, _generate_intermediate_powers_problem,
      _generate_advanced_powers_problem.
    destruct (String.eqb level "basic");
      [| destruct (String.eqb level "intermediate")];
      intros H; apply bind_Ok in H; destruct H as (t & g1 & Hd & Hb);
      unfold lift in Hb; destruct (build t) as [P'|] eqn:Eb;
      try discriminate; inversion Hb; subst; exists t; split; auto. }
  destruct Hrun as (t & Hd & Hb). exists t.
  split; [exact (returns_Ok _ _ _ _ _ (draw_powers_drawable level) Hd)|].
  split; [exact (returns_Ok _ _ _ _ _ (draw_powers_kind level) Hd)|].
  split; assumption.
Qed.

(** X5: the numbers printed in a powers problem stay in the ranges the
    generators draw from ([drawable_prop]): every coefficient operand is a
    digit from 1 to 9 (2 to 9 above the basic level), every exponent lies
    between -3 and 6, an intermediate divisor is a digit that divides the
    dividend and an advanced divisor lies between 2 and 19 and divides the
    product; the template has the kind of the requested level, every level
    but 'basic' and 'intermediate' being taken as advanced. *)
Theorem powers_operands_in_range level g P g' :
  generate_powers_of_ten_problem level g = Ok (P, g') ->
  exists t,
    build t = Ok P /\ drawable_prop t /\ kind_of t = level_kind level.
Proof.
  intros H. destruct (generate_inv _ _ _ _ H) as (t & Hd & Hk & Hb & _).
  exists t. split; [exact Hb|]. split; [now apply drawable_iff | exact Hk].
Qed.

(** The flags a template's problem carries. *)
Lemma build_flags t P :
  build t = Ok P ->
  Powers.is_horizontal P = negb (Powers.has_division P) /\
  (Powers.is_fraction P = Some true <-> is_dict (Powers.expression P) = true) /\
  (Powers.answer_scientific P <> None <-> is_single t = true) /\
  (kind_of t = "basic" ->
   Powers.has_division P = false /\ Powers.is_fraction P = None) /\
  (kind_of t = "intermediate" -> Powers.is_fraction P = None) /\
  (kind_of t = "advanced" ->
   Powers.has_division P = true /\ Powers.is_fraction P <> None).
Proof.
  destruct t; cbn [build]; unfold result_bind;
    repeat match goal with
           | |- context [match ?r with Ok _ => _ | Raise _ => _ end] =>
               destruct r; [|discriminate]
           end;
    intros H; inversion H; subst; cbn;
    repeat split; intros; try discriminate; try congruence; auto.
Qed.

Lemma sample_powers_run :
  generate_powers_of_ten_problem "expert" (tape 2 5)
  = Ok (sample_problem, Nat.iter 7 advance (tape 2 5)).
Proof. vm_compute. reflexivity. Qed.

(** X6: the display flags of every generated problem agree with each
    other and with the level: it is horizontal exactly when it has no
    division; ['is_fraction'] is true exactly when the expression is the
    numerator/denominator dict, so the renderer's two tests agree; a basic
    problem has no division and no ['is_fraction'] key, an intermediate one
    no ['is_fraction'] key, and any other level (known or not) gives a
    division drawn with the ['is_fraction'] key present. *)
Theorem powers_flags_consistent level g P g' :
  generate_powers_of_ten_problem level g = Ok (P, g') ->
  Powers.is_horizontal P = negb (Powers.has_division P) /\
  (Powers.is_fraction P = Some true <-> is_dict (Powers.expression P) = true) /\
  (level = "basic" ->
   Powers.has_division P = false /\ Powers.is_fraction P = None) /\
  (level = "intermediate" -> Powers.is_fraction P = None) /\
  (level <> "basic" -> level <> "intermediate" ->
   Powers.has_division P = true /\ Powers.is_horizontal P = false /\
   Powers.is_fraction P <> None).
Proof.
  intros H. destruct (generate_inv _ _ _ _ H) as (t & _ & Hk & Hb & _).
  destruct (build_flags t P Hb) as (F1 & F2 & _ & F4 & F5 & F6).
  split; [exact F1|]. split; [exact F2|]. split; [|split].
  - intros ->. apply F4. exact Hk.
  - intros ->. apply F5. exact Hk.
  - intros Hb1 Hb2.
    assert (Ek : level_kind level = "advanced").
    { unfold level_kind.
      destruct (String.eqb level "basic") eqn:E1;
        [apply String.eqb_eq in E1; congruence|].
      destruct (String.eqb level "intermediate") eqn:E2;
        [apply String.eqb_eq in E2; congruence|]. reflexivity. }
    rewrite Ek in Hk. destruct (F6 Hk) as [D1 D2].
    split; [exact D1|]. split; [|exact D2]. rewrite F1, D1. reflexivity.
Qed.

Lemma powers_flags_consistent_witness :
  generate_powers_of_ten_problem "expert" (tape 2 5)
  = Ok (sample_problem, Nat.iter 7 advance (tape 2 5)) /\
  Powers.has_division sample_problem = true /\
  Powers.is_horizontal sample_problem = false /\
  Powers.is_fraction sample_problem <> None.
Proof.
  split; [exact sample_powers_run|].
  refine (proj2 (proj2 (proj2 (proj2
            (powers_flags_consistent "expert" _ _ _ sample_powers_run)))) _ _);
    discriminate.
Defined.

Lemma powers_operands_in_range_witness :
  exists t,
    build t = Ok sample_problem /\ drawable_prop t /\
    kind_of t = level_kind "expert".
Proof.
  exact (powers_operands_in_range "expert" _ _ _ sample_powers_run).
Defined.

(** ** The second loop never runs *)

Lemma first_loop_checked : all_coef_parts first_loop_suffices = true.
Proof. vm_compute. reflexivity. Qed.

Lemma coefficients_tidy_checked : all_coef_parts coefficient_tidy = true.
Proof. vm_compute. reflexivity. Qed.

Lemma raw_pair_coef_part t c0 z :
  raw_pair (coef_part t) = Ok (c0, z) -> raw_pair t = Ok (c0, raw_exp t).
Proof.
  destruct t; cbn [coef_part raw_pair raw_exp]; unfold result_bind;
    try (match goal with
         | |- context [py_truediv ?x ?y] => destruct (py_truediv x y)
         end);
    intros H; inversion H; reflexivity.
Qed.

(** X7: normalization is one optional division.  For every generated
    problem but the basic single term the raw coefficient is already at
    least 1; the loop [while result_coef >= 10] divides at most once; and
    the loop [while 0 < result_coef < 1] is never entered: it returns the
    pair the first loop left, which is the pair the generator formats. *)
Theorem second_loop_never_runs level g P g' :
  generate_powers_of_ten_problem level g = Ok (P, g') ->
  exists t,
    build t = Ok P /\
    (is_single t = false ->
     exists c0 c e,
       raw_pair t = Ok (c0, raw_exp t) /\
       py_le (PyInt 1) c0 = true /\
       scale_down loop_bound c0 (raw_exp t) = Ok (c, e) /\
       (e = raw_exp t \/ e = raw_exp t + 1) /\
       py_lt (PyInt 0) c && py_lt c (PyInt 1) = false /\
       scale_up loop_bound c e = Ok (c, e) /\
       normalized_pair t = Ok (c, e)).
Proof.
  intros H. destruct (generate_inv _ _ _ _ H) as (t & Hd & _ & Hb & _).
  exists t. split; [exact Hb|]. intros Hs.
  pose proof (all_coef_parts_spec _ first_loop_checked t Hd Hs) as K.
  unfold first_loop_suffices in K.
  destruct (raw_pair (coef_part t)) as [[c0 z]|] eqn:Er; [|discriminate].
  apply andb_prop in K. destruct K as [K1 K].
  destruct (scale_down loop_bound c0 0) as [[c s]|] eqn:Ed; [|discriminate].
  apply andb_prop in K. destruct K as [Ks Kup].
  apply between_spec in Ks. apply negb_true_iff in Kup.
  pose proof (raw_pair_coef_part t c0 z Er) as Hraw.
  apply (scale_down_shift _ _ _ _ _ (raw_exp t)) in Ed. cbn [Z.add] in Ed.
  pose proof (scale_up_stop loop_bound c (s + raw_exp t) Kup) as Hup.
  exists c0, c, (s + raw_exp t).
  repeat split; try assumption; [lia|].
  assert (Hnorm : normalize c0 (raw_exp t) = Ok (c, s + raw_exp t)).
  { unfold normalize. rewrite Ed. cbn [result_bind fst snd]. exact Hup. }
  unfold normalized_pair. rewrite Hraw. cbn [result_bind fst snd].
  destruct t; try discriminate; try exact Hnorm.
  apply drawable_iff in Hd. cbn [drawable_prop] in Hd.
  cbn [raw_pair] in Hraw. inversion Hraw.
  rewrite normalize_once_is_normalize by nia.
  rewrite H1. exact Hnorm.
Qed.

Lemma second_loop_never_runs_witness :
  exists t,
    build t = Ok sample_problem /\
    (is_single t = false ->
     exists c0 c e,
       raw_pair t = Ok (c0, raw_exp t) /\
       py_le (PyInt 1) c0 = true /\
       scale_down loop_bound c0 (raw_exp t) = Ok (c, e) /\
       (e = raw_exp t \/ e = raw_exp t + 1) /\
       py_lt (PyInt 0) c && py_lt c (PyInt 1) = false /\
       scale_up loop_bound c e = Ok (c, e) /\
       normalized_pair t = Ok (c, e)).
Proof.
  exact (second_loop_never_runs "expert" _ _ _ sample_powers_run).
Defined.

(** X8: the coefficient an answer shows is tidy: apart from the basic
    single term, every answer is one non-zero digit, or one non-zero
    digit, a point and one non-zero digit, followed by [" × 10"] and the
    exponent; the formatting to two decimals never has to round. *)
Theorem answer_coefficient_tidy level g P g' :
  generate_powers_of_ten_problem level g = Ok (P, g') ->
  exists t,
    build t = Ok P /\
    (is_single t = false ->
     exists txt e,
       Powers.answer P = txt +++ " × 10" +++ to_superscript e /\
       tidy txt = true).
Proof.
  intros H. destruct (generate_inv _ _ _ _ H) as (t & Hd & _ & Hb & _).
  exists t. split; [exact Hb|]. intros Hs.
  pose proof (all_coef_parts_spec _ coefficients_tidy_checked t Hd Hs) as K.
  unfold coefficient_tidy in K. rewrite is_basic_coef_part in K.
  destruct (normalized_pair (coef_part t)) as [[c s]|] eqn:En; [|discriminate].
  destruct (coef_text (is_basic t) c) as [txt|] eqn:Et; [|discriminate].
  pose proof (normalized_pair_shift t c s En) as Hn.
  destruct (build_answer t c _ txt Hs Hn Et) as (P' & HP' & Hans).
  rewrite Hb in HP'. inversion HP'. subst P'.
  exists txt, (raw_exp t + s). split; [exact Hans | exact K].
Qed.

Lemma answer_coefficient_tidy_witness :
  exists t,
    build t = Ok sample_problem /\
    (is_single t = false ->
     exists txt e,
       Powers.answer sample_problem = txt +++ " × 10" +++ to_superscript e /\
       tidy txt = true).
Proof.
  exact (answer_coefficient_tidy "expert" _ _ _ sample_powers_run).
Defined.

(* ================================================================== *)
(** * Further properties of the worksheets *)
(* ================================================================== *)

Lemma flat_map_flat_map {A B C} (f : B -> list C) (g : A -> list B) l :
  flat_map f (flat_map g l) = flat_map (fun x => flat_map f (g x)) l.
Proof.
  induction l as [|x l IH]; [reflexivity|].
  cbn [flat_map]. now rewrite flat_map_app, IH.
Qed.

Lemma range_shift {B} (g : Z -> B) first m :
  map (fun p => g (first + p)) (range 0 m) = map g (range first (first + m)).
Proof.
  unfold range. rewrite !map_map.
  replace (Z.to_nat (first + m - first)) with (Z.to_nat (m - 0)) by lia.
  apply map_ext. intros i. f_equal.
Qed.

Section CanvasFacts.
Context {P : Type}.
Variable problems : list P.
Variable default : P.
Variable n cols rows : Z.
Variable headers : rng.
Hypothesis Hcols : 0 < cols.
Hypothesis Hrows : 0 < rows.

Local Abbreviation pp := (per_page cols rows).
Local Abbreviation needed := (pages_needed n cols rows).
Local Abbreviation cell_at := (cell problems default cols rows).
Local Abbreviation place := (placement problems default cols rows).
Local Abbreviation page_at :=
  (expected_page problems default n cols rows headers).
Local Abbreviation pass_of :=
  (expected_pass problems default n cols rows headers).
Local Abbreviation canvas_for :=
  (expected_canvas problems default n cols rows headers).

Lemma pp_pos : 0 < pp.
Proof. unfold per_page. nia. Qed.

Lemma needed_ceiling : pp * (needed - 1) < n <= pp * needed.
Proof. exact (pages_needed_ceiling problems n cols rows Hcols Hrows). Qed.

(** The first index of page [p], and the index after its last. *)
Lemma page_bounds p :
  0 <= p < needed ->
  p * pp < Z.min n ((p + 1) * pp) /\
  Z.min n ((p + 1) * pp) - p * pp <= pp.
Proof.
  intros Hp. pose proof pp_pos. pose proof needed_ceiling. nia.
Qed.

(** *** The cells of a canvas *)

Lemma cells_app show (xs ys : list (canvas_op P)) :
  cells show (xs ++ ys) = cells show xs ++ cells show ys.
Proof. apply flat_map_app. Qed.

Lemma cells_of_cells show show' l :
  cells show (map (cell_at show') l)
  = if Bool.eqb show' show then map place l else [].
Proof.
  induction l as [|i l IH]; [now destruct (Bool.eqb show' show)|].
  cbn [map]. unfold cells in *. cbn [flat_map]. rewrite IH.
  unfold cell at 1. unfold placement.
  destruct (Bool.eqb show' show); reflexivity.
Qed.

Lemma cells_of_page show show' title subtitle total first p :
  cells show (page_at show' title subtitle total first p)
  = if Bool.eqb show' show
    then map place (range (p * pp) (Z.min n ((p + 1) * pp))) else [].
Proof.
  unfold expected_page.
  change (cells show (?h :: ?t)) with (cells show t).
  rewrite cells_app, cells_of_cells.
  destruct (Bool.eqb show' show); cbn; now rewrite ?app_nil_r.
Qed.

Lemma pages_cover {B} (g : Z -> B) : forall (k : nat) p0,
  0 <= p0 <= needed -> Z.to_nat (needed - p0) = k ->
  flat_map (fun p => map g (range (p * pp) (Z.min n ((p + 1) * pp))))
           (range p0 needed)
  = map g (range (Z.min n (p0 * pp)) n).
Proof.
  pose proof pp_pos as Hpp. pose proof needed_ceiling as Hc.
  induction k as [|k IH]; intros p0 Hp Hk.
  - assert (p0 = needed) by lia. subst p0.
    rewrite !range_nil by lia. reflexivity.
  - rewrite (range_cons p0 needed) by lia. cbn [flat_map].
    rewrite (IH (p0 + 1)) by lia. rewrite <- map_app.
    assert (E : Z.min n (p0 * pp) = p0 * pp) by nia. rewrite E.
    rewrite range_app by nia. reflexivity.
Qed.

Lemma cells_of_pass show show' title subtitle total first :
  cells show (pass_of show' title subtitle total first)
  = if Bool.eqb show' show then map place (range 0 n) else [].
Proof.
  pose proof pp_pos as Hpp. pose proof needed_ceiling as Hc.
  unfold expected_pass, cells. rewrite flat_map_flat_map.
  fold (@cells P show).
  rewrite (flat_map_ext _ _ (fun p => cells_of_page show show' title subtitle
                                                   total first p)).
  destruct (Bool.eqb show' show).
  - destruct (Z.le_gt_cases 0 needed) as [Hn|Hn].
    + rewrite (pages_cover place (Z.to_nat (needed - 0)) 0) by lia.
      replace (Z.min n (0 * pp)) with (Z.min n 0) by (f_equal; lia).
      destruct (Z.le_gt_cases 0 n) as [H0|H0].
      * now replace (Z.min n 0) with 0 by lia.
      * rewrite !range_nil by lia. reflexivity.
    + rewrite (range_nil 0 needed) by lia.
      rewrite (range_nil 0 n) by nia. reflexivity.
  - induction (range 0 needed) as [|p l IH]; [reflexivity | exact IH].
Qed.

Lemma cells_of_canvas show title subtitle show_answers :
  cells show (canvas_for title subtitle show_answers)
  = if show then (if show_answers then map place (range 0 n) else [])
    else map place (range 0 n).
Proof.
  unfold expected_canvas.
  destruct show_answers; rewrite !cells_app, !cells_of_pass;
    destruct show; cbn; now rewrite ?app_nil_r.
Qed.

(** The problems the cells hold are the problems of the list, in order. *)
Lemma placed_problems :
  Z.of_nat (List.length problems) = n ->
  map (fun c => snd c) (map place (range 0 n)) = problems /\
  map (fun c => fst (fst (fst c))) (map place (range 0 n)) = range 1 (n + 1).
Proof.
  intros Hlen. rewrite !map_map. unfold placement. cbn [fst snd]. split.
  - unfold range. rewrite map_map.
    replace (Z.to_nat (n - 0)) with (List.length problems) by lia.
    rewrite <- (map_ext (fun i => nth i problems default))
      by (intros i; f_equal; lia).
    clear. induction problems as [|x l IH]; [reflexivity|].
    cbn [List.length seq map nth]. f_equal.
    rewrite <- seq_shift, map_map. exact IH.
  - replace (n + 1) with (1 + n) by lia.
    rewrite <- (map_id (range 1 (1 + n))).
    rewrite <- (range_shift (fun k => k) 1 n).
    apply map_ext. intros i. lia.
Qed.

(** *** Page labels *)

Lemma page_labels_app (xs ys : list (canvas_op P)) :
  page_labels (xs ++ ys) = page_labels xs ++ page_labels ys.
Proof. apply flat_map_app. Qed.

Lemma page_labels_cells show l : page_labels (map (cell_at show) l) = [].
Proof. induction l as [|i l IH]; [reflexivity | exact IH]. Qed.

Lemma page_labels_page show title subtitle total first p :
  page_labels (page_at show title subtitle total first p)
  = [(first + p, total)].
Proof.
  unfold expected_page.
  change (page_labels (Header ?a ?b ?c ?d ?e :: ?t))
    with ((a, b) :: page_labels t).
  rewrite page_labels_app, page_labels_cells. reflexivity.
Qed.

Lemma page_labels_pass show title subtitle total first :
  page_labels (pass_of show title subtitle total first)
  = map (fun k => (k, total)) (range first (first + needed)).
Proof.
  rewrite <- (range_shift (fun k => (k, total)) first needed).
  unfold expected_pass.
  induction (range 0 needed) as [|p l IH]; [reflexivity|].
  cbn [flat_map map]. rewrite page_labels_app, IH, page_labels_page.
  reflexivity.
Qed.

Lemma page_labels_canvas title subtitle show_answers :
  0 <= needed ->
  page_labels (canvas_for title subtitle show_answers)
  = map (fun k => (k, if show_answers then needed * 2 else needed))
        (range 1 (1 + (if show_answers then needed * 2 else needed))).
Proof.
  intros Hn. unfold expected_canvas.
  destruct show_answers; rewrite !page_labels_app, !page_labels_pass.
  - cbn [page_labels flat_map]. rewrite app_nil_r, <- map_app.
    rewrite range_app by lia. do 2 f_equal. lia.
  - cbn [page_labels flat_map]. now rewrite app_nil_r.
Qed.

(** *** Page sizes *)

Lemma page_sizes_cells show l : forall rest count,
  page_sizes (map (cell_at show) l ++ rest) count
  = page_sizes rest (count + Z.of_nat (List.length l)).
Proof.
  induction l as [|i l IH]; intros rest count.
  - cbn. f_equal. lia.
  - cbn [map app List.length]. unfold cell at 1. cbn [page_sizes].
    rewrite IH. f_equal. lia.
Qed.

Lemma page_sizes_page show title subtitle total first p rest :
  page_sizes (page_at show title subtitle total first p ++ rest) 0
  = Z.max 0 (Z.min n ((p + 1) * pp) - p * pp) :: page_sizes rest 0.
Proof.
  unfold expected_page. rewrite <- app_comm_cons. cbn [page_sizes].
  rewrite <- app_assoc, page_sizes_cells. cbn [app page_sizes].
  f_equal. rewrite range_length. lia.
Qed.

Lemma page_sizes_pass show title subtitle total first rest : forall l,
  page_sizes (flat_map (page_at show title subtitle total first) l ++ rest) 0
  = map (fun p => Z.max 0 (Z.min n ((p + 1) * pp) - p * pp)) l
    ++ page_sizes rest 0.
Proof.
  induction l as [|p l IH]; [reflexivity|].
  cbn [flat_map map]. rewrite <- app_assoc, page_sizes_page, IH.
  reflexivity.
Qed.

Lemma page_sizes_canvas title subtitle show_answers :
  Forall (fun k => 1 <= k <= pp)
         (page_sizes (canvas_for title subtitle show_answers) 0).
Proof.
  assert (G : Forall (fun k => 1 <= k <= pp)
                (map (fun p => Z.max 0 (Z.min n ((p + 1) * pp) - p * pp))
                     (range 0 needed))).
  { apply Forall_forall. intros k Hk. apply in_map_iff in Hk.
    destruct Hk as (p & <- & Hp). apply in_range in Hp.
    pose proof (page_bounds p Hp). lia. }
  unfold expected_canvas, expected_pass.
  destruct show_answers; rewrite !page_sizes_pass; cbn [page_sizes];
    rewrite ?app_nil_r; try apply Forall_app; auto.
Qed.

(** *** Worksheets without problems, and all the others *)

Lemma needed_nonpositive : n <= 0 -> needed <= 0.
Proof. pose proof pp_pos. pose proof needed_ceiling. nia. Qed.

Lemma canvas_nothing title subtitle show_answers :
  n <= 0 -> canvas_for title subtitle show_answers = [Save].
Proof.
  intros Hn. pose proof (needed_nonpositive Hn) as Hneed.
  unfold expected_canvas, expected_pass. rewrite range_nil by lia.
  now destruct show_answers.
Qed.

(** Without problems there is no page, hence no header and no draw. *)
Lemma render_nothing title subtitle show_answers g :
  n <= 0 ->
  render problems n cols rows title subtitle show_answers g
  = Ok ([Save], g).
Proof.
  intros Hn. pose proof pp_pos as Hpp. unfold per_page in Hpp.
  assert (E0 : (cols * rows =? 0) = false) by (apply Z.eqb_neq; lia).
  assert (E : (0 <? n) = false) by (apply Z.ltb_ge; lia).
  unfold render. cbv zeta. unfold bind at 1, lift, floordiv. rewrite E0.
  replace (Z.to_nat n) with O by lia. cbn [draw_pages]. rewrite E.
  unfold bind, ret. cbn [fst snd]. now destruct show_answers.
Qed.

(** Whatever the number of problems asked for, the canvas of a list of that
    many problems (none when the number is negative) is the expected one,
    and the random module has been drawn from once for every page. *)
Lemma render_total title subtitle show_answers :
  List.length problems = Z.to_nat n ->
  render problems n cols rows title subtitle show_answers headers
  = Ok (canvas_for title subtitle show_answers,
        after_draws (count_pages (canvas_for title subtitle show_answers))
                    headers).
Proof.
  intros Hlen. destruct (Z.le_gt_cases n 0) as [Hn|Hn].
  - now rewrite render_nothing, canvas_nothing.
  - rewrite (count_pages_canvas problems default n cols rows headers
               ltac:(lia) Hcols Hrows).
    apply render_spec; lia.
Qed.

Lemma canvas_numbered title subtitle show_answers :
  List.length problems = Z.to_nat n ->
  numbered_from_one (canvas_for title subtitle show_answers).
Proof.
  intros Hlen. unfold numbered_from_one.
  destruct (Z.le_gt_cases n 0) as [Hn|Hn].
  - rewrite canvas_nothing by exact Hn. reflexivity.
  - assert (Hneed : 0 <= needed)
      by (pose proof pp_pos; pose proof needed_ceiling; nia).
    rewrite (count_pages_canvas problems default n cols rows headers
               ltac:(lia) Hcols Hrows).
    rewrite page_labels_canvas by exact Hneed.
    destruct show_answers;
      now replace (2 * needed) with (needed * 2) by lia.
Qed.

Lemma placed_any :
  List.length problems = Z.to_nat n ->
  map cell_problem (map place (range 0 n)) = problems /\
  map cell_number (map place (range 0 n)) = range 1 (n + 1).
Proof.
  intros Hlen. destruct (Z.le_gt_cases n 0) as [Hn|Hn].
  - rewrite !range_nil by lia.
    destruct problems; [now split | cbn [List.length] in Hlen; lia].
  - apply placed_problems. lia.
Qed.

Lemma placement_on_grid i : 0 <= i -> on_grid cols rows (place i).
Proof.
  intros Hi. pose proof pp_pos as Hpp. unfold placement, on_grid.
  pose proof (Z.mod_pos_bound i pp Hpp) as B1.
  pose proof (Z.mod_pos_bound i cols Hcols) as B2.
  split; [|exact B2]. split.
  - apply Z.div_pos; lia.
  - apply Z.div_lt_upper_bound; [lia|]. unfold per_page in *. lia.
Qed.

Lemma cells_on_grid show title subtitle show_answers :
  Forall (on_grid cols rows)
         (cells show (canvas_for title subtitle show_answers)).
Proof.
  assert (G : Forall (on_grid cols rows) (map place (range 0 n))).
  { apply Forall_forall. intros c Hc. apply in_map_iff in Hc.
    destruct Hc as (i & <- & Hi). apply in_range in Hi.
    apply placement_on_grid. lia. }
  rewrite cells_of_canvas. destruct show, show_answers; auto.
Qed.

(** What holds of every problem of the list holds of every problem drawn. *)
Lemma cells_problems (Q : P -> Prop) show title subtitle show_answers :
  List.length problems = Z.to_nat n ->
  Forall Q problems ->
  Forall (fun c => Q (cell_problem c))
         (cells show (canvas_for title subtitle show_answers)).
Proof.
  intros Hlen HQ. destruct (placed_any Hlen) as [E _].
  assert (G : Forall (fun c => Q (cell_problem c)) (map place (range 0 n))).
  { apply (proj1 (Forall_map cell_problem Q _)). now rewrite E. }
  rewrite cells_of_canvas. destruct show, show_answers; auto.
Qed.

End CanvasFacts.


(** ** What a run of a worksheet method returned *)

Lemma gen_problems_length n op min_val max_val mixed g problems g' :
  gen_problems n op min_val max_val mixed g = Ok (problems, g') ->
  List.length problems = Z.to_nat n.
Proof.
  unfold gen_problems. intros H.
  destruct mixed; now apply repeat_gen_length in H.
Qed.

Lemma generate_worksheet_inv self filename n op min_val max_val
      title subtitle show mixed g canvas g' default :
  0 < problems_per_row self -> 0 < rows_per_page self ->
  generate_worksheet self filename n op min_val max_val
                     title subtitle show mixed g = Ok (canvas, g') ->
  exists problems g1,
    gen_problems n op min_val max_val mixed g = Ok (problems, g1) /\
    List.length problems = Z.to_nat n /\
    canvas = expected_canvas problems default n
               (problems_per_row self) (rows_per_page self) g1
               (worksheet_title title op mixed)
               (worksheet_subtitle subtitle n) show /\
    g' = after_draws (count_pages canvas) g1.
Proof.
  intros Hc Hr H. unfold generate_worksheet in H.
  apply bind_Ok in H. destruct H as (problems & g1 & Hgen & H).
  pose proof (gen_problems_length _ _ _ _ _ _ _ _ Hgen) as Hlen.
  rewrite (render_total problems default n _ _ g1 Hc Hr _ _ _ Hlen) in H.
  inversion H; subst. exists problems, g1. auto.
Qed.

Lemma generate_powers_worksheet_inv self filename n level
      title subtitle show g canvas g' default :
  generate_powers_worksheet self filename n level title subtitle show g
  = Ok (canvas, g') ->
  exists problems g1,
    repeat_gen (Z.to_nat n) (generate_powers_of_ten_problem level) g
    = Ok (problems, g1) /\
    List.length problems = Z.to_nat n /\
    canvas = expected_canvas problems default n 2 5 g1
               (powers_title title level) (powers_subtitle subtitle) show /\
    g' = after_draws (count_pages canvas) g1.
Proof.
  intros H. unfold generate_powers_worksheet in H.
  apply bind_Ok in H. destruct H as (problems & g1 & Hgen & H).
  pose proof (repeat_gen_length _ _ _ _ _ Hgen) as Hlen.
  cbv zeta in H.
  rewrite (render_total problems default n 2 5 g1 ltac:(lia) ltac:(lia)
                        _ _ _ Hlen) in H.
  inversion H; subst. exists problems, g1. auto.
Qed.

Lemma repeat_gen_Forall {A} (gen : M A) (Q : A -> Prop) :
  (forall g x g', gen g = Ok (x, g') -> Q x) ->
  forall k g xs g', repeat_gen k gen g = Ok (xs, g') -> Forall Q xs.
Proof.
  intros Hgen. induction k as [|k IH]; intros g xs g' H; cbn [repeat_gen] in H.
  - apply ret_Ok in H. destruct H as [<- _]. constructor.
  - apply bind_Ok in H. destruct H as (x & g1 & Hx & H).
    apply bind_Ok in H. destruct H as (ys & g2 & Hys & H).
    apply ret_Ok in H. destruct H as [<- _].
    constructor; [exact (Hgen _ _ _ Hx) | exact (IH _ _ _ Hys)].
Qed.

Lemma repeat_gen_raises {A} (gen : M A) k g e :
  gen g = Raise e -> repeat_gen (S k) gen g = Raise e.
Proof. intros H. cbn [repeat_gen]. unfold bind. now rewrite H. Qed.

(** Two problems take four draws, the two pages one each. *)
Lemma sample_worksheet_run :
  generate_worksheet (init "School") "out.pdf" 2 "+" 1 9 None None
                     true false (tape 2 3)
  = Ok (sample_worksheet, Nat.iter 6 advance (tape 2 3)).
Proof. vm_compute. reflexivity. Qed.

Lemma sample_powers_worksheet_run :
  generate_powers_worksheet (init "School") "out.pdf" 1 "basic" None None
                            true (tape 2 5)
  = Ok (sample_powers_worksheet, Nat.iter 5 advance (tape 2 5)).
Proof. vm_compute. reflexivity. Qed.

(** ** Page numbers *)

(** X9: on every worksheet that is saved the pages are labelled
    "Page 1 of N", "Page 2 of N", ..., "Page N of N", where N is the number
    of pages the file really holds, answer key included; this holds for any
    grid of at least one row and one column and any number of problems. *)
Theorem pages_numbered_consecutively :
  (forall self filename n op min_val max_val title subtitle show mixed
          g canvas g',
     0 < problems_per_row self -> 0 < rows_per_page self ->
     generate_worksheet self filename n op min_val max_val
                        title subtitle show mixed g = Ok (canvas, g') ->
     numbered_from_one canvas) /\
  (forall self filename n level title subtitle show g canvas g',
     generate_powers_worksheet self filename n level title subtitle show g
     = Ok (canvas, g') ->
     numbered_from_one canvas).
Proof.
  split.
  - intros self filename n op min_val max_val title subtitle show mixed
           g canvas g' Hc Hr H.
    destruct (generate_worksheet_inv _ _ _ _ _ _ _ _ _ _ _ _ _
                (mkProblem 0 0 "" 0) Hc Hr H)
      as (problems & g1 & _ & Hlen & -> & _).
    now apply canvas_numbered.
  - intros self filename n level title subtitle show g canvas g' H.
    destruct (generate_powers_worksheet_inv _ _ _ _ _ _ _ _ _ _
                no_problem H) as (problems & g1 & _ & Hlen & -> & _).
    apply canvas_numbered; [lia | lia | exact Hlen].
Qed.

Lemma pages_numbered_consecutively_witness :
  page_labels sample_worksheet = [(1, 2); (2, 2)] /\
  page_labels sample_powers_worksheet = [(1, 2); (2, 2)].
Proof.
  split.
  - exact (proj1 pages_numbered_consecutively (init "School") _ _ _ _ _ _ _
                 _ _ _ _ _ ltac:(cbn; lia) ltac:(cbn; lia)
                 sample_worksheet_run).
  - exact (proj2 pages_numbered_consecutively (init "School") _ _ _ _ _ _
                 _ _ _ sample_powers_worksheet_run).
Defined.

(** ** The problems on the pages *)

(** X10: a saved worksheet shows each generated problem exactly once in the
    problem pages, in the order generated and numbered 1 to [num_problems],
    and never with its answer there; the answer key is empty without
    [show_answers] and otherwise repeats the same problems at the same
    numbers, rows and columns.  The problems are all generated before the
    first page is drawn, and every page then takes one more draw from the
    random module, for the identifier in its footer. *)
Theorem every_problem_drawn_once :
  (forall self filename n op min_val max_val title subtitle show mixed
          g canvas g',
     0 < problems_per_row self -> 0 < rows_per_page self ->
     generate_worksheet self filename n op min_val max_val
                        title subtitle show mixed g = Ok (canvas, g') ->
     exists problems g1,
       gen_problems n op min_val max_val mixed g = Ok (problems, g1) /\
       g' = after_draws (count_pages canvas) g1 /\
       map cell_problem (cells false canvas) = problems /\
       map cell_number (cells false canvas) = range 1 (n + 1) /\
       cells true canvas = if show then cells false canvas else []) /\
  (forall self filename n level title subtitle show g canvas g',
     generate_powers_worksheet self filename n level title subtitle show g
     = Ok (canvas, g') ->
     exists problems g1,
       repeat_gen (Z.to_nat n) (generate_powers_of_ten_problem level) g
       = Ok (problems, g1) /\
       g' = after_draws (count_pages canvas) g1 /\
       map cell_problem (cells false canvas) = problems /\
       map cell_number (cells false canvas) = range 1 (n + 1) /\
       cells true canvas = if show then cells false canvas else []).
Proof.
  split.
  - intros self filename n op min_val max_val title subtitle show mixed
           g canvas g' Hc Hr H.
    destruct (generate_worksheet_inv _ _ _ _ _ _ _ _ _ _ _ _ _
                (mkProblem 0 0 "" 0) Hc Hr H)
      as (problems & g1 & Hgen & Hlen & Hcanvas & Hstate).
    exists problems, g1. split; [exact Hgen|]. split; [exact Hstate|].
    rewrite Hcanvas, !cells_of_canvas by assumption.
    destruct (placed_any problems (mkProblem 0 0 "" 0) n
                (problems_per_row self) (rows_per_page self) Hlen) as [E1 E2].
    auto.
  - intros self filename n level title subtitle show g canvas g' H.
    destruct (generate_powers_worksheet_inv _ _ _ _ _ _ _ _ _ _
                no_problem H)
      as (problems & g1 & Hgen & Hlen & Hcanvas & Hstate).
    exists problems, g1. split; [exact Hgen|]. split; [exact Hstate|].
    rewrite Hcanvas, !cells_of_canvas by lia.
    destruct (placed_any problems no_problem n 2 5 Hlen) as [E1 E2].
    auto.
Qed.

Lemma every_problem_drawn_once_witness :
  map cell_number (cells false sample_worksheet) = [1; 2] /\
  cells true sample_worksheet = cells false sample_worksheet /\
  map cell_number (cells false sample_powers_worksheet) = [1].
Proof.
  destruct (proj1 every_problem_drawn_once (init "School") _ _ _ _ _ _ _
                  _ _ _ _ _ ltac:(cbn; lia) ltac:(cbn; lia)
                  sample_worksheet_run) as (ps & g1 & _ & _ & _ & E2 & E3).
  destruct (proj2 every_problem_drawn_once (init "School") _ _ _ _ _ _
                  _ _ _ sample_powers_worksheet_run)
    as (qs & g2 & _ & _ & _ & F2 & _).
  split; [exact E2|]. split; [exact E3 | exact F2].
Defined.

(** X11: a saved worksheet never has an empty or an overfull page, and
    never draws outside its grid: every page holds at least one problem and
    at most [problems_per_row * rows_per_page], and every problem sits in a
    row below [rows_per_page] and a column below [problems_per_row] (2
    columns by 5 rows on a powers worksheet). *)
Theorem pages_within_grid :
  (forall self filename n op min_val max_val title subtitle show mixed
          g canvas g',
     0 < problems_per_row self -> 0 < rows_per_page self ->
     generate_worksheet self filename n op min_val max_val
                        title subtitle show mixed g = Ok (canvas, g') ->
     Forall (fun k => 1 <= k <= problems_per_row self * rows_per_page self)
            (page_sizes canvas 0) /\
     forall key,
       Forall (on_grid (problems_per_row self) (rows_per_page self))
              (cells key canvas)) /\
  (forall self filename n level title subtitle show g canvas g',
     generate_powers_worksheet self filename n level title subtitle show g
     = Ok (canvas, g') ->
     Forall (fun k => 1 <= k <= 10) (page_sizes canvas 0) /\
     forall key, Forall (on_grid 2 5) (cells key canvas)).
Proof.
  split.
  - intros self filename n op min_val max_val title subtitle show mixed
           g canvas g' Hc Hr H.
    destruct (generate_worksheet_inv _ _ _ _ _ _ _ _ _ _ _ _ _
                (mkProblem 0 0 "" 0) Hc Hr H)
      as (problems & g1 & _ & _ & -> & _).
    split.
    + now apply page_sizes_canvas.
    + intros key. now apply cells_on_grid.
  - intros self filename n level title subtitle show g canvas g' H.
    destruct (generate_powers_worksheet_inv _ _ _ _ _ _ _ _ _ _
                no_problem H) as (problems & g1 & _ & _ & -> & _).
    split.
    + apply (page_sizes_canvas problems no_problem n 2 5 g1); lia.
    + intros key. apply cells_on_grid; lia.
Qed.

Lemma pages_within_grid_witness :
  Forall (fun k => 1 <= k <= 5 * 6) (page_sizes sample_worksheet 0) /\
  Forall (on_grid 5 6) (cells true sample_worksheet) /\
  Forall (fun k => 1 <= k <= 10) (page_sizes sample_powers_worksheet 0).
Proof.
  destruct (proj1 pages_within_grid (init "School") _ _ _ _ _ _ _
                  _ _ _ _ _ ltac:(cbn; lia) ltac:(cbn; lia)
                  sample_worksheet_run) as [S1 G1].
  destruct (proj2 pages_within_grid (init "School") _ _ _ _ _ _
                  _ _ _ sample_powers_worksheet_run) as [S2 _].
  split; [exact S1|]. split; [exact (G1 true) | exact S2].
Defined.

(** ** Edge cases and errors *)

(** X12: asked for no problems (zero or a negative number), both worksheet
    methods draw nothing and save a file without pages, without touching
    the random source; [generate_worksheet] then accepts any operator, even
    an unrecognized one, and any range, even an empty one. *)
Theorem no_problems_no_pages n :
  n <= 0 ->
  (forall self filename op min_val max_val title subtitle show mixed g,
     0 < problems_per_row self -> 0 < rows_per_page self ->
     generate_worksheet self filename n op min_val max_val
                        title subtitle show mixed g = Ok ([Save], g)) /\
  (forall self filename level title subtitle show g,
     generate_powers_worksheet self filename n level title subtitle show g
     = Ok ([Save], g)).
Proof.
  intros Hn. assert (E : Z.to_nat n = O) by lia. split.
  - intros self filename op min_val max_val title subtitle show mixed g
           Hc Hr.
    unfold generate_worksheet, gen_problems. unfold bind at 1. rewrite E.
    destruct mixed; cbn [repeat_gen ret];
      exact (render_nothing [] n _ _ Hc Hr _ _ _ g Hn).
  - intros self filename level title subtitle show g.
    unfold generate_powers_worksheet. unfold bind at 1. rewrite E.
    cbn [repeat_gen ret]. cbv zeta.
    exact (render_nothing [] n 2 5 ltac:(lia) ltac:(lia) _ _ _ g Hn).
Qed.

Lemma no_problems_no_pages_witness :
  generate_worksheet (init "School") "out.pdf" (-3) "?" 5 1 None None
                     true false (tape 2 3) = Ok ([Save], tape 2 3) /\
  generate_powers_worksheet (init "School") "out.pdf" 0 "basic" None None
                            true (tape 2 3) = Ok ([Save], tape 2 3).
Proof.
  split.
  - exact (proj1 (no_problems_no_pages (-3) ltac:(lia)) (init "School") _ _ _
                 _ _ _ _ _ _ ltac:(cbn; lia) ltac:(cbn; lia)).
  - exact (proj2 (no_problems_no_pages 0 ltac:(lia)) (init "School") _ _ _ _
                 _ _).
Defined.

Lemma empty_range_everywhere op min_val max_val :
  max_val < min_val -> ranges_nonempty op min_val max_val = false.
Proof.
  intros H. unfold ranges_nonempty.
  destruct (_ || _); [apply Z.leb_gt; lia|].
  destruct (_ || _); apply Z.leb_gt; lia.
Qed.

(** X13: asked for at least one problem, [generate_worksheet] fails before
    anything is drawn when the first problem cannot be generated: with the
    "Unknown operation" error for an unrecognized operator outside mixed
    mode, and with the empty-range error of [random.randint] when [max_val]
    is below [min_val] (in mixed mode whatever the operator argument). *)
Theorem worksheet_fails_with_its_first_problem
    self filename n op min_val max_val title subtitle show g :
  1 <= n ->
  (recognized op = false ->
   generate_worksheet self filename n op min_val max_val
                      title subtitle show false g
   = Raise (ValueError ("Unknown operation: " +++ op))) /\
  (forall mixed,
     max_val < min_val -> mixed = true \/ recognized op = true ->
     exists lo hi,
       hi < lo /\
       generate_worksheet self filename n op min_val max_val
                          title subtitle show mixed g
       = Raise (EmptyRange lo hi)).
Proof.
  intros Hn.
  assert (E : Z.to_nat n = S (Z.to_nat (n - 1))) by lia.
  split.
  - intros Hop. unfold generate_worksheet, gen_problems. unfold bind at 1.
    rewrite E, (repeat_gen_raises _ _ _ (unknown_operation op));
      [reflexivity|].
    now apply generate_problem_unknown.
  - intros mixed Hrange Hmode.
    unfold generate_worksheet, gen_problems. unfold bind at 1. rewrite E.
    destruct mixed.
    + destruct (choice_total ["+"; "-"; "×"; "÷"] g ltac:(discriminate))
        as [o Ho].
      pose proof (proj1 (choice_Ok _ _ _ _ Ho)) as Hin.
      assert (Hrec : recognized o = true).
      { cbn in Hin. destruct Hin as [<-|[<-|[<-|[<-|[]]]]]; reflexivity. }
      destruct (generate_problem_empty_range o min_val max_val false
                  (advance g) Hrec
                  (empty_range_everywhere o _ _ Hrange))
        as (lo & hi & Hlt & Hraise).
      exists lo, hi. split; [exact Hlt|].
      rewrite (repeat_gen_raises _ _ _ (EmptyRange lo hi)); [reflexivity|].
      unfold bind. now rewrite Ho.
    + destruct Hmode as [Hm|Hrec]; [discriminate|].
      destruct (generate_problem_empty_range op min_val max_val false g Hrec
                  (empty_range_everywhere op _ _ Hrange))
        as (lo & hi & Hlt & Hraise).
      exists lo, hi. split; [exact Hlt|].
      now rewrite (repeat_gen_raises _ _ _ (EmptyRange lo hi)).
Qed.

Lemma worksheet_fails_with_its_first_problem_witness :
  generate_worksheet (init "School") "out.pdf" 30 "%" 1 99 None None
                     true false (tape 2 3)
  = Raise (ValueError "Unknown operation: %") /\
  exists lo hi,
    hi < lo /\
    generate_worksheet (init "School") "out.pdf" 30 "%" 9 1 None None
                       true true (tape 2 3)
    = Raise (EmptyRange lo hi).
Proof.
  split.
  - exact (proj1 (worksheet_fails_with_its_first_problem
                    (init "School") "out.pdf" 30 "%" 1 99 None None true
                    (tape 2 3) ltac:(lia)) eq_refl).
  - exact (proj2 (worksheet_fails_with_its_first_problem
                    (init "School") "out.pdf" 30 "%" 9 1 None None true
                    (tape 2 3) ltac:(lia)) true ltac:(lia) (or_introl eq_refl)).
Defined.

(** ** What the pages show is right *)

Lemma generate_problem_sound op min_val max_val neg g r g' :
  generate_problem op min_val max_val neg g = Ok (r, g') ->
  sound r /\ operation r = canonical op.
Proof.
  intros H. unfold sound.
  destruct (generate_problem_shape _ _ _ _ _ _ _ H)
    as (a & b & _ & [(-> & -> & _)|[(-> & -> & _)
                    |[(Hop & -> & _)|(Hop & -> & Ha & _)]]]);
    cbn [operation top bottom answer].
  - split; [split; [reflexivity | cbn; auto] | reflexivity].
  - split; [split; [reflexivity | cbn; auto] | reflexivity].
  - split; [split; [reflexivity | cbn; auto]|].
    destruct Hop as [-> | ->]; reflexivity.
  - split; [split; [| cbn; auto 6]|].
    + unfold apply_operation. cbn [String.eqb Ascii.eqb Bool.eqb andb].
      assert (E0 : (a =? 0) = false) by (apply Z.eqb_neq; lia).
      assert (E1 : ((a * b) mod a =? 0) = true).
      { apply Z.eqb_eq. rewrite Z.mul_comm. apply Z_mod_mult. }
      cbn. rewrite E0, E1. cbn [orb negb]. f_equal.
      rewrite Z.mul_comm. apply Z.div_mul. lia.
    + destruct Hop as [-> | ->]; reflexivity.
Qed.

Lemma gen_problems_sound n op min_val max_val mixed g problems g' :
  gen_problems n op min_val max_val mixed g = Ok (problems, g') ->
  Forall (fun r => sound r /\ (mixed = false -> operation r = canonical op))
         problems.
Proof.
  unfold gen_problems. destruct mixed; apply repeat_gen_Forall.
  - intros g0 r g1 H. apply bind_Ok in H. destruct H as (o & g2 & _ & H).
    split; [exact (proj1 (generate_problem_sound _ _ _ _ _ _ _ H))|].
    discriminate.
  - intros g0 r g1 H.
    destruct (generate_problem_sound _ _ _ _ _ _ _ H) as [S1 S2]. auto.
Qed.

(** X14: every problem printed on an arithmetic worksheet, in the problem
    pages and in the answer key, carries the right answer: the answer is
    what top, operator and bottom evaluate to (a division is exact, by a
    non-zero divisor), the operator is one of the four display tokens, and
    outside mixed mode it is the operator asked for (['*'] and ['/'] shown
    as ['×'] and ['÷']). *)
Theorem worksheet_answers_correct
    self filename n op min_val max_val title subtitle show mixed
    g canvas g' key :
  0 < problems_per_row self -> 0 < rows_per_page self ->
  generate_worksheet self filename n op min_val max_val
                     title subtitle show mixed g = Ok (canvas, g') ->
  Forall (fun c => sound (cell_problem c) /\
                   (mixed = false ->
                    operation (cell_problem c) = canonical op))
         (cells key canvas).
Proof.
  intros Hc Hr H.
  destruct (generate_worksheet_inv _ _ _ _ _ _ _ _ _ _ _ _ _
              (mkProblem 0 0 "" 0) Hc Hr H)
    as (problems & g1 & Hgen & Hlen & -> & _).
  apply (cells_problems problems (mkProblem 0 0 "" 0) n _ _ g1 Hc Hr
           (fun r => sound r /\ (mixed = false -> operation r = canonical op)));
    [exact Hlen|].
  exact (gen_problems_sound _ _ _ _ _ _ _ _ Hgen).
Qed.

Lemma worksheet_answers_correct_witness :
  Forall (fun c => sound (cell_problem c) /\
                   (false = false -> operation (cell_problem c) = canonical "+"))
         (cells true sample_worksheet).
Proof.
  exact (worksheet_answers_correct (init "School") _ _ _ _ _ _ _ _ _ _ _ _
           true ltac:(cbn; lia) ltac:(cbn; lia) sample_worksheet_run).
Defined.




(** ** [main] *)

Lemma returns_generate_worksheet school filename n op min_val max_val
      title subtitle show mixed :
  0 <= n -> valid_arguments op min_val max_val mixed ->
  returns (generate_worksheet (init school) filename n op min_val max_val
                              title subtitle show mixed)
          (fun canvas => count_pages canvas
                         = (if show then 2 else 1) * pages_needed n 5 6).
Proof.
  intros Hn Hv g.
  destruct (returns_gen_problems n op min_val max_val mixed Hv g)
    as (problems & g1 & Hgen & Hlen).
  eexists. eexists.
  split; [apply (generate_worksheet_spec school filename n op min_val max_val
                   title subtitle show mixed g problems g1
                   (mkProblem 0 0 "" 0) Hn Hgen)|].
  unfold expected_worksheet.
  rewrite (count_pages_canvas problems _ n 5 6 g1
             ltac:(lia) ltac:(lia) ltac:(lia)).
  destruct show; lia.
Qed.

Lemma returns_generate_powers_worksheet school filename n level
      title subtitle show :
  0 <= n ->
  returns (generate_powers_worksheet (init school) filename n level
                                     title subtitle show)
          (fun canvas => count_pages canvas
                         = (if show then 2 else 1) * pages_needed n 2 5).
Proof.
  intros Hn g.
  destruct (generate_powers_worksheet_spec school filename n level
              title subtitle show g no_problem Hn)
    as (problems & g1 & Hgen & Hrun).
  eexists. eexists. split; [exact Hrun|].
  pose proof (repeat_gen_length _ _ _ _ _ Hgen) as Hlen.
  unfold expected_powers_worksheet.
  rewrite (count_pages_canvas problems _ n 2 5 g1
             ltac:(lia) ltac:(lia) ltac:(lia)).
  destruct show; lia.
Qed.

(** X16: [main()] runs to completion whatever the random numbers drawn:
    none of its eight calls raises, and it saves five arithmetic worksheets
    of 2, 2, 2, 2 and 4 pages and three powers-of-ten worksheets of 4 pages
    each (problem pages and answer key). *)
Theorem main_runs_to_completion g :
  exists arithmetic powers g',
    main g = Ok ((arithmetic, powers), g') /\
    map count_pages arithmetic = [2; 2; 2; 2; 4] /\
    map count_pages powers = [4; 4; 4].
Proof.
  assert (H : returns main (fun r =>
                map count_pages (fst r) = [2; 2; 2; 2; 4] /\
                map count_pages (snd r) = [4; 4; 4])).
  { unfold main. cbv zeta.
    eapply returns_bind;
      [apply returns_generate_worksheet;
       [lia | split; reflexivity]|]. intros c1 E1.
    eapply returns_bind;
      [apply returns_generate_worksheet;
       [lia | split; reflexivity]|]. intros c2 E2.
    eapply returns_bind;
      [apply returns_generate_worksheet;
       [lia | split; reflexivity]|]. intros c3 E3.
    eapply returns_bind;
      [apply returns_generate_worksheet;
       [lia | split; reflexivity]|]. intros c4 E4.
    eapply returns_bind;
      [apply returns_generate_worksheet; [lia|]|].
    { intros o Ho. cbn in Ho.
      destruct Ho as [<-|[<-|[<-|[<-|[]]]]]; reflexivity. }
    intros c5 E5.
    eapply returns_bind;
      [apply returns_generate_powers_worksheet; lia|]. intros p1 F1.
    eapply returns_bind;
      [apply returns_generate_powers_worksheet; lia|]. intros p2 F2.
    eapply returns_bind;
      [apply returns_generate_powers_worksheet; lia|]. intros p3 F3.
    apply returns_ret. cbn [fst snd map].
    rewrite E1, E2, E3, E4, E5, F1, F2, F3. split; reflexivity. }
  destruct (H g) as ([arithmetic powers] & g' & E & Ha & Hp).
  exists arithmetic, powers, g'. auto.
Qed.
